(** * Session-management API (posit_app_token_gen.py): a shallow embedding

    Strings are [String.string]; a character is read as its Latin-1 code
    point, which is how the Python [str] operations used below (regex [\d],
    [str.split], [str.strip], comparison) treat the code points 0..255.
    JSON values are [json]; a JSON object (a Python [dict] produced by
    [json.load]) is its key/value list in insertion order.  Python [int]
    is [Z]; file modification times are integers (the float [os.path.getmtime]
    restricted to whole seconds). *)

From Stdlib Require Import String Ascii List ZArith Bool Lia Sorted Permutation.
Import ListNotations.
Open Scope string_scope.
Open Scope Z_scope.

(** ** Python values and outcomes *)

Set Warnings "-register-all".

Inductive json : Type :=
| JNull : json
| JBool : bool -> json
| JNum : Z -> json
| JStr : string -> json
| JArr : list json -> json
| JObject : list (string * json) -> json.

(** An exception as raised by the code: FastAPI's [HTTPException] with its
    status code, or any other [Exception] (the class name or message). *)
Inductive py_exn : Type :=
| HTTPException : Z -> string -> py_exn
| Exception : string -> py_exn.

Inductive outcome (A : Type) : Type :=
| Ok : A -> outcome A
| Raise : py_exn -> outcome A.
Arguments Ok {A} _.
Arguments Raise {A} _.

Definition obind {A B} (m : outcome A) (f : A -> outcome B) : outcome B :=
  match m with Ok a => f a | Raise e => Raise e end.

Notation "'let?' x := m 'in' k" := (obind m (fun x => k))
  (at level 200, x name, m at level 100, k at level 200).

Definition is_http (e : py_exn) : bool :=
  match e with HTTPException _ _ => true | Exception _ => false end.

(** Python truthiness of a JSON value. *)
Definition truthy (v : json) : bool :=
  match v with
  | JNull => false
  | JBool b => b
  | JNum n => negb (n =? 0)
  | JStr s => negb (String.eqb s "")
  | JArr l => match l with [] => false | _ => true end
  | JObject kvs => match kvs with [] => false | _ => true end
  end.

Definition truthy_opt (v : option json) : bool :=
  match v with Some j => truthy j | None => false end.

(** [dict] lookup: the value stored under [k], if any. *)
Fixpoint assoc (kvs : list (string * json)) (k : string) : option json :=
  match kvs with
  | [] => None
  | (k', v) :: rest => if String.eqb k k' then Some v else assoc rest k
  end.

(** [d.get(k)] (default [None]); [AttributeError] when [d] is no dict. *)
Definition py_get (d : json) (k : string) : outcome (option json) :=
  match d with
  | JObject kvs => Ok (assoc kvs k)
  | _ => Raise (Exception "AttributeError")
  end.

(** [d.get(k, default)]. *)
Definition py_get_default (d : json) (k : string) (dflt : json) : outcome json :=
  match d with
  | JObject kvs => Ok (match assoc kvs k with Some v => v | None => dflt end)
  | _ => Raise (Exception "AttributeError")
  end.

(** [d.keys()]. *)
Definition py_keys (d : json) : outcome (list string) :=
  match d with
  | JObject kvs => Ok (map fst kvs)
  | _ => Raise (Exception "AttributeError")
  end.

(** [d[k] = v] on a dict: replaces the value in place, or appends the key. *)
Fixpoint dict_set (kvs : list (string * json)) (k : string) (v : json)
  : list (string * json) :=
  match kvs with
  | [] => [(k, v)]
  | (k', v') :: rest =>
      if String.eqb k k' then (k', v) :: rest else (k', v') :: dict_set rest k v
  end.

(** ** Characters and strings *)

Definition code (c : ascii) : nat := nat_of_ascii c.

Definition is_digit (c : ascii) : bool :=
  (Nat.leb 48 (code c) && Nat.leb (code c) 57)%bool.

(** Python [str.isspace] on the Latin-1 code points. *)
Definition is_space (c : ascii) : bool :=
  let n := code c in
  ((Nat.leb 9 n && Nat.leb n 13) || (Nat.leb 28 n && Nat.leb n 32)
   || Nat.eqb n 133 || Nat.eqb n 160)%bool.

Definition newline : ascii := ascii_of_nat 10.

Fixpoint strip_prefix (p s : string) : option string :=
  match p, s with
  | EmptyString, _ => Some s
  | String c p', String d s' => if Ascii.eqb c d then strip_prefix p' s' else None
  | String _ _, EmptyString => None
  end.

Fixpoint all_digits (s : string) : bool :=
  match s with
  | EmptyString => true
  | String c s' => (is_digit c && all_digits s')%bool
  end.

Definition nonempty (s : string) : bool :=
  match s with EmptyString => false | _ => true end.

(** [int(d)] on a string of decimal digits. *)
Fixpoint digits_value_acc (acc : Z) (s : string) : Z :=
  match s with
  | EmptyString => acc
  | String c s' => digits_value_acc (acc * 10 + Z.of_nat (code c - 48)) s'
  end.

Definition int_of_digits (s : string) : Z := digits_value_acc 0 s.

(** [s] without one final newline, when [s] ends in one. *)
Definition strip_final_newline (s : string) : option string :=
  match rev (list_ascii_of_string s) with
  | c :: r => if Ascii.eqb c newline then Some (string_of_list_ascii (rev r)) else None
  | [] => None
  end.

(** ** get_next_available_session_number *)

Record SessionInfo := mkSessionInfo {
  session_id : string;
  url : string;
  session_name : string;
  display_name : string
}.

Definition session_prefix : string := "JupyterLab Session ".

(** [re.compile(r"^JupyterLab Session (\d+)$").match(s)], returning group 1.
    Python's [$] matches at the end of the string and also just before a
    newline that ends the string. *)
Definition match_session_pattern (s : string) : option string :=
  match strip_prefix session_prefix s with
  | None => None
  | Some rest =>
      if (nonempty rest && all_digits rest)%bool then Some rest
      else match strip_final_newline rest with
           | Some d => if (nonempty d && all_digits d)%bool then Some d else None
           | None => None
           end
  end.

Definition mem_Z (n : Z) (l : list Z) : bool := existsb (Z.eqb n) l.

(** [used_numbers.add(x)] on a set kept as a duplicate-free list. *)
Definition set_add (x : Z) (s : list Z) : list Z :=
  if mem_Z x s then s else s ++ [x].

Fixpoint collect_used (sessions : list SessionInfo) (used : list Z) : list Z :=
  match sessions with
  | [] => used
  | s :: rest =>
      match match_session_pattern (display_name s) with
      | Some g => collect_used rest (set_add (int_of_digits g) used)
      | None => collect_used rest used
      end
  end.

(** [while next_number in used_numbers: next_number += 1], with a fuel that
    bounds the iterations; [next_free_exits] shows that the fuel
    [S (length used)] always reaches the loop's exit condition. *)
Fixpoint next_free (fuel : nat) (used : list Z) (n : Z) : Z :=
  match fuel with
  | O => n
  | S f => if mem_Z n used then next_free f used (n + 1) else n
  end.

Definition get_next_available_session_number (existing_sessions : list SessionInfo) : Z :=
  let used_numbers := collect_used existing_sessions [] in
  next_free (S (length used_numbers)) used_numbers 1.

(** ** The enums and the environment/project map *)

Inductive Environment := DEV | UAT | PROD.
Inductive Project := PROJECT1 | PROJECT2.

Definition env_value (e : Environment) : string :=
  match e with DEV => "DEV" | UAT => "UAT" | PROD => "PROD" end.

Definition project_value (p : Project) : string :=
  match p with PROJECT1 => "PROJECT1" | PROJECT2 => "PROJECT2" end.

Definition ENV_PROJECT_MAP (e : Environment) (p : Project) : option string :=
  match e, p with
  | DEV, PROJECT1 => Some "dev-project1.example.com"
  | DEV, PROJECT2 => Some "dev-project2.example.com"
  | UAT, PROJECT1 => Some "uat-project1.example.com"
  | UAT, PROJECT2 => Some "uat-project2.example.com"
  | PROD, PROJECT1 => Some "prod-project1.example.com"
  | PROD, PROJECT2 => Some "prod-project2.example.com"
  end.

Definition get_base_url (e : Environment) (p : Project) : outcome string :=
  match ENV_PROJECT_MAP e p with
  | Some b => if nonempty b then Ok b
              else Raise (HTTPException 400 "No base URL configured")
  | None => Raise (HTTPException 400 "No base URL configured")
  end.

(** ** The two cached JSON files

    A cache is the pair of globals ([TOKENS_DATA], [TOKENS_LAST_MODIFIED])
    or ([GROUP_CONFIG], [GROUP_CONFIG_LAST_MODIFIED]) together with the file
    on disk: absent, or present with its content and modification time.
    [None] is Python's [None]; [json.load] of the text [null] gives [None]. *)

Inductive file_content := Parsed (j : json) | Unparsable.

Record Cache := mkCache {
  cached_data : option json;
  last_modified : option Z;
  disk_file : option (file_content * Z)
}.

Definition py_of_json (j : json) : option json :=
  match j with JNull => None | _ => Some j end.

Definition is_none {A} (o : option A) : bool :=
  match o with None => true | Some _ => false end.

(** [LAST_MODIFIED and current_mtime > LAST_MODIFIED]: a recorded mtime is
    tested for truthiness first, and [0.0] is falsy. *)
Definition mtime_newer (last : option Z) (current_mtime : Z) : bool :=
  match last with
  | Some m => (negb (m =? 0) && (current_mtime >? m))%bool
  | None => false
  end.

Definition reload_needed (s : Cache) (force_reload : bool) (current_mtime : Z) : bool :=
  (is_none (cached_data s) || force_reload || mtime_newer (last_modified s) current_mtime)%bool.

Definition cached_value (s : Cache) : json :=
  match cached_data s with Some d => d | None => JNull end.

Definition load_tokens_data (force_reload : bool) (s : Cache) : Cache * outcome json :=
  match disk_file s with
  | None =>
      (s, Raise (HTTPException 500 "Error loading token file: Token file 'tokens.json' not found"))
  | Some (content, current_mtime) =>
      if reload_needed s force_reload current_mtime then
        match content with
        | Unparsable => (s, Raise (HTTPException 400 "Error parsing JSON file 'tokens.json'"))
        | Parsed j => (mkCache (py_of_json j) (Some current_mtime) (disk_file s), Ok j)
        end
      else (s, Ok (cached_value s))
  end.

(** The missing-file [HTTPException(404)] is raised inside the [try] and
    rewrapped by its [except Exception] clause into a 500. *)
Definition load_group_config (force_reload : bool) (s : Cache) : Cache * outcome json :=
  match disk_file s with
  | None =>
      (s, Raise (HTTPException 500 "Error loading group config: 404: Group config file 'group_config.json' not found"))
  | Some (content, current_mtime) =>
      if reload_needed s force_reload current_mtime then
        match content with
        | Unparsable => (s, Raise (HTTPException 400 "Error parsing group config file"))
        | Parsed j => (mkCache (py_of_json j) (Some current_mtime) (disk_file s), Ok j)
        end
      else (s, Ok (cached_value s))
  end.

(** ** Token lookup *)

Definition not_found : py_exn := HTTPException 404 "not found in token file".

(** The body of [get_token_from_memory] after [load_tokens_data()]. *)
Definition lookup_token (tokens_data : json) (project_name : string)
    (env : Environment) (username : string) : outcome json :=
  let? project_data := py_get tokens_data project_name in
  match project_data with
  | Some pd =>
      if truthy pd then
        let? env_data := py_get pd (env_value env) in
        match env_data with
        | Some ed =>
            if truthy ed then
              let? token := py_get ed username in
              match token with
              | Some t => if truthy t then Ok t else Raise not_found
              | None => Raise not_found
              end
            else Raise not_found
        | None => Raise not_found
        end
      else Raise not_found
  | None => Raise not_found
  end.

Definition get_token_from_memory (project_name : string) (env : Environment)
    (username : string) (s : Cache) : Cache * outcome json :=
  let (s1, r) := load_tokens_data false s in
  (s1, let? tokens_data := r in lookup_token tokens_data project_name env username).

(** The value stored at [tokens[project][env][username]], following dicts. *)
Definition token_at (d : json) (project_name env_name username : string) : option json :=
  match d with
  | JObject top =>
      match assoc top project_name with
      | Some (JObject pkvs) =>
          match assoc pkvs env_name with
          | Some (JObject ekvs) => assoc ekvs username
          | _ => None
          end
      | _ => None
      end
  | _ => None
  end.

(** ** add_token_to_file *)

(** The nested update of the dict read from the file.  On a non-dict level
    the code's [in] test and item assignment raise ([TypeError]) before the
    file is written. *)
Definition set_token (d : json) (p e u : string) (t : json) : outcome json :=
  match d with
  | JObject top =>
      match match assoc top p with Some v => v | None => JObject [] end with
      | JObject pkvs =>
          match match assoc pkvs e with Some v => v | None => JObject [] end with
          | JObject ekvs =>
              Ok (JObject (dict_set top p (JObject (dict_set pkvs e (JObject (dict_set ekvs u t))))))
          | _ => Raise (Exception "TypeError")
          end
      | _ => Raise (Exception "TypeError")
      end
  | _ => Raise (Exception "TypeError")
  end.

(** [now] is the modification time the file gets from the write. *)
Definition add_token_to_file (project : Project) (env : Environment) (username token : string)
    (now : Z) (s : Cache) : Cache * outcome unit :=
  let read := match disk_file s with
              | Some (Parsed j, _) => Ok j
              | Some (Unparsable, _) => Raise (Exception "JSONDecodeError")
              | None => Ok (JObject [])
              end in
  match (let? tokens_data := read in
         set_token tokens_data (project_value project) (env_value env) username (JStr token)) with
  | Ok d' => (mkCache (Some d') (Some now) (Some (Parsed d', now)), Ok tt)
  | Raise e => (s, Raise (Exception "Error updating token file"))
  end.

(** ** Group membership *)

(** What running [groups <username>] gives: its standard output, or one of
    the failures the code distinguishes. *)
Inductive CmdResult :=
| CmdOk (stdout : string)
| CmdCalledProcessError
| CmdFileNotFound
| CmdOtherError (msg : string).

Fixpoint drop_spaces (cs : list ascii) : list ascii :=
  match cs with
  | c :: r => if is_space c then drop_spaces r else cs
  | [] => []
  end.

(** [str.strip()]. *)
Definition py_strip (s : string) : string :=
  string_of_list_ascii (rev (drop_spaces (rev (drop_spaces (list_ascii_of_string s))))).

Definition colon : ascii := ascii_of_nat 58.

Fixpoint has_char (c : ascii) (s : string) : bool :=
  match s with
  | EmptyString => false
  | String d s' => (Ascii.eqb c d || has_char c s')%bool
  end.

(** [s.split(':', 1)[1]] when [s] contains a colon. *)
Fixpoint after_colon (s : string) : string :=
  match s with
  | EmptyString => EmptyString
  | String d s' => if Ascii.eqb d colon then s' else after_colon s'
  end.

(** [str.split()] with no separator: the maximal runs of non-space
    characters. *)
Fixpoint split_ws_acc (cur : list ascii) (cs : list ascii) : list string :=
  match cs with
  | [] => match cur with [] => [] | _ => [string_of_list_ascii (rev cur)] end
  | c :: r =>
      if is_space c then
        match cur with
        | [] => split_ws_acc [] r
        | _ => string_of_list_ascii (rev cur) :: split_ws_acc [] r
        end
      else split_ws_acc (c :: cur) r
  end.

Definition py_split (s : string) : list string := split_ws_acc [] (list_ascii_of_string s).

Definition get_user_groups (result : CmdResult) : outcome (list string) :=
  match result with
  | CmdOk stdout =>
      let output := py_strip stdout in
      if has_char colon output then Ok (py_split (py_strip (after_colon output)))
      else Ok []
  | CmdCalledProcessError => Ok []
  | CmdFileNotFound =>
      Raise (HTTPException 500 "'groups' command not available on this system")
  | CmdOtherError msg => Raise (HTTPException 500 "Error getting user groups")
  end.

(** [for group in required_groups]: a list yields its items and a dict its
    keys; [None], numbers and booleans are not iterable. *)
Definition py_iter (v : json) : outcome (list json) :=
  match v with
  | JArr l => Ok l
  | JObject kvs => Ok (map (fun kv => JStr (fst kv)) kvs)
  | JStr s => Ok (map (fun c => JStr (String c EmptyString)) (list_ascii_of_string s))
  | _ => Raise (Exception "TypeError")
  end.

(** [group in user_groups] for a list of strings. *)
Definition in_groups (g : json) (user_groups : list string) : bool :=
  match g with
  | JStr s => existsb (String.eqb s) user_groups
  | _ => false
  end.

(** The body of the [try] in [check_user_access_for_launch], once the group
    configuration is loaded. *)
Definition access_decision (group_config : json) (user_groups : list string)
    (project : Project) (env : Environment) : outcome bool :=
  let? project_configs := py_get_default group_config "project_name" (JObject []) in
  let? project_config := py_get_default project_configs (project_value project) (JObject []) in
  let? env_config := py_get_default project_config (env_value env) (JObject []) in
  let? required_groups := py_get_default env_config "groups" (JArr []) in
  let required_groups := match required_groups with
                         | JStr s => JArr [JStr s]
                         | v => v
                         end in
  let? items := py_iter required_groups in
  Ok (existsb (fun group => in_groups group user_groups) items).

Definition check_user_access_for_launch (gs : Cache) (groups_cmd : string -> CmdResult)
    (username : string) (project : Project) (env : Environment) : Cache * bool :=
  let (gs1, r) := load_group_config false gs in
  (gs1, match (let? group_config := r in
               let? user_groups := get_user_groups (groups_cmd username) in
               access_decision group_config user_groups project env) with
        | Ok has_access => has_access
        | Raise _ => false
        end).

(** The policy entry [group_config["project_name"][project][env]["groups"]]
    when every level on the way is a dict. *)
Definition groups_entry (cfg : json) (project : Project) (env : Environment) : option json :=
  match cfg with
  | JObject top =>
      match assoc top "project_name" with
      | Some (JObject projects) =>
          match assoc projects (project_value project) with
          | Some (JObject envs) =>
              match assoc envs (env_value env) with
              | Some (JObject ec) => assoc ec "groups"
              | _ => None
              end
          | _ => None
          end
      | _ => None
      end
  | _ => None
  end.

(** The required groups as the policy states them: a single string is a
    one-element list, a list contributes its strings, anything else
    (and a missing entry) none. *)
Definition required_groups_of (cfg : json) (project : Project) (env : Environment) : list string :=
  match groups_entry cfg project env with
  | Some (JStr s) => [s]
  | Some (JArr l) => flat_map (fun v => match v with JStr s => [s] | _ => [] end) l
  | _ => []
  end.

(** ** Listing the available users *)

Definition mem_str (x : string) (l : list string) : bool := existsb (String.eqb x) l.

(** [users.update(keys)] on a set kept as a duplicate-free list. *)
Fixpoint set_update (users : list string) (ks : list string) : list string :=
  match ks with
  | [] => users
  | k :: rest => set_update (if mem_str k users then users else users ++ [k]) rest
  end.

Fixpoint users_of_envs (project_data : json) (envs_to_check : list string)
    (users : list string) : outcome (list string) :=
  match envs_to_check with
  | [] => Ok users
  | env_name :: rest =>
      let? env_data := py_get_default project_data env_name (JObject []) in
      let? ks := py_keys env_data in
      users_of_envs project_data rest (set_update users ks)
  end.

Fixpoint users_of_projects (tokens_data : json) (env : option Environment)
    (projects_to_check : list string) (users : list string) : outcome (list string) :=
  match projects_to_check with
  | [] => Ok users
  | project_name :: rest =>
      let? project_data := py_get_default tokens_data project_name (JObject []) in
      let? envs_to_check := match env with
                            | Some e => Ok [env_value e]
                            | None => py_keys project_data
                            end in
      let? users' := users_of_envs project_data envs_to_check users in
      users_of_projects tokens_data env rest users'
  end.

Definition collect_users (tokens_data : json) (project : option Project)
    (env : option Environment) : outcome (list string) :=
  let? projects_to_check := match project with
                            | Some p => Ok [project_value p]
                            | None => py_keys tokens_data
                            end in
  users_of_projects tokens_data env projects_to_check [].

(** [sorted] on strings: Python orders [str] by code points, which is
    [String.compare]. *)
Fixpoint insert_sorted (x : string) (l : list string) : list string :=
  match l with
  | [] => [x]
  | y :: r => if String.ltb x y then x :: y :: r else y :: insert_sorted x r
  end.

Fixpoint sort_strings (l : list string) : list string :=
  match l with
  | [] => []
  | x :: r => insert_sorted x (sort_strings r)
  end.

Definition get_available_users_from_memory (project : option Project)
    (env : option Environment) (s : Cache) : Cache * list string :=
  let (s1, r) := load_tokens_data false s in
  (s1, match (let? tokens_data := r in collect_users tokens_data project env) with
       | Ok users => sort_strings users
       | Raise _ => []
       end).

(** ** Token generation and get_or_create_user_token *)

(** [s.split(c)]. *)
Fixpoint split_on_acc (c : ascii) (cur : list ascii) (cs : list ascii) : list string :=
  match cs with
  | [] => [string_of_list_ascii (rev cur)]
  | d :: r =>
      if Ascii.eqb c d then string_of_list_ascii (rev cur) :: split_on_acc c [] r
      else split_on_acc c (d :: cur) r
  end.

Definition split_on (c : ascii) (s : string) : list string :=
  split_on_acc c [] (list_ascii_of_string s).

Definition pipe : ascii := ascii_of_nat 124.
Definition hash : ascii := ascii_of_nat 35.

Fixpoint token_from_pipe_lines (lines : list string) : option string :=
  match lines with
  | [] => None
  | line :: rest =>
      if has_char pipe line then
        match split_on pipe line with
        | _ :: part1 :: _ =>
            let token := py_strip part1 in
            if nonempty token then Some token else token_from_pipe_lines rest
        | _ => token_from_pipe_lines rest
        end
      else token_from_pipe_lines rest
  end.

Fixpoint first_plain_line (lines : list string) : option string :=
  match lines with
  | [] => None
  | line :: rest =>
      let stripped_line := py_strip line in
      match stripped_line with
      | String c _ => if Ascii.eqb c hash then first_plain_line rest else Some stripped_line
      | EmptyString => first_plain_line rest
      end
  end.

(** [generate_user_token]: the [pbrun] command's result, parsed. *)
Definition generate_user_token (pbrun : CmdResult) : outcome string :=
  match pbrun with
  | CmdOk stdout =>
      let output_lines := split_on newline stdout in
      match token_from_pipe_lines output_lines with
      | Some token => Ok token
      | None =>
          match first_plain_line output_lines with
          | Some line => Ok line
          | None => Raise (Exception "Error generating token: No token found in command output")
          end
      end
  | CmdCalledProcessError =>
      (* raised from the [except CalledProcessError] clause, so the sibling
         [except Exception] clause does not rewrap it; [e.stderr] is not
         modelled *)
      Raise (Exception "Token generation command failed: ")
  | CmdFileNotFound => Raise (Exception "Error generating token: FileNotFoundError")
  | CmdOtherError msg => Raise (Exception ("Error generating token: " ++ msg))
  end.

(** [has_access] is what [check_user_access_for_launch] returns when it is
    called (it reads only the group configuration), [pbrun] what the token
    command gives and [now] the mtime of the rewritten token file. *)
Definition get_or_create_user_token (project : Project) (env : Environment)
    (username : string) (has_access : bool) (pbrun : CmdResult) (now : Z)
    (s : Cache) : Cache * outcome (string * json) :=
  let (s1, r) := get_token_from_memory (project_value project) env username s in
  match r with
  | Ok token => (s1, Ok (username, token))
  | Raise (HTTPException status detail) =>
      if status =? 404 then
        if has_access then
          match generate_user_token pbrun with
          | Ok new_token =>
              let (s2, w) := add_token_to_file project env username new_token now s1 in
              match w with
              | Ok _ => (s2, Ok (username, JStr new_token))
              | Raise _ =>
                  (s2, Raise (HTTPException 500 "User has access but failed to generate token"))
              end
          | Raise _ =>
              (s1, Raise (HTTPException 500 "User has access but failed to generate token"))
          end
        else (s1, Raise (HTTPException status detail))
      else (s1, Raise (HTTPException status detail))
  | Raise (Exception _) => (s1, Raise (HTTPException 500 "Error getting user token"))
  end.

(** ** Requests to the external services and the session endpoints *)

(** Calls to the outside world, in the order the code makes them.
    [EValidateNode n] marks a call of [validate_node_selection] for node [n]. *)
Inductive Event :=
| EValidateNode (node : string)
| EGet (url : string)
| EPost (url : string) (payload : json).

(** A computation of an endpoint: the calls it made and its outcome. *)
Definition M (A : Type) : Type := list Event * outcome A.

Definition ret {A} (a : A) : M A := ([], Ok a).

Definition lift {A} (r : outcome A) : M A := ([], r).

Definition mbind {A B} (m : M A) (f : A -> M B) : M B :=
  match m with
  | (t, Ok a) => let (t', r) := f a in (app t t', r)
  | (t, Raise e) => (t, Raise e)
  end.

Notation "x <- m ;; k" := (mbind m (fun x => k))
  (at level 61, m at next level, right associativity).
Notation "' p <- m ;; k" := (mbind m (fun x => match x with p => k end))
  (at level 61, p pattern, m at next level, right associativity).

(** [try: m except HTTPException: raise except Exception as e: handler(str(e))]. *)
Definition try_reraise_http {A} (m : M A) (handler : string -> M A) : M A :=
  match m with
  | (t, Raise (Exception msg)) => let (t', r) := handler msg in (app t t', r)
  | _ => m
  end.

(** [try: m except Exception: handler] (an [HTTPException] is an [Exception]). *)
Definition try_catch_all {A} (m : M A) (handler : M A) : M A :=
  match m with
  | (t, Raise _) => let (t', r) := handler in (app t t', r)
  | _ => m
  end.

(** What [requests] gives for the POST to the session API: the response body
    parsed by [json.loads], a [RequestException] (connection errors and
    [raise_for_status]), or a body that is no JSON. *)
Inductive PostResult := PostOk (body : json) | PostRequestError (msg : string) | PostBadJson (msg : string).

(** What [requests] gives for the node-selection GET. *)
Inductive GetResult := GetOk | GetRequestError (msg : string) | GetOtherError (msg : string).

Definition format_base_url (base_url : string) : string :=
  match strip_prefix "http://" base_url, strip_prefix "https://" base_url with
  | None, None => "https://" ++ base_url
  | _, _ => base_url
  end.

Definition LAUNCH_API : string := "/api/launch_session".
Definition GET_SESSION_API : string := "/api/get_session".
Definition STOP_SESSION_API : string := "/api/stop_session".

(** [str(n)] for a non-negative [int]. *)
Fixpoint decimal_acc (fuel : nat) (n : Z) (acc : string) : string :=
  match fuel with
  | O => acc
  | S f =>
      let acc' := String (ascii_of_nat (48 + Z.to_nat (n mod 10))) acc in
      if n / 10 =? 0 then acc' else decimal_acc f (n / 10) acc'
  end.

Definition str_of_Z (n : Z) : string :=
  decimal_acc (S (Pos.size_nat (Z.to_pos n))) n EmptyString.

Definition comma : ascii := ascii_of_nat 44.

Fixpoint join_comma (l : list string) : string :=
  match l with
  | [] => ""
  | [x] => x
  | x :: r => x ++ "," ++ join_comma r
  end.

(** [k in v]: key test on a dict, item test on a list, substring test on a
    string; other values are not containers. *)
Definition py_contains (v : json) (k : string) : outcome bool :=
  match v with
  | JObject kvs => Ok (match assoc kvs k with Some _ => true | None => false end)
  | JArr l => Ok (existsb (fun x => match x with JStr s => String.eqb s k | _ => false end) l)
  | JStr s => Ok (match String.index 0 k s with Some _ => true | None => false end)
  | _ => Raise (Exception "TypeError")
  end.

(** [v[k]] with a string key. *)
Definition py_getitem (v : json) (k : string) : outcome json :=
  match v with
  | JObject kvs => match assoc kvs k with
                   | Some x => Ok x
                   | None => Raise (Exception "KeyError")
                   end
  | _ => Raise (Exception "TypeError")
  end.

Definition as_str (v : json) : outcome string :=
  match v with JStr s => Ok s | _ => Raise (Exception "ValidationError") end.

(** [extract_session_info]; the [SessionInfo] fields are pydantic [str]
    fields, which refuse values that are not strings. *)
Definition extract_session_info (base_url : string) (session_data : json) : outcome SessionInfo :=
  let? dn := py_get_default session_data "display_name" (JStr "") in
  let? dn := if truthy dn then Ok dn
             else let? inner := py_get_default session_data "session_name" (JStr "") in
                  py_get_default session_data "name" inner in
  let? sid := py_get_default session_data "id" (JStr "") in
  let? u := py_get_default session_data "url" (JStr "") in
  let? u := match u with JStr s => Ok s | _ => Raise (Exception "TypeError") end in
  let? sid := as_str sid in
  let? dn := as_str dn in
  Ok (mkSessionInfo sid (format_base_url base_url ++ u) dn dn).

Fixpoint map_outcome {A B} (f : A -> outcome B) (l : list A) : outcome (list B) :=
  match l with
  | [] => Ok []
  | x :: r => let? y := f x in let? ys := map_outcome f r in Ok (y :: ys)
  end.

(** [if resp and "result" in resp and "sessions" in resp["result"]:] followed
    by the loop over [resp["result"]["sessions"]]; [None] when the test fails. *)
Definition sessions_of_response (base_url : string) (resp : json) : outcome (option (list SessionInfo)) :=
  if truthy resp then
    let? c1 := py_contains resp "result" in
    if c1 then
      let? result := py_getitem resp "result" in
      let? c2 := py_contains result "sessions" in
      if c2 then
        let? ss := py_getitem result "sessions" in
        let? items := py_iter ss in
        let? infos := map_outcome (extract_session_info base_url) items in
        Ok (Some infos)
      else Ok None
    else Ok None
  else Ok None.

(** [str(x)] of a response or of an exception, kept symbolic. *)
Inductive ErrorText := ErrRepr (j : json) | ErrMsg (s : string).

Inductive LaunchSessionResponse :=
  mkLaunchSessionResponse (success : bool) (message : string) (session_url : option string)
    (session_name : option string) (error : option ErrorText).

Inductive GetSessionsResponse :=
  mkGetSessionsResponse (success : bool) (message : string) (sessions : list SessionInfo)
    (error : option ErrorText).

Inductive StopSessionResponse :=
  mkStopSessionResponse (success : bool) (message : string) (stopped_sessions : list string)
    (error : option ErrorText).

Record LaunchSessionRequest := mkLaunchSessionRequest {
  req_session_name : option string;
  workbench : string;
  cluster : string;
  env : Environment;
  project : Project;
  node_selection : option string
}.

Record StopSessionRequest := mkStopSessionRequest {
  session_ids : list string;
  force_quit : bool;
  suspend_session : bool;
  stop_env : Environment;
  stop_project : Project
}.

Definition truthy_str (s : option string) : bool :=
  match s with Some x => nonempty x | None => false end.

Definition is_project1 (p : Project) : bool := match p with PROJECT1 => true | PROJECT2 => false end.
Definition is_project2 (p : Project) : bool := match p with PROJECT2 => true | PROJECT1 => false end.

(** [final_node_selection] as the launch endpoint computes it. *)
Definition final_node_selection (project : Project) (node_selection : option string) : option string :=
  let f := node_selection in
  let f := if (is_project1 project && negb (truthy_str node_selection))%bool then Some "N" else f in
  if is_project2 project then None else f.

Definition launch_payload (workbench name cluster : string) : json :=
  JObject [("method", JStr "launch_session");
           ("kwparams", JObject [("workbench", JStr workbench); ("name", JStr name);
                                 ("launch_parameters",
                                   JObject [("name", JStr name); ("cluster", JStr cluster);
                                            ("placement_constraints", JArr []);
                                            ("resource_limits", JArr []); ("queues", JArr [])])])].

Definition stop_payload (session_ids : list string) (force_quit suspend_session : bool) : json :=
  JObject [("method", JStr "stop_session");
           ("kwparams", JObject [("session_ids", JStr (join_comma session_ids));
                                 ("force_quit", JBool force_quit);
                                 ("suspend_session", JBool suspend_session)])].

(** The launch endpoint's test of the launch response and the answer it builds. *)
Definition launch_result (base_url : string) (response_data : json) (actual_session_name : string)
  : outcome LaunchSessionResponse :=
  let unexpected := Ok (mkLaunchSessionResponse false "Unexpected response format from external API"
                          None None (Some (ErrRepr response_data))) in
  if truthy response_data then
    let? c1 := py_contains response_data "result" in
    if c1 then
      let? result := py_getitem response_data "result" in
      let? c2 := py_contains result "url" in
      if c2 then
        let? u := py_getitem result "url" in
        let? u := match u with JStr s => Ok s | _ => Raise (Exception "TypeError") end in
        Ok (mkLaunchSessionResponse true "Session launched successfully"
              (Some (format_base_url base_url ++ u)) (Some actual_session_name) None)
      else unexpected
    else unexpected
  else unexpected.

Section Endpoints.

(** The outside world: the session API's answer to a POST (url, payload,
    token), the node-selection service's answer to a GET, and the results of
    [check_user_access_for_launch] and [get_or_create_user_token] (embedded
    above) as the endpoints see them. *)
Variable post : string -> json -> json -> PostResult.
Variable node_get : string -> GetResult.
Variable check_access : string -> Project -> Environment -> bool.
Variable user_token : Project -> Environment -> string -> outcome (string * json).

Definition make_api_request (base_url api_endpoint : string) (payload token : json) : M json :=
  let u := format_base_url base_url ++ api_endpoint in
  ([EPost u payload],
   match post u payload token with
   | PostOk body => Ok body
   | PostRequestError _ => Raise (HTTPException 500 "Request to external API failed")
   | PostBadJson _ => Raise (HTTPException 500 "Failed to parse response JSON")
   end).

Definition validate_node_selection (base_url node_selection username : string) : M bool :=
  let node_url := "https://" ++ base_url ++ ":8084/cluster/" ++ node_selection
                  ++ "/user/" ++ username in
  ([EValidateNode node_selection; EGet node_url],
   match node_get node_url with
   | GetOk => Ok true
   | GetRequestError _ =>
       Raise (HTTPException 400 ("Node selection failed for node '" ++ node_selection ++ "'"))
   | GetOtherError _ => Raise (HTTPException 500 "Unexpected error during node selection")
   end).

Definition get_sessions_api (base_url : string) (token : json) : M json :=
  make_api_request base_url GET_SESSION_API (JObject [("method", JStr "get_session")]) token.

Definition stop_session_api (base_url : string) (token : json) (session_ids : list string)
    (force_quit suspend_session : bool) : M json :=
  make_api_request base_url STOP_SESSION_API (stop_payload session_ids force_quit suspend_session) token.

Definition launch_session_api (base_url : string) (token : json)
    (custom_session_name : option string) (workbench cluster : string) : M (json * string) :=
  unique_session_name <-
    try_catch_all
      (sessions_response <- get_sessions_api base_url token;;
       existing <- lift (sessions_of_response base_url sessions_response);;
       let existing_sessions := match existing with Some l => l | None => [] end in
       match custom_session_name with
       | Some c => if nonempty c then ret c
                   else ret (session_prefix ++ str_of_Z (get_next_available_session_number existing_sessions))
       | None => ret (session_prefix ++ str_of_Z (get_next_available_session_number existing_sessions))
       end)
      (ret "JupyterLab Session 1");;
  response_data <- make_api_request base_url LAUNCH_API
                     (launch_payload workbench unique_session_name cluster) token;;
  ret (response_data, unique_session_name).

Definition launch_session_endpoint (request : LaunchSessionRequest) (username : string)
  : M LaunchSessionResponse :=
  if negb (check_access username (project request) (env request)) then
    lift (Raise (HTTPException 403 "User does not have permission to launch sessions"))
  else
    ' (username, token) <- lift (user_token (project request) (env request) username);;
    base_url <- lift (get_base_url (env request) (project request));;
    let final := final_node_selection (project request) (node_selection request) in
    try_reraise_http
      (_ <- (if (is_project1 (project request) && truthy_str final)%bool
             then validate_node_selection base_url (match final with Some n => n | None => "" end) username
             else ret true);;
       ' (response_data, actual_session_name) <-
          launch_session_api base_url token (req_session_name request)
            (workbench request) (cluster request);;
       lift (launch_result base_url response_data actual_session_name))
      (fun msg => ret (mkLaunchSessionResponse false "Failed to launch session" None None
                         (Some (ErrMsg msg)))).

Definition get_sessions_endpoint (username : string) (env : Environment) (project : Project)
  : M GetSessionsResponse :=
  ' (username, token) <- lift (user_token project env username);;
  base_url <- lift (get_base_url env project);;
  try_reraise_http
    (response_data <- get_sessions_api base_url token;;
     lift (let? ss := sessions_of_response base_url response_data in
           match ss with
           | Some sessions =>
               Ok (mkGetSessionsResponse true
                     ("Found " ++ str_of_Z (Z.of_nat (length sessions)) ++ " sessions") sessions None)
           | None =>
               Ok (mkGetSessionsResponse false "No sessions found or unexpected response format" []
                     (Some (if truthy response_data then ErrRepr response_data
                            else ErrMsg "Empty response")))
           end))
    (fun msg => ret (mkGetSessionsResponse false "Failed to get sessions" [] (Some (ErrMsg msg)))).

Definition stop_session_endpoint (request : StopSessionRequest) (username : string)
  : M StopSessionResponse :=
  ' (username, token) <- lift (user_token (stop_project request) (stop_env request) username);;
  base_url <- lift (get_base_url (stop_env request) (stop_project request));;
  try_reraise_http
    (response_data <- stop_session_api base_url token (session_ids request)
                        (force_quit request) (suspend_session request);;
     if truthy response_data then
       ret (mkStopSessionResponse true
              ("Successfully stopped " ++ str_of_Z (Z.of_nat (length (session_ids request)))
               ++ " sessions") (session_ids request) None)
     else
       ret (mkStopSessionResponse false "Empty response from external API" []
              (Some (ErrMsg "No response data received"))))
    (fun msg => ret (mkStopSessionResponse false "Failed to stop sessions" [] (Some (ErrMsg msg)))).

End Endpoints.

(** The blocks the session endpoints are made of, written as they stand in
    the code: the node-selection check of a launch, the choice of the
    session name in [launch_session_api] (its own [try]), and the [try]
    blocks of the three endpoints. The equations relating them to the
    endpoints are proved by [reflexivity] below. *)
Definition node_validation (node_get : string -> GetResult) (request : LaunchSessionRequest)
    (username base_url : string) : M bool :=
  let final := final_node_selection (project request) (node_selection request) in
  if (is_project1 (project request) && truthy_str final)%bool
  then validate_node_selection node_get base_url (match final with Some n => n | None => "" end) username
  else ret true.

Definition session_name_choice (post : string -> json -> json -> PostResult) (base_url : string)
    (token : json) (custom_session_name : option string) : M string :=
  try_catch_all
    (sessions_response <- get_sessions_api post base_url token;;
     existing <- lift (sessions_of_response base_url sessions_response);;
     let existing_sessions := match existing with Some l => l | None => [] end in
     match custom_session_name with
     | Some c => if nonempty c then ret c
                 else ret (session_prefix ++ str_of_Z (get_next_available_session_number existing_sessions))
     | None => ret (session_prefix ++ str_of_Z (get_next_available_session_number existing_sessions))
     end)
    (ret "JupyterLab Session 1").

Definition launch_try_block (post : string -> json -> json -> PostResult)
    (node_get : string -> GetResult) (request : LaunchSessionRequest) (username : string)
    (token : json) (base_url : string) : M LaunchSessionResponse :=
  _ <- node_validation node_get request username base_url;;
  ' (response_data, actual_session_name) <-
     launch_session_api post base_url token (req_session_name request)
       (workbench request) (cluster request);;
  lift (launch_result base_url response_data actual_session_name).

Definition get_sessions_try_block (post : string -> json -> json -> PostResult)
    (base_url : string) (token : json) : M GetSessionsResponse :=
  response_data <- get_sessions_api post base_url token;;
  lift (let? ss := sessions_of_response base_url response_data in
        match ss with
        | Some sessions =>
            Ok (mkGetSessionsResponse true
                  ("Found " ++ str_of_Z (Z.of_nat (length sessions)) ++ " sessions") sessions None)
        | None =>
            Ok (mkGetSessionsResponse false "No sessions found or unexpected response format" []
                  (Some (if truthy response_data then ErrRepr response_data
                         else ErrMsg "Empty response")))
        end).

Definition stop_try_block (post : string -> json -> json -> PostResult)
    (request : StopSessionRequest) (base_url : string) (token : json) : M StopSessionResponse :=
  response_data <- stop_session_api post base_url token (session_ids request)
                     (force_quit request) (suspend_session request);;
  if truthy response_data then
    ret (mkStopSessionResponse true
           ("Successfully stopped " ++ str_of_Z (Z.of_nat (length (session_ids request)))
            ++ " sessions") (session_ids request) None)
  else
    ret (mkStopSessionResponse false "Empty response from external API" []
           (Some (ErrMsg "No response data received"))).

(** The nodes [validate_node_selection] was called for, in order. *)
Fixpoint validated_nodes (t : list Event) : list string :=
  match t with
  | [] => []
  | EValidateNode n :: r => n :: validated_nodes r
  | _ :: r => validated_nodes r
  end.

(** ** Properties as the specification words them *)

(** A display name that is exactly [JupyterLab Session] followed by the
    decimal numeral of [n] (leading zeros allowed). *)
Definition exact_session_name (s : string) (n : Z) : Prop :=
  exists d, s = session_prefix ++ d /\ nonempty d = true /\ all_digits d = true
            /\ int_of_digits d = n.

(** The reload condition of the loaders as the specification states it: not
    yet loaded, forced, or the current mtime strictly greater than the
    recorded one. *)
Definition reload_condition_spec (s : Cache) (force_reload : bool) (current_mtime : Z) : bool :=
  (is_none (cached_data s) || force_reload
   || match last_modified s with Some m => current_mtime >? m | None => false end)%bool.

(** Along the path [project/env] the token store has dicts or nothing. *)
Definition store_path_ok (d : json) (project_name env_name : string) : Prop :=
  match d with
  | JObject top =>
      match assoc top project_name with
      | None => True
      | Some (JObject pkvs) =>
          match assoc pkvs env_name with
          | None | Some (JObject _) => True
          | Some _ => False
          end
      | Some _ => False
      end
  | _ => False
  end.

(** Along the path [project/env] the token data has dicts, nothing, or a
    falsy value. *)
Definition lookup_path_ok (d : json) (project_name env_name : string) : Prop :=
  match d with
  | JObject top =>
      match assoc top project_name with
      | None => True
      | Some (JObject pkvs) =>
          match assoc pkvs env_name with
          | None | Some (JObject _) => True
          | Some v => truthy v = false
          end
      | Some v => truthy v = false
      end
  | _ => False
  end.

(** The token store of the data model: project -> environment -> username. *)
Definition wf_store (d : json) : Prop :=
  exists top, d = JObject top /\
    Forall (fun kv => exists pkvs, snd kv = JObject pkvs /\
              Forall (fun kv' => exists ekvs, snd kv' = JObject ekvs) pkvs) top.

(** [u] has an entry under a (project, environment) pair the filters select. *)
Definition user_listed (d : json) (project : option Project) (env : option Environment)
    (u : string) : Prop :=
  exists top pn en pkvs ekvs,
    d = JObject top /\ assoc top pn = Some (JObject pkvs) /\
    assoc pkvs en = Some (JObject ekvs) /\ In u (map fst ekvs) /\
    match project with Some p => pn = project_value p | None => True end /\
    match env with Some e => en = env_value e | None => True end.

(** The environment filter of the listing selects [en]. *)
Definition env_selected (env : option Environment) (en : string) : Prop :=
  match env with Some e => en = env_value e | None => True end.

(** Strict order of [sorted] on strings. *)
Definition str_lt (a b : string) : Prop := String.ltb a b = true.

(** Taken numbers at or above [n]: the measure of the search loop. *)
Definition count_from (used : list Z) (n : Z) : nat := length (filter (Z.leb n) used).

(** An outcome that, if it is an exception, is an [HTTPException]: what
    FastAPI turns into an error status. *)
Definition http_only {A} (r : outcome A) : Prop :=
  forall e, r = Raise e -> is_http e = true.

(** A computation that never calls [validate_node_selection]. *)
Definition no_validation {A} (m : M A) : Prop := validated_nodes (fst m) = [].

(** The request with its [node_selection] left out. *)
Definition without_node_selection (r : LaunchSessionRequest) : LaunchSessionRequest :=
  mkLaunchSessionRequest (req_session_name r) (workbench r) (cluster r) (env r) (project r) None.

(** ** Project access listing *)

(** Whether an environment's policy entry lets one of [user_groups] in: the
    loop body of [check_project_access] (the same statements as in
    [check_user_access_for_launch]). *)
Definition env_grants (user_groups : list string) (env_config : json) : outcome bool :=
  let? required_groups := py_get_default env_config "groups" (JArr []) in
  let required_groups := match required_groups with
                         | JStr s => JArr [JStr s]
                         | v => v
                         end in
  let? items := py_iter required_groups in
  Ok (existsb (fun group => in_groups group user_groups) items).

(** [for env, env_config in project_config.items(): ...]. *)
Fixpoint accessible_envs (user_groups : list string) (items : list (string * json))
  : outcome (list string) :=
  match items with
  | [] => Ok []
  | (env, env_config) :: rest =>
      let? g := env_grants user_groups env_config in
      let? acc := accessible_envs user_groups rest in
      Ok (if g then env :: acc else acc)
  end.

Definition check_project_access (user_groups : list string) (project_config : json)
  : outcome (list string) :=
  match project_config with
  | JObject kvs => accessible_envs user_groups kvs
  | _ => Raise (Exception "AttributeError")
  end.

(** [d.items()]. *)
Definition py_items (d : json) : outcome (list (string * json)) :=
  match d with
  | JObject kvs => Ok kvs
  | _ => Raise (Exception "AttributeError")
  end.

(** A [Dict[str, List[str]]] as an association list, with its item
    assignment and lookup. *)
Fixpoint pdict_set (kvs : list (string * list string)) (k : string) (v : list string)
  : list (string * list string) :=
  match kvs with
  | [] => [(k, v)]
  | (k', v') :: rest =>
      if String.eqb k k' then (k', v) :: rest else (k', v') :: pdict_set rest k v
  end.

Fixpoint pdict_get (kvs : list (string * list string)) (k : string) : option (list string) :=
  match kvs with
  | [] => None
  | (k', v) :: rest => if String.eqb k k' then Some v else pdict_get rest k
  end.

(** The loop over [project_configs.items()] in [get_user_project_access]. *)
Fixpoint projects_access (user_groups : list string) (items : list (string * json))
    (accessible_projects : list (string * list string)) : outcome (list (string * list string)) :=
  match items with
  | [] => Ok accessible_projects
  | (project_name, project_config) :: rest =>
      let? accessible_envs := check_project_access user_groups project_config in
      projects_access user_groups rest
        (match accessible_envs with
         | [] => accessible_projects
         | _ => pdict_set accessible_projects project_name accessible_envs
         end)
  end.

Record UserAccessResponse := mkUserAccessResponse {
  ua_username : string;
  ua_user_groups : list string;
  accessible_projects : list (string * list string);
  has_access : bool
}.

(** [get_user_project_access]: errors that are no [HTTPException] become a
    500. *)
Definition get_user_project_access (gs : Cache) (groups_cmd : string -> CmdResult)
    (username : string) : Cache * outcome UserAccessResponse :=
  let (gs1, r) := load_group_config false gs in
  (gs1, match (let? group_config := r in
               let? user_groups := get_user_groups (groups_cmd username) in
               let? project_configs := py_get_default group_config "project_name" (JObject []) in
               let? items := py_items project_configs in
               let? accessible := projects_access user_groups items [] in
               Ok (mkUserAccessResponse username user_groups accessible
                     (match accessible with [] => false | _ => true end))) with
        | Ok resp => Ok resp
        | Raise (HTTPException c d) => Raise (HTTPException c d)
        | Raise (Exception _) => Raise (HTTPException 500 "Error checking user access")
        end).

(** ** The admin reload endpoints and the token endpoint *)

Record ReloadResponse := mkReloadResponse {
  reload_success : bool;
  reload_message : string;
  timestamp : string
}.

(** [timestamp] is [datetime.now().isoformat()]. *)
Definition reload_tokens (timestamp : string) (s : Cache) : Cache * outcome ReloadResponse :=
  let (s1, r) := load_tokens_data true s in
  (s1, match r with
       | Ok _ => Ok (mkReloadResponse true "Tokens data reloaded successfully" timestamp)
       | Raise _ => Raise (HTTPException 500 "Failed to reload tokens")
       end).

Definition reload_group_config (timestamp : string) (s : Cache) : Cache * outcome ReloadResponse :=
  let (s1, r) := load_group_config true s in
  (s1, match r with
       | Ok _ => Ok (mkReloadResponse true "Group configuration reloaded successfully" timestamp)
       | Raise _ => Raise (HTTPException 500 "Failed to reload group config")
       end).

Record TokenResponse := mkTokenResponse {
  tr_username : string;
  tr_token : string;
  available_users : list string
}.

(** [get_token]; the [token: str] field refuses a stored value that is no
    string. *)
Definition get_token (project : Project) (env : Environment) (username : string) (s : Cache)
  : Cache * outcome TokenResponse :=
  let (s1, r) := get_token_from_memory (project_value project) env username s in
  match r with
  | Raise e => (s1, Raise e)
  | Ok token =>
      let (s2, users) := get_available_users_from_memory (Some project) (Some env) s1 in
      (s2, match token with
           | JStr t => Ok (mkTokenResponse username t users)
           | _ => Raise (Exception "ValidationError")
           end)
  end.

(** The payload of [get_sessions_api]. *)
Definition get_session_payload : json := JObject [("method", JStr "get_session")].

(** A session as [extract_session_info] builds it for [base_url]: its url
    starts with the formatted base url and its [session_name] is its
    [display_name]. *)
Definition session_from (base_url : string) (si : SessionInfo) : Prop :=
  (exists u, url si = format_base_url base_url ++ u) /\ session_name si = display_name si.

(** A dict whose keys are pairwise distinct, as a Python dict's are; any
    other value trivially. *)
Definition keys_unique (v : json) : Prop :=
  match v with JObject kvs => NoDup (map fst kvs) | _ => True end.

(** The group configuration's [project_name] dict and each of its project
    dicts have distinct keys (what [json.load] gives). *)
Definition group_config_keys_unique (cfg : json) : Prop :=
  match cfg with
  | JObject top =>
      match assoc top "project_name" with
      | Some (JObject projects) =>
          NoDup (map fst projects) /\ Forall (fun kv => keys_unique (snd kv)) projects
      | _ => True
      end
  | _ => True
  end.

(** A group name as [str.split()] gives it: non-empty, without whitespace. *)
Definition no_space (g : string) : Prop :=
  nonempty g = true /\ forall c, In c (list_ascii_of_string g) -> is_space c = false.

(** ** Sample data *)

(** A token file and the cache after it has been loaded at mtime 5. *)
Definition example_tokens : json :=
  JObject [("PROJECT1", JObject [("DEV", JObject [("bob", JStr "t1"); ("al", JStr "t2")]);
                                 ("UAT", JObject [("bob", JStr "t3")])]);
           ("PROJECT2", JObject [("DEV", JObject [("carl", JStr "t4")])])].

Definition example_cache : Cache :=
  mkCache (Some example_tokens) (Some 5) (Some (Parsed example_tokens, 5)).

(** A group configuration and its cache. *)
Definition example_group_config : json :=
  JObject [("project_name",
            JObject [("PROJECT1", JObject [("DEV", JObject [("groups", JArr [JStr "wheel"; JStr "dev"])])])])].

Definition example_group_cache : Cache :=
  mkCache (Some example_group_config) (Some 5) (Some (Parsed example_group_config, 5)).

Definition example_groups_cmd (_ : string) : CmdResult := CmdOk "bob : bob wheel".

(** A session API on the DEV/PROJECT1 host: one running session, a launch
    answered with its url, and any other request answered with a non-empty
    body. *)
Definition example_session_list : json :=
  JObject [("result", JObject [("sessions",
    JArr [JObject [("id", JStr "s1"); ("url", JStr "/s/1");
                   ("display_name", JStr "JupyterLab Session 1")]])])].

Definition example_launch_answer : json := JObject [("result", JObject [("url", JStr "/s/2")])].

Definition example_post (url : string) (payload token : json) : PostResult :=
  if String.eqb url "https://dev-project1.example.com/api/launch_session" then
    PostOk example_launch_answer
  else if String.eqb url "https://dev-project1.example.com/api/get_session" then
    PostOk example_session_list
  else PostOk (JObject [("result", JStr "ok")]).

Definition example_user_token (_ : Project) (_ : Environment) (u : string) : outcome (string * json) :=
  Ok (u, JStr "t1").

(** A session API whose launch answer has a [result] that is no container,
    and whose listing answer is empty. *)
Definition example_post_bad_result (u : string) (_ _ : json) : PostResult :=
  if String.eqb u "https://dev-project1.example.com/api/launch_session"
  then PostOk (JObject [("result", JNum 5)])
  else PostOk (JObject []).

(** * Proofs *)

(** ** Strings and dicts *)

Lemma append_cancel_l (p a b : string) : p ++ a = p ++ b -> a = b.
Proof.
  induction p as [|c p IH]; simpl; [auto|].
  intro H; inversion H; auto.
Qed.

Lemma assoc_dict_set_same (kvs : list (string * json)) (k : string) (v : json) :
  assoc (dict_set kvs k v) k = Some v.
Proof.
  induction kvs as [|[k' v'] r IH]; simpl.
  - rewrite String.eqb_refl; reflexivity.
  - destruct (String.eqb k k') eqn:E; simpl.
    + rewrite E; reflexivity.
    + rewrite E; exact IH.
Qed.

Lemma assoc_dict_set_other (kvs : list (string * json)) (k k' : string) (v : json) :
  k' <> k -> assoc (dict_set kvs k v) k' = assoc kvs k'.
Proof.
  intro Hne. induction kvs as [|[k0 v0] r IH]; simpl.
  - destruct (String.eqb k' k) eqn:E; [apply String.eqb_eq in E; congruence | reflexivity].
  - destruct (String.eqb k k0) eqn:E; simpl.
    + apply String.eqb_eq in E; subst k0.
      destruct (String.eqb k' k) eqn:E'; [apply String.eqb_eq in E'; congruence | reflexivity].
    + rewrite IH; reflexivity.
Qed.

Lemma assoc_in (kvs : list (string * json)) (k : string) (v : json) :
  assoc kvs k = Some v -> In (k, v) kvs.
Proof.
  induction kvs as [|[k' v'] r IH]; simpl; [discriminate|].
  destruct (String.eqb k k') eqn:E.
  - apply String.eqb_eq in E; subst; intro H; inversion H; subst; auto.
  - intro H; right; auto.
Qed.

Lemma in_keys_assoc (kvs : list (string * json)) (k : string) :
  In k (map fst kvs) -> exists v, assoc kvs k = Some v.
Proof.
  induction kvs as [|[k' v'] r IH]; simpl; [tauto|].
  destruct (String.eqb k k') eqn:E; [eauto|].
  intros [H|H]; [subst; rewrite String.eqb_refl in E; discriminate | auto].
Qed.

(** ** The session-number loop *)

Lemma count_from_step (used : list Z) (n : Z) :
  (count_from used (n + 1) <= count_from used n)%nat /\
  (mem_Z n used = true -> (count_from used (n + 1) < count_from used n)%nat).
Proof.
  unfold count_from, mem_Z. induction used as [|m r [IH1 IH2]]; simpl; [split; [lia|discriminate]|].
  destruct (Z.eqb_spec n m) as [->|Hne].
  - rewrite Z.leb_refl. replace (m + 1 <=? m) with false by (symmetry; apply Z.leb_gt; lia).
    simpl. split; [lia|]. intros _. lia.
  - simpl. destruct (Z.leb_spec (n + 1) m) as [Ha|Ha]; destruct (Z.leb_spec n m) as [Hb|Hb];
      try lia; simpl; split; try lia; intro Hm; specialize (IH2 Hm); lia.
Qed.

Lemma next_free_exits_gen (fuel : nat) (used : list Z) (n : Z) :
  (count_from used n < fuel)%nat -> mem_Z (next_free fuel used n) used = false.
Proof.
  revert n. induction fuel as [|f IH]; intros n H; [lia|].
  simpl. destruct (mem_Z n used) eqn:E; [|exact E].
  apply IH. destruct (count_from_step used n) as [_ H2]. specialize (H2 E). lia.
Qed.

(** The fuel [S (length used)] always reaches the exit of the [while] loop. *)
Lemma next_free_exits (used : list Z) :
  mem_Z (next_free (S (length used)) used 1) used = false.
Proof.
  apply next_free_exits_gen. unfold count_from.
  pose proof (filter_length_le (Z.leb 1) used). lia.
Qed.

Lemma next_free_ge (fuel : nat) (used : list Z) (n : Z) : n <= next_free fuel used n.
Proof.
  revert n. induction fuel as [|f IH]; intro n; simpl; [lia|].
  destruct (mem_Z n used); [specialize (IH (n + 1)); lia | lia].
Qed.

Lemma next_free_least (fuel : nat) (used : list Z) (n k : Z) :
  n <= k < next_free fuel used n -> mem_Z k used = true.
Proof.
  revert n. induction fuel as [|f IH]; intros n H; simpl in H; [lia|].
  destruct (mem_Z n used) eqn:E; [|lia].
  destruct (Z.eq_dec k n) as [->|Hne]; [exact E|].
  apply (IH (n + 1)); lia.
Qed.

(** The generated number is the least positive integer not taken. *)
Lemma get_next_available_session_number_least (sessions : list SessionInfo) :
  let used := collect_used sessions [] in
  1 <= get_next_available_session_number sessions /\
  mem_Z (get_next_available_session_number sessions) used = false /\
  (forall k, 1 <= k < get_next_available_session_number sessions -> mem_Z k used = true).
Proof.
  unfold get_next_available_session_number. cbv zeta.
  split; [apply next_free_ge|]. split; [apply next_free_exits|].
  intros k Hk. eapply next_free_least; exact Hk.
Qed.

(** ** C1: the next session number *)

(** C1 (code_bug): a display name ["JupyterLab Session 1\n"] is not exactly
    ["JupyterLab Session 1"] (nor any other numbered name), yet the pattern's
    [$] accepts it before the final newline, so the number 1 counts as taken
    and the function returns 2 where the least unmatched number is 1. *)
Theorem C1_trailing_newline_takes_number :
  let name := session_prefix ++ "1" ++ String newline "" in
  let sessions := [mkSessionInfo "s1" "" name name] in
  get_next_available_session_number sessions = 2 /\
  (forall s n, In s sessions -> ~ exact_session_name (display_name s) n).
Proof.
  intros name sessions. split; [vm_compute; reflexivity|].
  intros s n Hin [d [Hd [_ [Hdig _]]]].
  destruct Hin as [<-|[]]. cbn [display_name] in Hd. unfold name in Hd.
  apply append_cancel_l in Hd. rewrite <- Hd in Hdig. vm_compute in Hdig. discriminate.
Qed.

(** ** C6: reloading the cached files *)

(** Away from a recorded mtime of [0], the loaders reload exactly under the
    specification's condition. *)
Lemma reload_needed_matches_spec (s : Cache) (force_reload : bool) (current_mtime : Z) :
  last_modified s <> Some 0 ->
  reload_needed s force_reload current_mtime = reload_condition_spec s force_reload current_mtime.
Proof.
  intro H. unfold reload_needed, reload_condition_spec, mtime_newer.
  destruct (last_modified s) as [m|]; [|reflexivity].
  assert (m <> 0) by congruence.
  replace (m =? 0) with false by (symmetry; apply Z.eqb_neq; auto). reflexivity.
Qed.

(** C6 (code_bug): a file first loaded while its mtime was [0] records the
    falsy mtime [0]; after the file changes (mtime 5) the specification's
    reload condition holds, but both loaders keep returning the cached
    data. *)
Theorem C6_zero_mtime_blocks_reload :
  let old := JObject [("PROJECT1", JObject [])] in
  let new := JObject [("PROJECT2", JObject [])] in
  let s0 := mkCache None None (Some (Parsed old, 0)) in
  let s := mkCache (Some old) (Some 0) (Some (Parsed new, 5)) in
  fst (load_tokens_data false s0) = mkCache (Some old) (Some 0) (Some (Parsed old, 0)) /\
  fst (load_group_config false s0) = mkCache (Some old) (Some 0) (Some (Parsed old, 0)) /\
  reload_condition_spec s false 5 = true /\
  load_tokens_data false s = (s, Ok old) /\
  load_group_config false s = (s, Ok old).
Proof.
  repeat split; reflexivity.
Qed.

(** ** Token lookup and update *)

Lemma lookup_token_path (d : json) (project_name : string) (env : Environment) (username : string) :
  lookup_path_ok d project_name (env_value env) ->
  lookup_token d project_name env username =
    match token_at d project_name (env_value env) username with
    | Some t => if truthy t then Ok t else Raise not_found
    | None => Raise not_found
    end.
Proof.
  intro H. destruct d as [| | | | |top]; try contradiction.
  unfold lookup_path_ok in H. unfold lookup_token, token_at. cbn [py_get obind].
  revert H. destruct (assoc top project_name) as [v|]; [|reflexivity].
  destruct v as [| b | z | str | a | pkvs]; cbn [truthy];
    [intro H; rewrite ?H; reflexivity .. |].
  destruct pkvs as [|kv pkvs']; [reflexivity|]. cbn [obind py_get].
  destruct (assoc (kv :: pkvs') (env_value env)) as [w|]; [|reflexivity].
  destruct w as [| b | z | str | a | ekvs]; cbn [truthy];
    [intro H; rewrite ?H; reflexivity .. |].
  destruct ekvs as [|ekv ekvs']; [reflexivity|]. cbn [obind py_get].
  destruct (assoc (ekv :: ekvs') username); reflexivity.
Qed.

Lemma get_token_from_memory_eq (s s1 : Cache) (d : json) (project_name : string)
    (env : Environment) (username : string) :
  load_tokens_data false s = (s1, Ok d) ->
  lookup_path_ok d project_name (env_value env) ->
  get_token_from_memory project_name env username s =
    (s1, match token_at d project_name (env_value env) username with
         | Some t => if truthy t then Ok t else Raise not_found
         | None => Raise not_found
         end).
Proof.
  intros Hl Hp. unfold get_token_from_memory. rewrite Hl. cbn [obind].
  rewrite lookup_token_path by exact Hp. reflexivity.
Qed.

Lemma store_path_lookup_path (d : json) (pn en : string) :
  store_path_ok d pn en -> lookup_path_ok d pn en.
Proof.
  unfold store_path_ok, lookup_path_ok. destruct d as [| | | | |top]; try tauto.
  destruct (assoc top pn) as [v|]; [|tauto].
  destruct v as [| | | | |pkvs]; try tauto.
  destruct (assoc pkvs en) as [w|]; [|tauto].
  destruct w; tauto.
Qed.

Lemma load_tokens_data_disk (force_reload : bool) (s : Cache) :
  disk_file (fst (load_tokens_data force_reload s)) = disk_file s.
Proof.
  unfold load_tokens_data. destruct (disk_file s) as [[c m]|] eqn:E; [|simpl; auto].
  destruct (reload_needed s force_reload m); [destruct c|]; simpl; auto.
Qed.

(** The nested update, seen through [token_at]. *)
Lemma token_at_nested_set (top pkvs0 : list (string * json)) (ekvs0 : list (string * json))
    (p e u : string) (t : json) :
  (assoc top p = Some (JObject pkvs0) \/ (assoc top p = None /\ pkvs0 = [])) ->
  (assoc pkvs0 e = Some (JObject ekvs0) \/ (assoc pkvs0 e = None /\ ekvs0 = [])) ->
  forall p' e' u',
    token_at (JObject (dict_set top p (JObject (dict_set pkvs0 e (JObject (dict_set ekvs0 u t))))))
      p' e' u' =
    if (String.eqb p' p && String.eqb e' e && String.eqb u' u)%bool then Some t
    else token_at (JObject top) p' e' u'.
Proof.
  intros Hp He p' e' u'. unfold token_at.
  destruct (String.eqb_spec p' p) as [->|Hpn]; cbn [andb].
  - rewrite assoc_dict_set_same.
    destruct (String.eqb_spec e' e) as [->|Hen]; cbn [andb].
    + rewrite assoc_dict_set_same.
      destruct (String.eqb_spec u' u) as [->|Hun].
      * apply assoc_dict_set_same.
      * rewrite assoc_dict_set_other by exact Hun.
        destruct Hp as [Hp|[Hp ->]]; rewrite Hp.
        -- destruct He as [He|[He ->]]; rewrite He; reflexivity.
        -- destruct He as [He|[_ ->]]; [discriminate He|reflexivity].
    + rewrite assoc_dict_set_other by exact Hen.
      destruct Hp as [Hp|[Hp ->]]; rewrite Hp; reflexivity.
  - rewrite assoc_dict_set_other by exact Hpn. reflexivity.
Qed.

Lemma set_token_frame (d : json) (p e u : string) (t : json) :
  store_path_ok d p e ->
  exists d', set_token d p e u t = Ok d' /\ token_at d' p e u = Some t /\
    forall p' e' u', (p', e', u') <> (p, e, u) -> token_at d' p' e' u' = token_at d p' e' u'.
Proof.
  intro H. destruct d as [| | | | |top]; try contradiction. unfold store_path_ok in H.
  assert (Hgen : forall pkvs0 ekvs0,
    (assoc top p = Some (JObject pkvs0) \/ (assoc top p = None /\ pkvs0 = [])) ->
    (assoc pkvs0 e = Some (JObject ekvs0) \/ (assoc pkvs0 e = None /\ ekvs0 = [])) ->
    let d' := JObject (dict_set top p (JObject (dict_set pkvs0 e (JObject (dict_set ekvs0 u t))))) in
    token_at d' p e u = Some t /\
    forall p' e' u', (p', e', u') <> (p, e, u) -> token_at d' p' e' u' = token_at (JObject top) p' e' u').
  { intros pkvs0 ekvs0 Hp He d'. split.
    - unfold d'. rewrite (token_at_nested_set top pkvs0 ekvs0 p e u t Hp He).
      rewrite !String.eqb_refl. reflexivity.
    - intros p' e' u' Hne. unfold d'. rewrite (token_at_nested_set top pkvs0 ekvs0 p e u t Hp He).
      destruct (String.eqb_spec p' p), (String.eqb_spec e' e), (String.eqb_spec u' u);
        subst; cbn [andb]; try reflexivity. congruence. }
  unfold set_token.
  destruct (assoc top p) as [v|] eqn:Ep.
  - destruct v as [| | | | |pkvs]; try contradiction.
    destruct (assoc pkvs e) as [w|] eqn:Ee.
    + destruct w as [| | | | |ekvs]; try contradiction.
      eexists; split; [reflexivity|]. apply Hgen; auto.
    + eexists; split; [reflexivity|]. apply Hgen; auto.
  - eexists; split; [reflexivity|]. apply (Hgen [] []); auto.
Qed.

Lemma add_token_to_file_eq (project : Project) (env : Environment) (username token : string)
    (now : Z) (s : Cache) (d : json) :
  (disk_file s = None /\ d = JObject [] \/ exists m, disk_file s = Some (Parsed d, m)) ->
  store_path_ok d (project_value project) (env_value env) ->
  exists d', add_token_to_file project env username token now s =
               (mkCache (Some d') (Some now) (Some (Parsed d', now)), Ok tt) /\
    token_at d' (project_value project) (env_value env) username = Some (JStr token) /\
    forall p' e' u', (p', e', u') <> (project_value project, env_value env, username) ->
      token_at d' p' e' u' = token_at d p' e' u'.
Proof.
  intros Hf Hp.
  destruct (set_token_frame d (project_value project) (env_value env) username (JStr token) Hp)
    as [d' [Hs [Ht Hfr]]].
  exists d'. split; [|split; assumption].
  unfold add_token_to_file.
  destruct Hf as [[Hf ->]|[m Hf]]; rewrite Hf; cbn [obind]; [|]; rewrite Hs; reflexivity.
Qed.

(** C4: once the token data is loaded, the lookup returns the value at
    [tokens[project][env][username]] when it is non-empty (truthy) and
    raises the 404 [HTTPException] in every other case: a missing project,
    environment or username key, or an empty (falsy) value on the way.  The
    data has dicts, nothing, or falsy values on the path, as in the token
    file's format. *)
Theorem C4_token_lookup_404 :
  forall (s s1 : Cache) (d : json) (project_name : string) (env : Environment) (username : string),
  load_tokens_data false s = (s1, Ok d) ->
  lookup_path_ok d project_name (env_value env) ->
  get_token_from_memory project_name env username s =
    (s1, match token_at d project_name (env_value env) username with
         | Some t => if truthy t then Ok t else Raise not_found
         | None => Raise not_found
         end).
Proof.
  intros s s1 d project_name env username Hl Hp.
  exact (get_token_from_memory_eq s s1 d project_name env username Hl Hp).
Qed.

(** C7: on a token file holding dicts (or nothing) along [project/env], or
    on a missing file, [add_token_to_file] writes a store whose entry at
    [project/env/username] is the token and whose other entries are those
    of the previous store; the in-memory copy and its mtime follow. *)
Theorem C7_add_token_frame :
  forall (project : Project) (env : Environment) (username token : string) (now : Z)
         (s : Cache) (d : json),
  (disk_file s = None /\ d = JObject [] \/ exists m, disk_file s = Some (Parsed d, m)) ->
  store_path_ok d (project_value project) (env_value env) ->
  exists d', add_token_to_file project env username token now s =
               (mkCache (Some d') (Some now) (Some (Parsed d', now)), Ok tt) /\
    token_at d' (project_value project) (env_value env) username = Some (JStr token) /\
    forall p' e' u', (p', e', u') <> (project_value project, env_value env, username) ->
      token_at d' p' e' u' = token_at d p' e' u'.
Proof.
  intros project env username token now s d Hf Hp.
  exact (add_token_to_file_eq project env username token now s d Hf Hp).
Qed.

(** ** C3: get_or_create_user_token *)

(** C3 (counterexample): with no token file, no token is stored; the user
    has access and the token command yields a token, yet the lookup's 500
    error is re-raised: nothing is generated and no file is written. *)
Theorem C3_missing_token_file :
  let s := mkCache None None None in
  let pbrun := CmdOk "| tok123 |" in
  generate_user_token pbrun = Ok "tok123" /\
  get_or_create_user_token PROJECT1 DEV "alice" true pbrun 100 s =
    (s, Raise (HTTPException 500 "Error loading token file: Token file 'tokens.json' not found")).
Proof.
  split; vm_compute; reflexivity.
Qed.

(** C3 (amended): when the token data loaded is the content of an existing
    token file holding dicts (or nothing) along [project/env]: a non-empty
    stored token is returned without running the token command; with no
    non-empty token stored and access granted, the command's token is
    written to the file (other entries kept) and returned; with no
    non-empty token stored and access refused, the 404 error is raised and
    the file is untouched. When the token file is missing, the call raises
    the loader's HTTP 500 and leaves the state as it was, whatever the
    access check and the token command give: nothing is generated or
    written. *)
Theorem C3_get_or_create_amended :
  (forall (project : Project) (env : Environment) (username : string) (has_access : bool)
         (pbrun : CmdResult) (now : Z) (s s1 : Cache) (d : json) (m : Z),
  load_tokens_data false s = (s1, Ok d) ->
  disk_file s1 = Some (Parsed d, m) ->
  store_path_ok d (project_value project) (env_value env) ->
  (forall t, token_at d (project_value project) (env_value env) username = Some t ->
     truthy t = true ->
     get_or_create_user_token project env username has_access pbrun now s = (s1, Ok (username, t))) /\
  (truthy_opt (token_at d (project_value project) (env_value env) username) = false ->
     has_access = true ->
     forall new_token, generate_user_token pbrun = Ok new_token ->
     exists d', get_or_create_user_token project env username has_access pbrun now s =
                  (mkCache (Some d') (Some now) (Some (Parsed d', now)), Ok (username, JStr new_token)) /\
       token_at d' (project_value project) (env_value env) username = Some (JStr new_token) /\
       forall p' e' u', (p', e', u') <> (project_value project, env_value env, username) ->
         token_at d' p' e' u' = token_at d p' e' u') /\
  (truthy_opt (token_at d (project_value project) (env_value env) username) = false ->
     has_access = false ->
     get_or_create_user_token project env username has_access pbrun now s = (s1, Raise not_found) /\
     disk_file s1 = disk_file s)) /\
  (forall (project : Project) (env : Environment) (username : string) (has_access : bool)
          (pbrun : CmdResult) (now : Z) (s : Cache),
   disk_file s = None ->
   get_or_create_user_token project env username has_access pbrun now s =
     (s, Raise (HTTPException 500 "Error loading token file: Token file 'tokens.json' not found"))).
Proof.
  split; [|intros project env username has_access pbrun now s Hn;
           unfold get_or_create_user_token, get_token_from_memory, load_tokens_data;
           rewrite Hn; reflexivity].
  intros project env username has_access pbrun now s s1 d m Hl Hf Hp.
  pose proof (get_token_from_memory_eq s s1 d (project_value project) env username Hl
                (store_path_lookup_path _ _ _ Hp)) as Hg.
  unfold get_or_create_user_token. rewrite Hg.
  split; [|split].
  - intros t Ht Htr. rewrite Ht, Htr. reflexivity.
  - intros Hnone Hacc new_token Hgen.
    assert (Hr : match token_at d (project_value project) (env_value env) username with
                 | Some t => if truthy t then Ok t else Raise not_found
                 | None => Raise not_found
                 end = Raise (A := json) not_found).
    { destruct (token_at d _ _ _) as [t|]; simpl in Hnone; [rewrite Hnone|]; reflexivity. }
    rewrite Hr. cbn [not_found Z.eqb Pos.eqb]. rewrite Hacc, Hgen.
    destruct (add_token_to_file_eq project env username new_token now s1 d
                (or_intror (ex_intro _ m Hf)) Hp) as [d' [Ha [Ht Hfr]]].
    rewrite Ha. exists d'. auto.
  - intros Hnone Hacc.
    assert (Hr : match token_at d (project_value project) (env_value env) username with
                 | Some t => if truthy t then Ok t else Raise not_found
                 | None => Raise not_found
                 end = Raise (A := json) not_found).
    { destruct (token_at d _ _ _) as [t|]; simpl in Hnone; [rewrite Hnone|]; reflexivity. }
    rewrite Hr. cbn [not_found Z.eqb Pos.eqb]. rewrite Hacc. split; [reflexivity|].
    rewrite <- (load_tokens_data_disk false s), Hl. reflexivity.
Qed.

(** ** C2, C9: the launch-access gate *)

Lemma any_in_groups_strings (l : list json) (user_groups : list string) :
  existsb (fun group => in_groups group user_groups) l =
  existsb (fun g => existsb (String.eqb g) user_groups)
          (flat_map (fun v => match v with JStr s => [s] | _ => [] end) l).
Proof.
  induction l as [|v r IH]; [reflexivity|].
  destruct v; cbn [existsb flat_map in_groups app]; rewrite IH; reflexivity.
Qed.

Lemma access_decision_spec (cfg : json) (user_groups : list string) (project : Project)
    (env : Environment) :
  (forall kvs, groups_entry cfg project env <> Some (JObject kvs)) ->
  match access_decision cfg user_groups project env with Ok b => b | Raise _ => false end =
  existsb (fun g => existsb (String.eqb g) user_groups) (required_groups_of cfg project env).
Proof.
  unfold required_groups_of. revert cfg. intros cfg Hno. revert Hno.
  unfold access_decision, groups_entry.
  destruct cfg as [| | | | |top]; [reflexivity .. |].
  cbn [py_get_default obind].
  destruct (assoc top "project_name") as [v|]; [|reflexivity].
  destruct v as [| | | | |projects]; [reflexivity .. |]. cbn [py_get_default obind].
  destruct (assoc projects (project_value project)) as [w|]; [|reflexivity].
  destruct w as [| | | | |envs]; [reflexivity .. |]. cbn [py_get_default obind].
  destruct (assoc envs (env_value env)) as [x|]; [|reflexivity].
  destruct x as [| | | | |ec]; [reflexivity .. |]. cbn [py_get_default obind].
  destruct (assoc ec "groups") as [g|]; [|reflexivity].
  intro Hno. destruct g as [| b | z | str | l | kvs]; try reflexivity.
  - cbn [py_iter obind]. apply any_in_groups_strings.
  - exfalso. exact (Hno kvs eq_refl).
Qed.

Lemma existsb_in_groups_nil (items : list json) :
  existsb (fun group => in_groups group []) items = false.
Proof.
  induction items as [|g r IH]; [reflexivity|]. destruct g; exact IH.
Qed.

Lemma access_decision_no_groups (cfg : json) (project : Project) (env : Environment) :
  match access_decision cfg [] project env with Ok b => b | Raise _ => false end = false.
Proof.
  unfold access_decision.
  repeat match goal with
         | |- context [obind ?m _] => destruct m; cbn [obind]; [|reflexivity]
         end.
  apply existsb_in_groups_nil.
Qed.

(** C2: with the group configuration loaded and the user's groups read from
    the [groups] command, access is granted exactly when some group of the
    user is among the policy's required groups for the project and
    environment (a single string counting as a one-element list); with a
    missing or empty entry nobody gets access.  The entry is a string, a
    list, or absent, as in the configuration's format (not a dict). *)
Theorem C2_access_iff_shared_group :
  forall (gs gs' : Cache) (cfg : json) (groups_cmd : string -> CmdResult) (username : string)
         (user_groups : list string) (project : Project) (env : Environment),
  load_group_config false gs = (gs', Ok cfg) ->
  get_user_groups (groups_cmd username) = Ok user_groups ->
  (forall kvs, groups_entry cfg project env <> Some (JObject kvs)) ->
  fst (check_user_access_for_launch gs groups_cmd username project env) = gs' /\
  (snd (check_user_access_for_launch gs groups_cmd username project env) = true <->
   exists g, In g user_groups /\ In g (required_groups_of cfg project env)) /\
  (required_groups_of cfg project env = [] ->
   snd (check_user_access_for_launch gs groups_cmd username project env) = false).
Proof.
  intros gs gs' cfg groups_cmd username user_groups project env Hl Hg Hno.
  unfold check_user_access_for_launch. rewrite Hl. cbn [fst snd obind]. rewrite Hg. cbn [obind].
  rewrite (access_decision_spec cfg user_groups project env Hno).
  split; [reflexivity|]. split.
  - rewrite existsb_exists. split.
    + intros [g [Hin Hex]]. apply existsb_exists in Hex. destruct Hex as [y [Hy Heq]].
      apply String.eqb_eq in Heq. subst y. eauto.
    + intros [g [Hu Hr]]. exists g. split; [exact Hr|].
      apply existsb_exists. exists g. split; [exact Hu | apply String.eqb_refl].
  - intros ->. reflexivity.
Qed.

(** C9: the gate fails closed: when loading the group configuration raises,
    or the [groups] command does not run successfully, access is refused. *)
Theorem C9_access_fail_closed :
  forall (gs : Cache) (groups_cmd : string -> CmdResult) (username : string)
         (project : Project) (env : Environment),
  (exists ex, snd (load_group_config false gs) = Raise ex) \/
  (forall stdout, groups_cmd username <> CmdOk stdout) ->
  snd (check_user_access_for_launch gs groups_cmd username project env) = false.
Proof.
  intros gs groups_cmd username project env H.
  unfold check_user_access_for_launch.
  destruct (load_group_config false gs) as [gs1 r] eqn:E. cbn [snd].
  destruct H as [[ex Hex]|Hc].
  - cbn [snd] in Hex. subst r. reflexivity.
  - destruct r as [cfg|ex]; [|reflexivity]. cbn [obind].
    destruct (groups_cmd username) as [stdout| | |msg] eqn:Ec.
    + exfalso. exact (Hc stdout eq_refl).
    + cbn [get_user_groups obind]. apply access_decision_no_groups.
    + reflexivity.
    + reflexivity.
Qed.

(** ** C8: the available-users listing *)

Lemma mem_str_false (x : string) (l : list string) : mem_str x l = false -> ~ In x l.
Proof.
  unfold mem_str. intros H Hin.
  assert (existsb (String.eqb x) l = true) as Ht
    by (apply existsb_exists; exists x; split; [exact Hin | apply String.eqb_refl]).
  congruence.
Qed.

Lemma mem_str_true (x : string) (l : list string) : mem_str x l = true -> In x l.
Proof.
  unfold mem_str. intro H. apply existsb_exists in H. destruct H as [y [Hy Heq]].
  apply String.eqb_eq in Heq. subst. exact Hy.
Qed.

Lemma set_update_spec (ks users : list string) :
  NoDup users ->
  NoDup (set_update users ks) /\
  (forall x, In x (set_update users ks) <-> In x users \/ In x ks).
Proof.
  revert users. induction ks as [|k r IH]; intros users Hnd; simpl.
  - split; [exact Hnd|]. intro x. tauto.
  - destruct (mem_str k users) eqn:Em.
    + destruct (IH users Hnd) as [H1 H2]. split; [exact H1|].
      intro x. rewrite H2. apply mem_str_true in Em. split; [tauto|].
      intros [H|[<-|H]]; tauto.
    + assert (Hnd' : NoDup (app users [k])).
      { apply (Permutation_NoDup (l := k :: users)); [apply Permutation_cons_append|].
        constructor; [apply mem_str_false; exact Em | exact Hnd]. }
      destruct (IH (app users [k]) Hnd') as [H1 H2]. split; [exact H1|].
      intro x. rewrite H2, in_app_iff. simpl. tauto.
Qed.

Lemma assoc_some_key (kvs : list (string * json)) (k : string) (v : json) :
  assoc kvs k = Some v -> In k (map fst kvs).
Proof.
  intro H. apply assoc_in in H. change k with (fst (k, v)). apply in_map. exact H.
Qed.

Lemma users_of_envs_spec (pkvs : list (string * json)) (envs : list string) (users : list string) :
  Forall (fun kv' => exists ekvs, snd kv' = JObject ekvs) pkvs ->
  NoDup users ->
  exists users', users_of_envs (JObject pkvs) envs users = Ok users' /\ NoDup users' /\
    forall x, In x users' <-> In x users \/
      exists en ekvs, In en envs /\ assoc pkvs en = Some (JObject ekvs) /\ In x (map fst ekvs).
Proof.
  intros Hf. revert users. induction envs as [|en r IH]; intros users Hnd.
  - exists users. split; [reflexivity|]. split; [exact Hnd|].
    intro x. split; [tauto|]. intros [H|[en [ekvs [[] _]]]]; exact H.
  - cbn [users_of_envs py_get_default obind].
    destruct (assoc pkvs en) as [v|] eqn:Ea.
    + pose proof (assoc_in _ _ _ Ea) as Hin.
      rewrite Forall_forall in Hf. destruct (Hf _ Hin) as [ekvs Hv]. simpl in Hv. subst v.
      cbn [py_keys obind].
      destruct (set_update_spec (map fst ekvs) users Hnd) as [Hnd1 Hm1].
      destruct (IH _ Hnd1) as [users' [Hr [Hnd' Hm']]].
      exists users'. split; [exact Hr|]. split; [exact Hnd'|].
      intro x. rewrite Hm', Hm1. split.
      * intros [[H|H]|[en' [ekvs' [H1 [H2 H3]]]]]; [tauto| |].
        -- right. exists en, ekvs. simpl. auto.
        -- right. exists en', ekvs'. simpl. auto.
      * intros [H|[en' [ekvs' [[<-|H1] [H2 H3]]]]]; [tauto| |].
        -- rewrite Ea in H2. inversion H2; subst. tauto.
        -- right. exists en', ekvs'. auto.
    + cbn [py_keys obind set_update].
      destruct (IH _ Hnd) as [users' [Hr [Hnd' Hm']]].
      exists users'. split; [exact Hr|]. split; [exact Hnd'|].
      intro x. rewrite Hm'. split.
      * intros [H|[en' [ekvs' [H1 [H2 H3]]]]]; [tauto|]. right. exists en', ekvs'. simpl. auto.
      * intros [H|[en' [ekvs' [[<-|H1] [H2 H3]]]]]; [tauto| |].
        -- rewrite Ea in H2. discriminate.
        -- right. exists en', ekvs'. auto.
Qed.

Lemma envs_to_check_spec (pkvs : list (string * json)) (env : option Environment) :
  exists envs, match env with
               | Some e => Ok [env_value e]
               | None => py_keys (JObject pkvs)
               end = Ok envs /\
    forall en v, assoc pkvs en = Some v -> (In en envs <-> env_selected env en).
Proof.
  destruct env as [e|].
  - eexists; split; [reflexivity|]. intros en v _. simpl. split; [intros [->|[]]; reflexivity | intros ->; auto].
  - eexists; split; [reflexivity|]. intros en v Ha. simpl. split; [auto|]. intros _.
    exact (assoc_some_key _ _ _ Ha).
Qed.

Lemma users_of_projects_spec (top : list (string * json)) (env : option Environment)
    (pns : list string) (users : list string) :
  Forall (fun kv => exists pkvs, snd kv = JObject pkvs /\
            Forall (fun kv' => exists ekvs, snd kv' = JObject ekvs) pkvs) top ->
  NoDup users ->
  exists users', users_of_projects (JObject top) env pns users = Ok users' /\ NoDup users' /\
    forall x, In x users' <-> In x users \/
      exists pn en pkvs ekvs, In pn pns /\ assoc top pn = Some (JObject pkvs) /\
        assoc pkvs en = Some (JObject ekvs) /\ In x (map fst ekvs) /\ env_selected env en.
Proof.
  intros Hf. revert users. induction pns as [|pn r IH]; intros users Hnd.
  - exists users. split; [reflexivity|]. split; [exact Hnd|].
    intro x. split; [tauto|]. intros [H|[pn [en [pkvs [ekvs [[] _]]]]]]; exact H.
  - cbn [users_of_projects py_get_default obind].
    assert (Hpd : exists pkvs, match assoc top pn with Some v => v | None => JObject [] end = JObject pkvs /\
                    Forall (fun kv' => exists ekvs, snd kv' = JObject ekvs) pkvs /\
                    (assoc top pn = Some (JObject pkvs) \/ (assoc top pn = None /\ pkvs = []))).
    { destruct (assoc top pn) as [v|] eqn:Ea.
      - pose proof (assoc_in _ _ _ Ea) as Hin. rewrite Forall_forall in Hf.
        destruct (Hf _ Hin) as [pkvs [Hv Hf']]. simpl in Hv. subst v. eauto.
      - exists []. split; [reflexivity|]. split; [constructor|]. auto. }
    destruct Hpd as [pkvs [Hpd [Hfp Hcase]]]. rewrite Hpd.
    destruct (envs_to_check_spec pkvs env) as [envs [He Henvs]]. rewrite He. cbn [obind].
    destruct (users_of_envs_spec pkvs envs users Hfp Hnd) as [users1 [Hr1 [Hnd1 Hm1]]].
    rewrite Hr1. cbn [obind].
    destruct (IH _ Hnd1) as [users' [Hr [Hnd' Hm']]].
    exists users'. split; [exact Hr|]. split; [exact Hnd'|].
    intro x. rewrite Hm', Hm1. split.
    + intros [[H|[en [ekvs [H1 [H2 H3]]]]]|[pn' [en [pk [ek [H1 [H2 [H3 [H4 H5]]]]]]]]]; [tauto| |].
      * right. destruct Hcase as [Hc|[_ ->]]; [|discriminate H2].
        exists pn, en, pkvs, ekvs. split; [simpl; auto|]. split; [exact Hc|].
        split; [exact H2|]. split; [exact H3|]. apply (Henvs en _ H2). exact H1.
      * right. exists pn', en, pk, ek. simpl. auto 10.
    + intros [H|[pn' [en [pk [ek [[<-|H1] [H2 [H3 [H4 H5]]]]]]]]]; [tauto| |].
      * left. right. destruct Hcase as [Hc|[Hc _]]; [|congruence].
        rewrite Hc in H2. inversion H2; subst pk.
        exists en, ek. split; [apply (Henvs en _ H3); exact H5|]. auto.
      * right. exists pn', en, pk, ek. auto 10.
Qed.

Lemma collect_users_spec (d : json) (project : option Project) (env : option Environment) :
  wf_store d ->
  exists users, collect_users d project env = Ok users /\ NoDup users /\
    forall x, In x users <-> user_listed d project env x.
Proof.
  intros [top [-> Hf]].
  assert (Hp : exists pns, match project with
                           | Some p => Ok [project_value p]
                           | None => py_keys (JObject top)
                           end = Ok pns /\
               forall pn v, assoc top pn = Some v ->
                 (In pn pns <-> match project with Some p => pn = project_value p | None => True end)).
  { destruct project as [p|].
    - eexists; split; [reflexivity|]. intros pn v _. simpl.
      split; [intros [->|[]]; reflexivity | intros ->; auto].
    - eexists; split; [reflexivity|]. intros pn v Ha. split; [auto|]. intros _.
      exact (assoc_some_key _ _ _ Ha). }
  destruct Hp as [pns [Hpns Hsel]].
  unfold collect_users. rewrite Hpns. cbn [obind].
  destruct (users_of_projects_spec top env pns [] Hf (NoDup_nil _)) as [users [Hr [Hnd Hm]]].
  exists users. split; [exact Hr|]. split; [exact Hnd|].
  intro x. rewrite Hm. unfold user_listed. split.
  - intros [[]|[pn [en [pkvs [ekvs [H1 [H2 [H3 [H4 H5]]]]]]]]].
    exists top, pn, en, pkvs, ekvs. repeat split; auto.
    apply (Hsel pn _ H2). exact H1.
  - intros [top' [pn [en [pkvs [ekvs [Ht [H2 [H3 [H4 [H5 H6]]]]]]]]]].
    inversion Ht; subst top'. right. exists pn, en, pkvs, ekvs.
    split; [apply (Hsel pn _ H2); exact H5|]. auto.
Qed.

Lemma ltb_total_neq (x y : string) : x <> y -> String.ltb x y = false -> String.ltb y x = true.
Proof.
  unfold String.ltb. intros Hne. rewrite String.compare_antisym.
  destruct (String.compare y x) eqn:E; simpl; auto.
  apply String.compare_eq_iff in E. congruence.
Qed.

Lemma insert_sorted_perm (x : string) (l : list string) : Permutation (insert_sorted x l) (x :: l).
Proof.
  induction l as [|y r IH]; simpl; [auto|].
  destruct (String.ltb x y); [auto|].
  apply (perm_trans (l' := y :: x :: r)); [auto|apply perm_swap].
Qed.

Lemma sort_strings_perm (l : list string) : Permutation (sort_strings l) l.
Proof.
  induction l as [|x r IH]; simpl; [auto|].
  apply (perm_trans (insert_sorted_perm x (sort_strings r))). auto.
Qed.

Lemma insert_sorted_sorted (x : string) (l : list string) :
  Sorted str_lt l -> ~ In x l -> Sorted str_lt (insert_sorted x l).
Proof.
  induction l as [|y r IH]; intros Hs Hni; simpl; [auto|].
  destruct (String.ltb x y) eqn:E.
  - constructor; [exact Hs | constructor; exact E].
  - assert (Hyx : String.ltb y x = true)
      by (apply ltb_total_neq; [intro; subst; apply Hni; left; reflexivity | exact E]).
    inversion Hs as [|y' r' Hr Hhd]; subst.
    constructor; [apply IH; [exact Hr | intro; apply Hni; right; assumption]|].
    destruct r as [|z r']; simpl; [constructor; exact Hyx|].
    destruct (String.ltb x z); constructor; [exact Hyx|].
    inversion Hhd; assumption.
Qed.

Lemma sort_strings_sorted (l : list string) : NoDup l -> Sorted str_lt (sort_strings l).
Proof.
  induction l as [|x r IH]; intro Hnd; simpl; [constructor|].
  inversion Hnd; subst. apply insert_sorted_sorted; [auto|].
  intro Hin. apply (Permutation_in _ (sort_strings_perm r)) in Hin. contradiction.
Qed.

Lemma get_available_users_load_error (project : option Project) (env : option Environment)
    (s s1 : Cache) (e : py_exn) :
  load_tokens_data false s = (s1, Raise e) ->
  snd (get_available_users_from_memory project env s) = [].
Proof. intro H. unfold get_available_users_from_memory. rewrite H. reflexivity. Qed.

(** C8: the available-users listing. If reading the token data fails, or
    walking it raises (a level that is not a dict), the result is empty. On a
    store whose project and environment levels are dicts, the result is sorted
    strictly (so has no duplicates) and holds exactly the usernames found
    under a (project, environment) pair the filters select. *)
Theorem C8_available_users (project : option Project) (env : option Environment) (s : Cache) :
  (forall s1 e, load_tokens_data false s = (s1, Raise e) ->
     snd (get_available_users_from_memory project env s) = []) /\
  (forall s1 d e, load_tokens_data false s = (s1, Ok d) -> collect_users d project env = Raise e ->
     snd (get_available_users_from_memory project env s) = []) /\
  (forall s1 d, load_tokens_data false s = (s1, Ok d) -> wf_store d ->
     Sorted str_lt (snd (get_available_users_from_memory project env s)) /\
     NoDup (snd (get_available_users_from_memory project env s)) /\
     forall x, In x (snd (get_available_users_from_memory project env s)) <->
               user_listed d project env x).
Proof.
  split; [intros s1 e H; exact (get_available_users_load_error project env s s1 e H)|].
  unfold get_available_users_from_memory.
  split.
  - intros s1 d e H Hc. rewrite H. simpl. rewrite Hc. reflexivity.
  - intros s1 d H Hwf. rewrite H. cbn [snd obind].
    destruct (collect_users_spec d project env Hwf) as [users [Hr [Hnd Hm]]].
    rewrite Hr. split; [apply sort_strings_sorted; exact Hnd|].
    split; [exact (Permutation_NoDup (Permutation_sym (sort_strings_perm users)) Hnd)|].
    intro x. rewrite <- Hm. split; intro Hx.
    + exact (Permutation_in _ (sort_strings_perm users) Hx).
    + exact (Permutation_in _ (Permutation_sym (sort_strings_perm users)) Hx).
Qed.

(** ** The session endpoints *)

Lemma http_only_mbind {A B} (m : M A) (f : A -> M B) :
  http_only (snd m) -> (forall a, http_only (snd (f a))) -> http_only (snd (mbind m f)).
Proof.
  destruct m as [t [a|e]]; simpl; intros Hm Hf.
  - specialize (Hf a). destruct (f a) as [t' r]. exact Hf.
  - intros x Hx. inversion Hx; subst. exact (Hm x eq_refl).
Qed.

Lemma http_only_try {A} (m : M A) (h : string -> M A) :
  (forall msg, http_only (snd (h msg))) -> http_only (snd (try_reraise_http m h)).
Proof.
  intro Hh. destruct m as [t [a|[c d|msg]]]; simpl.
  - intros e He; discriminate He.
  - intros e He; inversion He; reflexivity.
  - specialize (Hh msg). destruct (h msg) as [t' r]. exact Hh.
Qed.

Lemma http_only_ret {A} (a : A) : http_only (snd (ret a)).
Proof. intros e He; discriminate He. Qed.

Lemma get_base_url_ok (e : Environment) (p : Project) : exists b, get_base_url e p = Ok b.
Proof. destruct e, p; eexists; reflexivity. Qed.

Lemma http_only_get_base_url (e : Environment) (p : Project) : http_only (get_base_url e p).
Proof. destruct (get_base_url_ok e p) as [b ->]. intros x Hx; discriminate Hx. Qed.

Lemma get_or_create_user_token_http project env username has_access pbrun now s :
  http_only (snd (get_or_create_user_token project env username has_access pbrun now s)).
Proof.
  unfold get_or_create_user_token.
  destruct (get_token_from_memory (project_value project) env username s) as [s1 [tok|[c d|m]]];
    simpl; try (intros e He; inversion He; reflexivity).
  destruct (c =? 404); [|intros e He; inversion He; reflexivity].
  destruct has_access; [|intros e He; inversion He; reflexivity].
  destruct (generate_user_token pbrun) as [nt|]; [|intros e He; inversion He; reflexivity].
  destruct (add_token_to_file project env username nt now s1) as [s2 [w|w]]; simpl;
    intros e He; [discriminate He | inversion He; reflexivity].
Qed.

Lemma validated_nodes_app (t t' : list Event) :
  validated_nodes (app t t') = app (validated_nodes t) (validated_nodes t').
Proof.
  induction t as [|[n|u|u p] r IH]; simpl; [reflexivity| rewrite IH; reflexivity | exact IH | exact IH].
Qed.

Lemma no_validation_mbind {A B} (m : M A) (f : A -> M B) :
  no_validation m -> (forall a, no_validation (f a)) -> no_validation (mbind m f).
Proof.
  unfold no_validation. destruct m as [t [a|e]]; simpl; intros Hm Hf; [|exact Hm].
  specialize (Hf a). destruct (f a) as [t' r]. simpl in *.
  rewrite validated_nodes_app, Hm, Hf. reflexivity.
Qed.

Lemma no_validation_try_catch_all {A} (m h : M A) :
  no_validation m -> no_validation h -> no_validation (try_catch_all m h).
Proof.
  unfold no_validation. destruct m as [t [a|e]]; simpl; intros Hm Hh; [exact Hm|].
  destruct h as [t' r]. simpl in *. rewrite validated_nodes_app, Hm, Hh. reflexivity.
Qed.

Lemma no_validation_try_reraise {A} (m : M A) (h : string -> M A) :
  no_validation m -> (forall msg, no_validation (h msg)) -> no_validation (try_reraise_http m h).
Proof.
  unfold no_validation. intros Hm Hh. destruct m as [t [a|[c d|msg]]]; simpl; try exact Hm.
  specialize (Hh msg). destruct (h msg) as [t' r]. simpl in *.
  rewrite validated_nodes_app, Hm, Hh. reflexivity.
Qed.

Lemma no_validation_ret {A} (a : A) : no_validation (ret a).
Proof. reflexivity. Qed.

Lemma no_validation_lift {A} (r : outcome A) : no_validation (lift r).
Proof. reflexivity. Qed.

Lemma no_validation_make_api_request post base_url api payload token :
  no_validation (make_api_request post base_url api payload token).
Proof. reflexivity. Qed.

Lemma launch_session_api_no_validation post base_url token custom workbench cluster :
  no_validation (launch_session_api post base_url token custom workbench cluster).
Proof.
  unfold launch_session_api. apply no_validation_mbind.
  - apply no_validation_try_catch_all; [|apply no_validation_ret].
    apply no_validation_mbind; [apply no_validation_make_api_request|intro r].
    apply no_validation_mbind; [apply no_validation_lift|intro ex].
    destruct custom as [c|]; [destruct (nonempty c)|]; apply no_validation_ret.
  - intro name. apply no_validation_mbind; [apply no_validation_make_api_request|intro r].
    apply no_validation_ret.
Qed.

Lemma mbind_lift_ok {A B} (a : A) (f : A -> M B) : mbind (lift (Ok a)) f = f a.
Proof. unfold mbind, lift. destruct (f a). reflexivity. Qed.

Lemma mbind_prefix {A B} (m : M A) (f : A -> M B) : exists rest, fst (mbind m f) = app (fst m) rest.
Proof.
  destruct m as [t [a|e]]; simpl.
  - destruct (f a) as [t' r]. exists t'. reflexivity.
  - exists []. rewrite app_nil_r. reflexivity.
Qed.

Lemma try_reraise_prefix {A} (m : M A) (h : string -> M A) :
  exists rest, fst (try_reraise_http m h) = app (fst m) rest.
Proof.
  destruct m as [t [a|[c d|msg]]]; simpl; try (exists []; rewrite app_nil_r; reflexivity).
  destruct (h msg) as [t' r]. exists t'. reflexivity.
Qed.

Lemma launch_session_endpoint_eq post node_get check_access user_token request username :
  launch_session_endpoint post node_get check_access user_token request username =
  if negb (check_access username (project request) (env request)) then
    lift (Raise (HTTPException 403 "User does not have permission to launch sessions"))
  else
    ' (username, token) <- lift (user_token (project request) (env request) username);;
    base_url <- lift (get_base_url (env request) (project request));;
    try_reraise_http (launch_try_block post node_get request username token base_url)
      (fun msg => ret (mkLaunchSessionResponse false "Failed to launch session" None None
                         (Some (ErrMsg msg)))).
Proof. reflexivity. Qed.

Lemma get_sessions_endpoint_eq post user_token username env project :
  get_sessions_endpoint post user_token username env project =
  ' (username, token) <- lift (user_token project env username);;
  base_url <- lift (get_base_url env project);;
  try_reraise_http (get_sessions_try_block post base_url token)
    (fun msg => ret (mkGetSessionsResponse false "Failed to get sessions" [] (Some (ErrMsg msg)))).
Proof. reflexivity. Qed.

Lemma stop_session_endpoint_eq post user_token request username :
  stop_session_endpoint post user_token request username =
  ' (username, token) <- lift (user_token (stop_project request) (stop_env request) username);;
  base_url <- lift (get_base_url (stop_env request) (stop_project request));;
  try_reraise_http (stop_try_block post request base_url token)
    (fun msg => ret (mkStopSessionResponse false "Failed to stop sessions" [] (Some (ErrMsg msg)))).
Proof. reflexivity. Qed.

Lemma launch_session_api_eq post base_url token custom workbench cluster :
  launch_session_api post base_url token custom workbench cluster =
  unique_session_name <- session_name_choice post base_url token custom;;
  response_data <- make_api_request post base_url LAUNCH_API
                     (launch_payload workbench unique_session_name cluster) token;;
  ret (response_data, unique_session_name).
Proof. reflexivity. Qed.

Lemma snd_mbind {A B} (m : M A) (f : A -> M B) :
  snd (mbind m f) = match snd m with Ok a => snd (f a) | Raise e => Raise e end.
Proof. destruct m as [t [a|e]]; simpl; [destruct (f a)|]; reflexivity. Qed.

Lemma snd_try_reraise {A} (m : M A) (h : string -> M A) :
  snd (try_reraise_http m h) =
  match snd m with Raise (Exception msg) => snd (h msg) | r => r end.
Proof. destruct m as [t [a|[c d|msg]]]; simpl; [| |destruct (h msg)]; reflexivity. Qed.

Lemma snd_make_api_request post base_url api payload token :
  snd (make_api_request post base_url api payload token) =
  match post (format_base_url base_url ++ api) payload token with
  | PostOk body => Ok body
  | PostRequestError _ => Raise (HTTPException 500 "Request to external API failed")
  | PostBadJson _ => Raise (HTTPException 500 "Failed to parse response JSON")
  end.
Proof. reflexivity. Qed.

Lemma final_project1_nonempty (ns : option string) (n : string) :
  final_node_selection PROJECT1 ns = Some n -> nonempty n = true.
Proof.
  unfold final_node_selection. cbn [is_project1 is_project2 andb].
  destruct ns as [x|]; cbn [truthy_str negb].
  - destruct (nonempty x) eqn:E; cbn; intro H; injection H as <-; [exact E | reflexivity].
  - intro H; injection H as <-; reflexivity.
Qed.

Lemma node_validation_project1 node_get request username base_url n :
  project request = PROJECT1 ->
  final_node_selection PROJECT1 (node_selection request) = Some n ->
  node_validation node_get request username base_url = validate_node_selection node_get base_url n username.
Proof.
  intros Hp Hf. unfold node_validation. rewrite Hp, Hf.
  cbn [is_project1 andb truthy_str]. rewrite (final_project1_nonempty _ _ Hf). reflexivity.
Qed.

Lemma launch_session_api_snd post base_url token custom workbench cluster nm :
  snd (session_name_choice post base_url token custom) = Ok nm ->
  snd (launch_session_api post base_url token custom workbench cluster) =
  match post (format_base_url base_url ++ LAUNCH_API) (launch_payload workbench nm cluster) token with
  | PostOk body => Ok (body, nm)
  | PostRequestError _ => Raise (HTTPException 500 "Request to external API failed")
  | PostBadJson _ => Raise (HTTPException 500 "Failed to parse response JSON")
  end.
Proof.
  intro H. rewrite launch_session_api_eq, snd_mbind, H. cbv beta.
  rewrite snd_mbind, snd_make_api_request.
  destruct (post _ _ _); reflexivity.
Qed.

Lemma launch_try_block_snd post node_get request username token base_url nm :
  snd (node_validation node_get request username base_url) = Ok true ->
  snd (session_name_choice post base_url token (req_session_name request)) = Ok nm ->
  snd (launch_try_block post node_get request username token base_url) =
  match post (format_base_url base_url ++ LAUNCH_API)
             (launch_payload (workbench request) nm (cluster request)) token with
  | PostOk body => launch_result base_url body nm
  | PostRequestError _ => Raise (HTTPException 500 "Request to external API failed")
  | PostBadJson _ => Raise (HTTPException 500 "Failed to parse response JSON")
  end.
Proof.
  intros H1 H2. unfold launch_try_block. rewrite snd_mbind, H1. cbv beta.
  rewrite snd_mbind, (launch_session_api_snd _ _ _ _ _ _ _ H2).
  destruct (post _ _ _); reflexivity.
Qed.

(** Past the access check, the token step and the base url, an endpoint's
    outcome is its [try] block's, with a non-HTTP exception turned into the
    handler's answer. *)
Ltac enter_endpoint Ht Hb :=
  rewrite snd_mbind; cbn [snd lift]; rewrite Ht; cbv beta iota;
  rewrite snd_mbind; cbn [snd lift]; rewrite Hb; cbv beta;
  rewrite snd_try_reraise.

(** C5 (counterexample): the endpoints do not turn every failure into a
    failure body. A launch by a user without group access ends in an HTTP
    403; a list or stop request whose call to the session API fails ends in
    an HTTP 500; a launch whose node selection is refused ends in an HTTP
    400. None of them returns a response with [success = false]. *)
Lemma C5_http_errors_escape :
  let post_ok := fun (_ : string) (_ _ : json) => PostOk (JObject [("result", JStr "ok")]) in
  let post_down := fun (_ : string) (_ _ : json) => PostRequestError "connection refused" in
  let tok := fun (_ : Project) (_ : Environment) (u : string) => Ok (u, JStr "t1") in
  let req := mkLaunchSessionRequest None "wb" "cl" DEV PROJECT1 None in
  snd (launch_session_endpoint post_ok (fun _ => GetOk) (fun _ _ _ => false) tok req "bob")
    = Raise (HTTPException 403 "User does not have permission to launch sessions") /\
  snd (get_sessions_endpoint post_down tok "bob" DEV PROJECT1)
    = Raise (HTTPException 500 "Request to external API failed") /\
  snd (stop_session_endpoint post_down tok (mkStopSessionRequest ["s1"] false false DEV PROJECT1) "bob")
    = Raise (HTTPException 500 "Request to external API failed") /\
  snd (launch_session_endpoint post_ok (fun _ => GetRequestError "404") (fun _ _ _ => true) tok req "bob")
    = Raise (HTTPException 400 "Node selection failed for node 'N'").
Proof. vm_compute. repeat split. Qed.

(** C5 (amended): in every session endpoint, given that the token step
    raises nothing but HTTP errors (as [get_or_create_user_token] does), any
    failure that escapes is an [HTTPException]: exceptions of other kinds
    raised inside the [try] become a response with [success = false], while
    HTTP errors are raised again with their own status. In particular a
    launch without access is a 403, a failed request of the session list is
    a 500, and a session-list answer the code cannot read is a
    [success = false] body. In general, past the access check, the token
    step and the base url, each endpoint's outcome is that of its [try]
    block with a non-HTTP exception turned into a [success = false] body;
    the token step's errors leave each endpoint unchanged; a refused node
    selection is a 400 and another error of that check a 500; a launch,
    list or stop request that fails, or whose answer is not JSON, is a 500;
    and a launch answer whose test raises a non-HTTP exception gives a
    [success = false] body. *)
Theorem C5_endpoints_reraise_http
    (post : string -> json -> json -> PostResult) (node_get : string -> GetResult)
    (check_access : string -> Project -> Environment -> bool)
    (user_token : Project -> Environment -> string -> outcome (string * json)) :
  (forall p e u, http_only (user_token p e u)) ->
  (forall req u, http_only (snd (launch_session_endpoint post node_get check_access user_token req u))) /\
  (forall u e p, http_only (snd (get_sessions_endpoint post user_token u e p))) /\
  (forall req u, http_only (snd (stop_session_endpoint post user_token req u))) /\
  (forall req u, check_access u (project req) (env req) = false ->
     snd (launch_session_endpoint post node_get check_access user_token req u)
     = Raise (HTTPException 403 "User does not have permission to launch sessions")) /\
  (forall u e p name tok b msg,
     user_token p e u = Ok (name, tok) -> get_base_url e p = Ok b ->
     post (format_base_url b ++ GET_SESSION_API) (JObject [("method", JStr "get_session")]) tok
       = PostRequestError msg ->
     snd (get_sessions_endpoint post user_token u e p)
     = Raise (HTTPException 500 "Request to external API failed")) /\
  (forall u e p name tok b resp msg,
     user_token p e u = Ok (name, tok) -> get_base_url e p = Ok b ->
     post (format_base_url b ++ GET_SESSION_API) (JObject [("method", JStr "get_session")]) tok
       = PostOk resp ->
     sessions_of_response b resp = Raise (Exception msg) ->
     snd (get_sessions_endpoint post user_token u e p)
     = Ok (mkGetSessionsResponse false "Failed to get sessions" [] (Some (ErrMsg msg)))) /\
  (* the try blocks: a non-HTTP exception becomes a failure body, anything
     else (an answer or an HTTPException) is the endpoint's outcome *)
  (forall req u name tok b,
     check_access u (project req) (env req) = true ->
     user_token (project req) (env req) u = Ok (name, tok) ->
     get_base_url (env req) (project req) = Ok b ->
     snd (launch_session_endpoint post node_get check_access user_token req u) =
     match snd (launch_try_block post node_get req name tok b) with
     | Raise (Exception msg) =>
         Ok (mkLaunchSessionResponse false "Failed to launch session" None None (Some (ErrMsg msg)))
     | r => r
     end) /\
  (forall u e p name tok b,
     user_token p e u = Ok (name, tok) -> get_base_url e p = Ok b ->
     snd (get_sessions_endpoint post user_token u e p) =
     match snd (get_sessions_try_block post b tok) with
     | Raise (Exception msg) =>
         Ok (mkGetSessionsResponse false "Failed to get sessions" [] (Some (ErrMsg msg)))
     | r => r
     end) /\
  (forall req u name tok b,
     user_token (stop_project req) (stop_env req) u = Ok (name, tok) ->
     get_base_url (stop_env req) (stop_project req) = Ok b ->
     snd (stop_session_endpoint post user_token req u) =
     match snd (stop_try_block post req b tok) with
     | Raise (Exception msg) =>
         Ok (mkStopSessionResponse false "Failed to stop sessions" [] (Some (ErrMsg msg)))
     | r => r
     end) /\
  (* the token step's errors leave every endpoint unchanged *)
  (forall req u ex,
     check_access u (project req) (env req) = true ->
     user_token (project req) (env req) u = Raise ex ->
     snd (launch_session_endpoint post node_get check_access user_token req u) = Raise ex) /\
  (forall u e p ex, user_token p e u = Raise ex ->
     snd (get_sessions_endpoint post user_token u e p) = Raise ex) /\
  (forall req u ex, user_token (stop_project req) (stop_env req) u = Raise ex ->
     snd (stop_session_endpoint post user_token req u) = Raise ex) /\
  (* node selection refused: 400, or 500 on another error of the check *)
  (forall req u name tok b n m,
     check_access u (project req) (env req) = true ->
     user_token (project req) (env req) u = Ok (name, tok) ->
     get_base_url (env req) (project req) = Ok b ->
     project req = PROJECT1 ->
     final_node_selection PROJECT1 (node_selection req) = Some n ->
     node_get ("https://" ++ b ++ ":8084/cluster/" ++ n ++ "/user/" ++ name) = GetRequestError m ->
     snd (launch_session_endpoint post node_get check_access user_token req u)
     = Raise (HTTPException 400 ("Node selection failed for node '" ++ n ++ "'"))) /\
  (forall req u name tok b n m,
     check_access u (project req) (env req) = true ->
     user_token (project req) (env req) u = Ok (name, tok) ->
     get_base_url (env req) (project req) = Ok b ->
     project req = PROJECT1 ->
     final_node_selection PROJECT1 (node_selection req) = Some n ->
     node_get ("https://" ++ b ++ ":8084/cluster/" ++ n ++ "/user/" ++ name) = GetOtherError m ->
     snd (launch_session_endpoint post node_get check_access user_token req u)
     = Raise (HTTPException 500 "Unexpected error during node selection")) /\
  (* the launch request: failed, not JSON, or an answer whose test raises *)
  (forall req u name tok b nm,
     check_access u (project req) (env req) = true ->
     user_token (project req) (env req) u = Ok (name, tok) ->
     get_base_url (env req) (project req) = Ok b ->
     snd (node_validation node_get req name b) = Ok true ->
     snd (session_name_choice post b tok (req_session_name req)) = Ok nm ->
     (forall m, post (format_base_url b ++ LAUNCH_API) (launch_payload (workbench req) nm (cluster req)) tok
                = PostRequestError m ->
        snd (launch_session_endpoint post node_get check_access user_token req u)
        = Raise (HTTPException 500 "Request to external API failed")) /\
     (forall m, post (format_base_url b ++ LAUNCH_API) (launch_payload (workbench req) nm (cluster req)) tok
                = PostBadJson m ->
        snd (launch_session_endpoint post node_get check_access user_token req u)
        = Raise (HTTPException 500 "Failed to parse response JSON")) /\
     (forall resp msg,
        post (format_base_url b ++ LAUNCH_API) (launch_payload (workbench req) nm (cluster req)) tok
          = PostOk resp ->
        launch_result b resp nm = Raise (Exception msg) ->
        snd (launch_session_endpoint post node_get check_access user_token req u)
        = Ok (mkLaunchSessionResponse false "Failed to launch session" None None (Some (ErrMsg msg))))) /\
  (* the session list answer is not JSON: 500 *)
  (forall u e p name tok b msg,
     user_token p e u = Ok (name, tok) -> get_base_url e p = Ok b ->
     post (format_base_url b ++ GET_SESSION_API) (JObject [("method", JStr "get_session")]) tok
       = PostBadJson msg ->
     snd (get_sessions_endpoint post user_token u e p)
     = Raise (HTTPException 500 "Failed to parse response JSON")) /\
  (* the stop request fails or its answer is not JSON: 500 *)
  (forall req u name tok b,
     user_token (stop_project req) (stop_env req) u = Ok (name, tok) ->
     get_base_url (stop_env req) (stop_project req) = Ok b ->
     (forall m, post (format_base_url b ++ STOP_SESSION_API)
                  (stop_payload (session_ids req) (force_quit req) (suspend_session req)) tok
                = PostRequestError m ->
        snd (stop_session_endpoint post user_token req u)
        = Raise (HTTPException 500 "Request to external API failed")) /\
     (forall m, post (format_base_url b ++ STOP_SESSION_API)
                  (stop_payload (session_ids req) (force_quit req) (suspend_session req)) tok
                = PostBadJson m ->
        snd (stop_session_endpoint post user_token req u)
        = Raise (HTTPException 500 "Failed to parse response JSON"))).
Proof.
  intro Hut. split; [|split; [|split; [|split; [|split; [|split]]]]].
  - intros req u. unfold launch_session_endpoint.
    destruct (negb (check_access u (project req) (env req))).
    + intros x Hx. inversion Hx. reflexivity.
    + apply http_only_mbind; [apply Hut|intros [un tok]].
      apply http_only_mbind; [apply http_only_get_base_url|intro b].
      apply http_only_try. intro msg. apply http_only_ret.
  - intros u e p. unfold get_sessions_endpoint.
    apply http_only_mbind; [apply Hut|intros [un tok]].
    apply http_only_mbind; [apply http_only_get_base_url|intro b].
    apply http_only_try. intro msg. apply http_only_ret.
  - intros req u. unfold stop_session_endpoint.
    apply http_only_mbind; [apply Hut|intros [un tok]].
    apply http_only_mbind; [apply http_only_get_base_url|intro b].
    apply http_only_try. intro msg. apply http_only_ret.
  - intros req u H. unfold launch_session_endpoint. rewrite H. reflexivity.
  - intros u e p name tok b msg H1 H2 H3. unfold get_sessions_endpoint, mbind, lift.
    rewrite H1, H2. unfold get_sessions_api, make_api_request. rewrite H3. reflexivity.
  - intros u e p name tok b resp msg H1 H2 H3 H4. unfold get_sessions_endpoint, mbind, lift.
    rewrite H1, H2. unfold get_sessions_api, make_api_request. rewrite H3.
    cbn [try_reraise_http obind]. rewrite H4. reflexivity.
  - split; [|split; [|split; [|split; [|split; [|split; [|split; [|split; [|split; [|split]]]]]]]]].
    + intros req u name tok b Ha Ht Hb. rewrite launch_session_endpoint_eq, Ha. cbv beta iota.
      cbn [negb]. enter_endpoint Ht Hb.
      destruct (snd (launch_try_block _ _ _ _ _ _)) as [x|[c d|msg]]; reflexivity.
    + intros u e p name tok b Ht Hb. rewrite get_sessions_endpoint_eq. enter_endpoint Ht Hb.
      destruct (snd (get_sessions_try_block _ _ _)) as [x|[c d|msg]]; reflexivity.
    + intros req u name tok b Ht Hb. rewrite stop_session_endpoint_eq. enter_endpoint Ht Hb.
      destruct (snd (stop_try_block _ _ _ _)) as [x|[c d|msg]]; reflexivity.
    + intros req u ex Ha Ht. rewrite launch_session_endpoint_eq, Ha. cbn [negb].
      rewrite snd_mbind. cbn [snd lift]. rewrite Ht. reflexivity.
    + intros u e p ex Ht. rewrite get_sessions_endpoint_eq, snd_mbind. cbn [snd lift].
      rewrite Ht. reflexivity.
    + intros req u ex Ht. rewrite stop_session_endpoint_eq, snd_mbind. cbn [snd lift].
      rewrite Ht. reflexivity.
    + intros req u name tok b n m Ha Ht Hb Hp Hf Hg.
      rewrite launch_session_endpoint_eq, Ha. cbn [negb]. enter_endpoint Ht Hb.
      unfold launch_try_block. rewrite snd_mbind, (node_validation_project1 _ _ _ _ _ Hp Hf).
      unfold validate_node_selection. cbn [snd]. rewrite Hg. reflexivity.
    + intros req u name tok b n m Ha Ht Hb Hp Hf Hg.
      rewrite launch_session_endpoint_eq, Ha. cbn [negb]. enter_endpoint Ht Hb.
      unfold launch_try_block. rewrite snd_mbind, (node_validation_project1 _ _ _ _ _ Hp Hf).
      unfold validate_node_selection. cbn [snd]. rewrite Hg. reflexivity.
    + intros req u name tok b nm Ha Ht Hb Hv Hn.
      assert (E : snd (launch_session_endpoint post node_get check_access user_token req u) =
                  match snd (launch_try_block post node_get req name tok b) with
                  | Raise (Exception msg) =>
                      Ok (mkLaunchSessionResponse false "Failed to launch session" None None
                            (Some (ErrMsg msg)))
                  | r => r
                  end).
      { rewrite launch_session_endpoint_eq, Ha. cbn [negb]. enter_endpoint Ht Hb. reflexivity. }
      rewrite (launch_try_block_snd _ _ _ _ _ _ _ Hv Hn) in E.
      split; [|split].
      * intros m Hpost. rewrite E, Hpost. reflexivity.
      * intros m Hpost. rewrite E, Hpost. reflexivity.
      * intros resp msg Hpost Hl. rewrite E, Hpost, Hl. reflexivity.
    + intros u e p name tok b msg Ht Hb Hpost. rewrite get_sessions_endpoint_eq.
      enter_endpoint Ht Hb. unfold get_sessions_try_block, get_sessions_api.
      rewrite snd_mbind, snd_make_api_request, Hpost. reflexivity.
    + intros req u name tok b Ht Hb.
      assert (E : snd (stop_session_endpoint post user_token req u) =
                  match snd (stop_try_block post req b tok) with
                  | Raise (Exception msg) =>
                      Ok (mkStopSessionResponse false "Failed to stop sessions" [] (Some (ErrMsg msg)))
                  | r => r
                  end).
      { rewrite stop_session_endpoint_eq. enter_endpoint Ht Hb. reflexivity. }
      unfold stop_try_block, stop_session_api in E. rewrite snd_mbind, snd_make_api_request in E.
      split; intros m Hpost; rewrite E, Hpost; reflexivity.
Qed.

(** C10: the node selection of a launch. For PROJECT2 the endpoint behaves
    exactly as on the same request without [node_selection] (same calls, same
    outcome) and never calls [validate_node_selection]. For PROJECT1 with no
    (or an empty) [node_selection], a user with access whose token is found
    gets the node "N", and the first call the endpoint makes is the
    validation of "N". *)
Theorem C10_node_selection
    (post : string -> json -> json -> PostResult) (node_get : string -> GetResult)
    (check_access : string -> Project -> Environment -> bool)
    (user_token : Project -> Environment -> string -> outcome (string * json)) :
  (forall req u, project req = PROJECT2 ->
     launch_session_endpoint post node_get check_access user_token req u
     = launch_session_endpoint post node_get check_access user_token (without_node_selection req) u /\
     validated_nodes (fst (launch_session_endpoint post node_get check_access user_token req u)) = []) /\
  (forall req u name tok, project req = PROJECT1 -> truthy_str (node_selection req) = false ->
     check_access u PROJECT1 (env req) = true -> user_token PROJECT1 (env req) u = Ok (name, tok) ->
     exists rest, fst (launch_session_endpoint post node_get check_access user_token req u)
                  = EValidateNode "N" :: rest).
Proof.
  split.
  - intros [sn wb cl e p ns] u Hp. cbn [project] in Hp. subst p. split; [reflexivity|].
    change (no_validation (launch_session_endpoint post node_get check_access user_token
              (mkLaunchSessionRequest sn wb cl e PROJECT2 ns) u)).
    unfold launch_session_endpoint. cbn [project env node_selection].
    destruct (negb (check_access u PROJECT2 e)); [reflexivity|].
    apply no_validation_mbind; [apply no_validation_lift|intros [un tok]].
    apply no_validation_mbind; [apply no_validation_lift|intro b].
    apply no_validation_try_reraise; [|intro msg; apply no_validation_ret].
    apply no_validation_mbind; [apply no_validation_ret|intro v].
    apply no_validation_mbind; [apply launch_session_api_no_validation|intros [rd an]].
    apply no_validation_lift.
  - intros [sn wb cl e p ns] u name tok Hp Hns Hacc Hut. cbn [project node_selection env] in *.
    subst p. unfold launch_session_endpoint. cbn [project env node_selection].
    rewrite Hacc, Hut. destruct (get_base_url_ok e PROJECT1) as [b Hb].
    cbn [negb]. rewrite mbind_lift_ok. cbv beta iota. rewrite Hb, mbind_lift_ok.
    unfold final_node_selection. rewrite Hns. cbn [is_project1 is_project2 andb negb truthy_str nonempty].
    match goal with
    | |- context [try_reraise_http (mbind ?m ?k) ?h] =>
        destruct (try_reraise_prefix (mbind m k) h) as [r1 ->];
        destruct (mbind_prefix m k) as [r2 ->]
    end.
    eexists. reflexivity.
Qed.

(** ** Instances of the theorems on sample inputs *)

Lemma C4_witness :
  load_tokens_data false example_cache = (example_cache, Ok example_tokens) /\
  lookup_path_ok example_tokens "PROJECT1" (env_value UAT) /\
  get_token_from_memory "PROJECT1" UAT "al" example_cache = (example_cache, Raise not_found).
Proof.
  split; [reflexivity|]. split; [vm_compute; exact I|].
  apply (C4_token_lookup_404 example_cache example_cache example_tokens "PROJECT1" UAT "al");
    [reflexivity | vm_compute; exact I].
Defined.

Lemma C7_witness :
  (exists m, disk_file example_cache = Some (Parsed example_tokens, m)) /\
  store_path_ok example_tokens (project_value PROJECT2) (env_value UAT) /\
  exists d', add_token_to_file PROJECT2 UAT "dora" "t9" 7 example_cache =
               (mkCache (Some d') (Some 7) (Some (Parsed d', 7)), Ok tt) /\
    token_at d' "PROJECT2" "UAT" "dora" = Some (JStr "t9") /\
    token_at d' "PROJECT1" "DEV" "bob" = Some (JStr "t1").
Proof.
  split; [exists 5; reflexivity|]. split; [vm_compute; exact I|].
  destruct (C7_add_token_frame PROJECT2 UAT "dora" "t9" 7 example_cache example_tokens
              (or_intror (ex_intro _ 5 eq_refl)) I) as [d' [H1 [H2 H3]]].
  exists d'. split; [exact H1|]. split; [exact H2|].
  rewrite (H3 "PROJECT1" "DEV" "bob"); [reflexivity|].
  intro H. inversion H.
Defined.

Lemma C3_witness :
  load_tokens_data false example_cache = (example_cache, Ok example_tokens) /\
  disk_file example_cache = Some (Parsed example_tokens, 5) /\
  store_path_ok example_tokens (project_value PROJECT2) (env_value DEV) /\
  get_or_create_user_token PROJECT2 DEV "carl" true (CmdOk "| tok9 |") 7 example_cache
    = (example_cache, Ok ("carl", JStr "t4")) /\
  get_or_create_user_token PROJECT2 DEV "dora" false (CmdOk "| tok9 |") 7 example_cache
    = (example_cache, Raise not_found) /\
  disk_file (mkCache (Some example_tokens) (Some 5) None) = None /\
  get_or_create_user_token PROJECT1 DEV "carl" true (CmdOk "| tok9 |") 7
      (mkCache (Some example_tokens) (Some 5) None)
    = (mkCache (Some example_tokens) (Some 5) None,
       Raise (HTTPException 500 "Error loading token file: Token file 'tokens.json' not found")).
Proof.
  split; [reflexivity|]. split; [reflexivity|]. split; [vm_compute; exact I|].
  split; [|split; [|split; [reflexivity|]]].
  - apply (proj1 (proj1 C3_get_or_create_amended PROJECT2 DEV "carl" true (CmdOk "| tok9 |") 7
                    example_cache example_cache example_tokens 5 eq_refl eq_refl I));
      reflexivity.
  - apply (proj2 (proj2 (proj1 C3_get_or_create_amended PROJECT2 DEV "dora" false (CmdOk "| tok9 |") 7
                    example_cache example_cache example_tokens 5 eq_refl eq_refl I)));
      reflexivity.
  - exact (proj2 C3_get_or_create_amended PROJECT1 DEV "carl" true (CmdOk "| tok9 |") 7
             (mkCache (Some example_tokens) (Some 5) None) eq_refl).
Defined.

Lemma C2_witness :
  load_group_config false example_group_cache = (example_group_cache, Ok example_group_config) /\
  get_user_groups (example_groups_cmd "bob") = Ok ["bob"; "wheel"] /\
  (forall kvs, groups_entry example_group_config PROJECT1 DEV <> Some (JObject kvs)) /\
  snd (check_user_access_for_launch example_group_cache example_groups_cmd "bob" PROJECT1 DEV) = true.
Proof.
  split; [reflexivity|]. split; [reflexivity|].
  assert (Hne : forall kvs, groups_entry example_group_config PROJECT1 DEV <> Some (JObject kvs))
    by (intros kvs H; vm_compute in H; discriminate H).
  split; [exact Hne|].
  apply (proj2 (proj1 (proj2 (C2_access_iff_shared_group example_group_cache example_group_cache
                  example_group_config example_groups_cmd "bob" ["bob"; "wheel"] PROJECT1 DEV
                  eq_refl eq_refl Hne)))).
  exists "wheel". split; [right; left; reflexivity | vm_compute; left; reflexivity].
Defined.

Lemma C9_witness :
  (exists ex, snd (load_group_config false (mkCache None None None)) = Raise ex) /\
  snd (check_user_access_for_launch (mkCache None None None) example_groups_cmd "bob" PROJECT1 DEV)
    = false.
Proof.
  assert (H : exists ex, snd (load_group_config false (mkCache None None None)) = Raise ex)
    by (eexists; reflexivity).
  split; [exact H|].
  exact (C9_access_fail_closed (mkCache None None None) example_groups_cmd "bob" PROJECT1 DEV
           (or_introl H)).
Defined.

Lemma C8_witness :
  load_tokens_data false example_cache = (example_cache, Ok example_tokens) /\
  wf_store example_tokens /\
  NoDup (snd (get_available_users_from_memory (Some PROJECT1) None example_cache)) /\
  (In "bob" (snd (get_available_users_from_memory (Some PROJECT1) None example_cache)) <->
   user_listed example_tokens (Some PROJECT1) None "bob").
Proof.
  assert (Hw : wf_store example_tokens).
  { unfold wf_store, example_tokens. eexists; split; [reflexivity|].
    repeat first [ apply Forall_nil | apply Forall_cons
                 | (eexists; split; [reflexivity|]) | (eexists; reflexivity) ]. }
  split; [reflexivity|]. split; [exact Hw|].
  destruct (proj2 (proj2 (C8_available_users (Some PROJECT1) None example_cache))
              example_cache example_tokens eq_refl Hw) as [_ [Hnd Hm]].
  split; [exact Hnd | apply Hm].
Defined.

(** The second part is a launch whose answer has a [result] that is no
    container: the test ["url" in response_data["result"]] raises a
    [TypeError], which the endpoint turns into a failure body. *)
Lemma C5_witness :
  ((forall p e u, http_only (snd (get_or_create_user_token p e u true (CmdOk "| tok9 |") 7 example_cache))) /\
  snd (get_sessions_endpoint (fun _ _ _ => PostBadJson "<html>")
         (fun p e u => snd (get_or_create_user_token p e u true (CmdOk "| tok9 |") 7 example_cache))
         "bob" DEV PROJECT1)
    = Raise (HTTPException 500 "Failed to parse response JSON") /\
  http_only (snd (get_sessions_endpoint (fun _ _ _ => PostBadJson "<html>")
         (fun p e u => snd (get_or_create_user_token p e u true (CmdOk "| tok9 |") 7 example_cache))
         "bob" DEV PROJECT1))) /\
  (let req := mkLaunchSessionRequest None "wb" "cl" DEV PROJECT1 None in
  (forall p e u, http_only (example_user_token p e u)) /\
  snd (node_validation (fun _ => GetOk) req "bob" "dev-project1.example.com") = Ok true /\
  snd (session_name_choice example_post_bad_result "dev-project1.example.com" (JStr "t1") None)
    = Ok "JupyterLab Session 1" /\
  launch_result "dev-project1.example.com" (JObject [("result", JNum 5)]) "JupyterLab Session 1"
    = Raise (Exception "TypeError") /\
  snd (launch_session_endpoint example_post_bad_result (fun _ => GetOk) (fun _ _ _ => true)
         example_user_token req "bob")
    = Ok (mkLaunchSessionResponse false "Failed to launch session" None None
            (Some (ErrMsg "TypeError")))).
Proof.
  split.
  - assert (Hh : forall p e u,
              http_only (snd (get_or_create_user_token p e u true (CmdOk "| tok9 |") 7 example_cache)))
      by (intros; apply get_or_create_user_token_http).
    split; [exact Hh|]. split; [vm_compute; reflexivity|].
    exact (proj1 (proj2 (C5_endpoints_reraise_http (fun _ _ _ => PostBadJson "<html>") (fun _ => GetOk)
             (fun _ _ _ => true)
             (fun p e u => snd (get_or_create_user_token p e u true (CmdOk "| tok9 |") 7 example_cache))
             Hh)) "bob" DEV PROJECT1).
  - intro req.
    assert (Hh : forall p e u, http_only (example_user_token p e u))
      by (intros p e u x Hx; discriminate Hx).
    assert (Hv : snd (node_validation (fun _ => GetOk) req "bob" "dev-project1.example.com") = Ok true)
      by reflexivity.
    assert (Hn : snd (session_name_choice example_post_bad_result "dev-project1.example.com" (JStr "t1") None)
                 = Ok "JupyterLab Session 1") by (vm_compute; reflexivity).
    assert (Hl : launch_result "dev-project1.example.com" (JObject [("result", JNum 5)]) "JupyterLab Session 1"
                 = Raise (Exception "TypeError")) by reflexivity.
    split; [exact Hh|]. split; [exact Hv|]. split; [exact Hn|]. split; [exact Hl|].
    destruct (C5_endpoints_reraise_http example_post_bad_result (fun _ => GetOk) (fun _ _ _ => true)
                example_user_token Hh)
      as (_ & _ & _ & _ & _ & _ & _ & _ & _ & _ & _ & _ & _ & _ & Hlaunch & _).
    exact (proj2 (proj2 (Hlaunch req "bob" "bob" (JStr "t1") "dev-project1.example.com"
             "JupyterLab Session 1" eq_refl eq_refl eq_refl Hv Hn))
             (JObject [("result", JNum 5)]) "TypeError" ltac:(vm_compute; reflexivity) Hl).
Defined.

Lemma C10_witness :
  let post := fun (_ : string) (_ _ : json) => PostOk JNull in
  let tok := fun (_ : Project) (_ : Environment) (u : string) => Ok (u, JStr "t1") in
  let req := mkLaunchSessionRequest None "wb" "cl" DEV PROJECT1 None in
  project req = PROJECT1 /\ truthy_str (node_selection req) = false /\
  (fun (_ : string) (_ : Project) (_ : Environment) => true) "bob" PROJECT1 DEV = true /\
  tok PROJECT1 DEV "bob" = Ok ("bob", JStr "t1") /\
  exists rest, fst (launch_session_endpoint post (fun _ => GetOk) (fun _ _ _ => true) tok req "bob")
               = EValidateNode "N" :: rest.
Proof.
  intros post tok req.
  split; [reflexivity|]. split; [reflexivity|]. split; [reflexivity|]. split; [reflexivity|].
  exact (proj2 (C10_node_selection post (fun _ => GetOk) (fun _ _ _ => true) tok)
           req "bob" "bob" (JStr "t1") eq_refl eq_refl eq_refl eq_refl).
Defined.

(** * Further properties of the code *)

(** ** format_base_url *)

Lemma strip_prefix_app (p s : string) : strip_prefix p (p ++ s) = Some s.
Proof. induction p as [|c p IH]; simpl; [reflexivity|]. rewrite Ascii.eqb_refl. exact IH. Qed.

Lemma strip_prefix_some (p s r : string) : strip_prefix p s = Some r -> s = p ++ r.
Proof.
  revert s. induction p as [|c p IH]; intros s H; simpl in H.
  - inversion H. reflexivity.
  - destruct s as [|d s]; [discriminate|].
    destruct (Ascii.eqb c d) eqn:E; [|discriminate].
    apply Ascii.eqb_eq in E. subst d. simpl. f_equal. apply IH. exact H.
Qed.

(** [format_base_url] always gives a URL with an [http://] or [https://]
    scheme, and applying it a second time changes nothing. *)
Theorem format_base_url_idempotent (base_url : string) :
  format_base_url (format_base_url base_url) = format_base_url base_url /\
  exists rest, format_base_url base_url = "http://" ++ rest \/
               format_base_url base_url = "https://" ++ rest.
Proof.
  unfold format_base_url.
  destruct (strip_prefix "http://" base_url) as [r1|] eqn:E1.
  - rewrite E1. split; [reflexivity|]. exists r1. left. exact (strip_prefix_some _ _ _ E1).
  - destruct (strip_prefix "https://" base_url) as [r2|] eqn:E2.
    + rewrite E1, E2. split; [reflexivity|]. exists r2. right. exact (strip_prefix_some _ _ _ E2).
    + rewrite strip_prefix_app. split; [reflexivity|]. exists base_url. right. reflexivity.
Qed.

(** ** The cached loaders *)

Lemma gtb_irrefl (m : Z) : (m >? m) = false.
Proof. rewrite Z.gtb_ltb. apply Z.ltb_irrefl. Qed.

Lemma reload_needed_false (s : Cache) (f : bool) (m : Z) :
  reload_needed s f m = false -> reload_needed s false m = false.
Proof.
  unfold reload_needed. destruct (is_none (cached_data s)), f, (mtime_newer (last_modified s) m);
    simpl; congruence.
Qed.

Ltac loader_stable H :=
  destruct (disk_file _) as [[c m]|] eqn:Ed; [|discriminate H];
  destruct (reload_needed _ _ m) eqn:Er;
  [ destruct c as [j|]; [|discriminate H]; injection H as <- <-; cbn [disk_file];
    rewrite ?Ed; unfold reload_needed, mtime_newer; cbn [cached_data last_modified];
    rewrite gtb_irrefl, andb_false_r; destruct j; reflexivity
  | inversion H; subst; rewrite Ed, (reload_needed_false _ _ _ Er); reflexivity ].

Lemma tokens_load_stable (f : bool) (s s1 : Cache) (d : json) :
  load_tokens_data f s = (s1, Ok d) -> load_tokens_data false s1 = (s1, Ok d).
Proof. unfold load_tokens_data. intro H; loader_stable H. Qed.

Lemma group_load_stable (f : bool) (s s1 : Cache) (d : json) :
  load_group_config f s = (s1, Ok d) -> load_group_config false s1 = (s1, Ok d).
Proof. unfold load_group_config. intro H; loader_stable H. Qed.

(** A successful load, forced or not, leaves a cache from which the next
    load (with the file unchanged) returns the same data without changing
    the cache again; for both files. *)
Theorem loaders_idempotent (f : bool) (s s1 : Cache) (d : json) :
  (load_tokens_data f s = (s1, Ok d) -> load_tokens_data false s1 = (s1, Ok d)) /\
  (load_group_config f s = (s1, Ok d) -> load_group_config false s1 = (s1, Ok d)).
Proof. split; [apply tokens_load_stable | apply group_load_stable]. Qed.

(** The admin reload endpoints re-read an existing, parsable file whatever
    the cache holds (a recorded mtime of 0 included), and the loads that
    follow return the file's content. *)
Theorem reload_endpoints_refresh (ts : string) (s : Cache) (j : json) (m : Z) :
  disk_file s = Some (Parsed j, m) ->
  (exists s', reload_tokens ts s =
                (s', Ok (mkReloadResponse true "Tokens data reloaded successfully" ts)) /\
              load_tokens_data false s' = (s', Ok j)) /\
  (exists s', reload_group_config ts s =
                (s', Ok (mkReloadResponse true "Group configuration reloaded successfully" ts)) /\
              load_group_config false s' = (s', Ok j)).
Proof.
  intro Hd. assert (Hr : reload_needed s true m = true)
    by (unfold reload_needed; rewrite orb_true_r; reflexivity).
  split.
  - assert (Hl : load_tokens_data true s = (mkCache (py_of_json j) (Some m) (disk_file s), Ok j))
      by (unfold load_tokens_data; rewrite Hd, Hr; reflexivity).
    eexists. split; [unfold reload_tokens; rewrite Hl; reflexivity|].
    exact (tokens_load_stable _ _ _ _ Hl).
  - assert (Hl : load_group_config true s = (mkCache (py_of_json j) (Some m) (disk_file s), Ok j))
      by (unfold load_group_config; rewrite Hd, Hr; reflexivity).
    eexists. split; [unfold reload_group_config; rewrite Hl; reflexivity|].
    exact (group_load_stable _ _ _ _ Hl).
Qed.

(** When the file is missing or is no valid JSON, the reload endpoints raise
    a 500 (a parse error too, which the loaders report as a 400) and leave the
    cache as it was. *)
Theorem reload_endpoints_failure (ts : string) (s : Cache) :
  (disk_file s = None \/ exists m, disk_file s = Some (Unparsable, m)) ->
  reload_tokens ts s = (s, Raise (HTTPException 500 "Failed to reload tokens")) /\
  reload_group_config ts s = (s, Raise (HTTPException 500 "Failed to reload group config")).
Proof.
  unfold reload_tokens, reload_group_config, load_tokens_data, load_group_config.
  assert (Hr : forall m, reload_needed s true m = true)
    by (intro m; unfold reload_needed; rewrite orb_true_r; reflexivity).
  intros [Hd|[m Hd]]; rewrite Hd; [|rewrite Hr]; split; reflexivity.
Qed.

(** ** Writing a token and reading it back *)

Lemma truthy_dict_set (kvs : list (string * json)) (k : string) (v : json) :
  truthy (JObject (dict_set kvs k v)) = true.
Proof. destruct kvs as [|[k' v'] r]; simpl; [|destruct (String.eqb k k')]; reflexivity. Qed.

Lemma set_token_lookup (d : json) (pn : string) (env : Environment) (u : string) (v d' : json) :
  set_token d pn (env_value env) u v = Ok d' -> truthy v = true ->
  lookup_token d' pn env u = Ok v.
Proof.
  intros H Hv. unfold set_token in H.
  destruct d as [| | | | |top]; try discriminate H.
  destruct (match assoc top pn with Some v0 => v0 | None => JObject [] end) as [| | | | |pkvs];
    try discriminate H.
  destruct (match assoc pkvs (env_value env) with Some v0 => v0 | None => JObject [] end)
    as [| | | | |ekvs]; try discriminate H.
  injection H as <-. unfold lookup_token. cbn [py_get obind].
  rewrite assoc_dict_set_same, truthy_dict_set. cbn [py_get obind].
  rewrite assoc_dict_set_same, truthy_dict_set. cbn [py_get obind].
  rewrite assoc_dict_set_same, Hv. reflexivity.
Qed.

Lemma add_token_to_file_ok (p : Project) (e : Environment) (u t : string) (now : Z) (s s' : Cache) :
  add_token_to_file p e u t now s = (s', Ok tt) ->
  exists d0 d', set_token d0 (project_value p) (env_value e) u (JStr t) = Ok d' /\
    s' = mkCache (Some d') (Some now) (Some (Parsed d', now)).
Proof.
  unfold add_token_to_file.
  destruct (disk_file s) as [[[j|] m]|]; cbn [obind];
    [destruct (set_token j _ _ _ _) eqn:E | | destruct (set_token (JObject []) _ _ _ _) eqn:E];
    intro H; inversion H; subst; eauto.
Qed.

Lemma load_after_write (d' : json) (now : Z) :
  load_tokens_data false (mkCache (Some d') (Some now) (Some (Parsed d', now)))
  = (mkCache (Some d') (Some now) (Some (Parsed d', now)), Ok d').
Proof.
  unfold load_tokens_data, reload_needed, mtime_newer. cbn [disk_file cached_data last_modified].
  rewrite gtb_irrefl, andb_false_r. reflexivity.
Qed.

Lemma add_token_lookup (p : Project) (e : Environment) (u t : string) (now : Z) (s s' : Cache) :
  add_token_to_file p e u t now s = (s', Ok tt) -> nonempty t = true ->
  get_token_from_memory (project_value p) e u s' = (s', Ok (JStr t)).
Proof.
  intros H Ht. destruct (add_token_to_file_ok p e u t now s s' H) as [d0 [d' [Hs ->]]].
  unfold get_token_from_memory. rewrite load_after_write. cbn [obind].
  rewrite (set_token_lookup d0 (project_value p) e u (JStr t) d' Hs); [reflexivity|].
  destruct t; [discriminate Ht | reflexivity].
Qed.

(** Insert then lookup: once [add_token_to_file] has stored a non-empty
    token, [get_token_from_memory] returns that token from the cache the
    write left, without changing it. *)
Theorem add_token_to_file_then_lookup (p : Project) (e : Environment) (u t : string) (now : Z)
    (s s' : Cache) :
  add_token_to_file p e u t now s = (s', Ok tt) -> nonempty t = true ->
  get_token_from_memory (project_value p) e u s' = (s', Ok (JStr t)).
Proof. exact (add_token_lookup p e u t now s s'). Qed.

(** ** The token command's output *)

Lemma drop_spaces_suffix (l : list ascii) : exists pre, l = app pre (drop_spaces l).
Proof.
  induction l as [|c r [pre IH]]; simpl; [exists []; reflexivity|].
  destruct (is_space c); [exists (c :: pre); simpl; f_equal; exact IH | exists []; reflexivity].
Qed.

Lemma drop_spaces_head (l : list ascii) (c : ascii) (r : list ascii) :
  drop_spaces l = c :: r -> is_space c = false.
Proof.
  induction l as [|d l IH]; simpl; [discriminate|].
  destruct (is_space d) eqn:E; [exact IH|]. intro H. inversion H; subst. exact E.
Qed.

Lemma drop_spaces_fix (l : list ascii) :
  (forall c r, l = c :: r -> is_space c = false) -> drop_spaces l = l.
Proof.
  destruct l as [|c r]; simpl; [reflexivity|]. intro H. rewrite (H c r eq_refl). reflexivity.
Qed.

Lemma py_strip_idempotent (s : string) : py_strip (py_strip s) = py_strip s.
Proof.
  unfold py_strip. rewrite list_ascii_of_string_of_list_ascii.
  set (L := drop_spaces (list_ascii_of_string s)).
  set (R := drop_spaces (rev L)).
  assert (HR : drop_spaces (rev R) = rev R).
  { destruct (drop_spaces_suffix (rev L)) as [pre Hpre]. fold R in Hpre.
    apply drop_spaces_fix. intros c r Hc.
    assert (HL : L = app (rev R) (rev pre)).
    { rewrite <- (rev_involutive L), Hpre, rev_app_distr. reflexivity. }
    rewrite Hc in HL. apply (drop_spaces_head (list_ascii_of_string s) c (app r (rev pre))).
    fold L. rewrite HL. reflexivity. }
  rewrite HR, rev_involutive.
  assert (HR2 : drop_spaces R = R).
  { apply drop_spaces_fix. intros c r Hc. apply (drop_spaces_head (rev L) c r). exact Hc. }
  rewrite HR2. reflexivity.
Qed.

Lemma token_from_pipe_lines_some (lines : list string) (t : string) :
  token_from_pipe_lines lines = Some t -> nonempty t = true /\ exists x, t = py_strip x.
Proof.
  induction lines as [|line r IH]; simpl; [discriminate|].
  destruct (has_char pipe line); [|exact IH].
  destruct (split_on pipe line) as [|p0 [|p1 ps]]; try exact IH.
  destruct (nonempty (py_strip p1)) eqn:E; [|exact IH].
  intro H. inversion H; subst. split; [exact E | exists p1; reflexivity].
Qed.

Lemma first_plain_line_some (lines : list string) (t : string) :
  first_plain_line lines = Some t -> nonempty t = true /\ exists x, t = py_strip x.
Proof.
  induction lines as [|line r IH]; simpl; [discriminate|].
  destruct (py_strip line) as [|c cs] eqn:E; [exact IH|].
  destruct (Ascii.eqb c hash); [exact IH|].
  intro H. inversion H; subst. split; [reflexivity | exists line; symmetry; exact E].
Qed.

Lemma generate_user_token_nonempty (pbrun : CmdResult) (t : string) :
  generate_user_token pbrun = Ok t -> nonempty t = true /\ py_strip t = t.
Proof.
  unfold generate_user_token. destruct pbrun as [stdout| | |msg]; try discriminate.
  destruct (token_from_pipe_lines (split_on newline stdout)) as [tok|] eqn:E1.
  - intro H. inversion H; subst. destruct (token_from_pipe_lines_some _ _ E1) as [Hn [x ->]].
    split; [exact Hn | apply py_strip_idempotent].
  - destruct (first_plain_line (split_on newline stdout)) as [line|] eqn:E2; [|discriminate].
    intro H. inversion H; subst. destruct (first_plain_line_some _ _ E2) as [Hn [x ->]].
    split; [exact Hn | apply py_strip_idempotent].
Qed.

(** A token [generate_user_token] returns is never empty and has no
    leading or trailing whitespace. *)
Theorem generate_user_token_output (pbrun : CmdResult) (t : string) :
  generate_user_token pbrun = Ok t -> nonempty t = true /\ py_strip t = t.
Proof. exact (generate_user_token_nonempty pbrun t). Qed.

(** ** get_or_create_user_token *)

Lemma get_token_from_memory_stable (pn : string) (e : Environment) (u : string) (s s1 : Cache)
    (t : json) :
  get_token_from_memory pn e u s = (s1, Ok t) -> get_token_from_memory pn e u s1 = (s1, Ok t).
Proof.
  unfold get_token_from_memory. destruct (load_tokens_data false s) as [s0 r] eqn:El.
  intro H. injection H as <- Hr. destruct r as [d|ex]; [|discriminate Hr].
  rewrite (tokens_load_stable _ _ _ _ El). exact (f_equal (pair s0) Hr).
Qed.

(** Once [get_or_create_user_token] has returned a token (found or newly
    generated and stored), a second call returns the same pair from the
    state the first call left, leaves that state alone, and depends neither
    on the user's access nor on the token command. *)
Theorem get_or_create_user_token_idempotent (p : Project) (e : Environment) (u : string)
    (ha : bool) (pbrun : CmdResult) (now : Z) (s s' : Cache) (name : string) (tok : json)
    (ha2 : bool) (pbrun2 : CmdResult) (now2 : Z) :
  get_or_create_user_token p e u ha pbrun now s = (s', Ok (name, tok)) ->
  get_or_create_user_token p e u ha2 pbrun2 now2 s' = (s', Ok (name, tok)).
Proof.
  unfold get_or_create_user_token.
  destruct (get_token_from_memory (project_value p) e u s) as [s1 [t|[c d|m]]] eqn:Eg.
  - intro H. injection H as <- <- <-.
    rewrite (get_token_from_memory_stable _ _ _ _ _ _ Eg). reflexivity.
  - destruct (c =? 404); [|discriminate].
    destruct ha; [|discriminate].
    destruct (generate_user_token pbrun) as [nt|] eqn:Eq; [|discriminate].
    destruct (add_token_to_file p e u nt now s1) as [s2 [w|w]] eqn:Ea; [|discriminate].
    intro H. injection H as <- <- <-. destruct w.
    rewrite (add_token_lookup p e u nt now s1 s2 Ea (proj1 (generate_user_token_nonempty _ _ Eq))).
    reflexivity.
  - discriminate.
Qed.

(** When the token file cannot be loaded (missing: 500, no valid JSON: 400),
    [get_or_create_user_token] raises the loader's error unchanged: it does
    not fall back to generating a token. *)
Theorem get_or_create_user_token_load_error (p : Project) (e : Environment) (u : string)
    (ha : bool) (pbrun : CmdResult) (now : Z) (s s1 : Cache) (ex : py_exn) :
  load_tokens_data false s = (s1, Raise ex) ->
  get_or_create_user_token p e u ha pbrun now s = (s1, Raise ex).
Proof.
  intro H. unfold get_or_create_user_token, get_token_from_memory. rewrite H. cbn [obind].
  revert H. unfold load_tokens_data.
  destruct (disk_file s) as [[c m]|]; [destruct (reload_needed s false m); [destruct c|]|];
    intro H; inversion H; subst; reflexivity.
Qed.

(** [get_or_create_user_token] never changes the token file when the user
    has no access or when the token command gives no token. *)
Theorem get_or_create_user_token_no_write (p : Project) (e : Environment) (u : string)
    (ha : bool) (pbrun : CmdResult) (now : Z) (s : Cache) :
  (ha = false \/ exists err, generate_user_token pbrun = Raise err) ->
  disk_file (fst (get_or_create_user_token p e u ha pbrun now s)) = disk_file s.
Proof.
  intro Hc. unfold get_or_create_user_token.
  assert (Hd : disk_file (fst (get_token_from_memory (project_value p) e u s)) = disk_file s).
  { unfold get_token_from_memory. rewrite <- (load_tokens_data_disk false s).
    destruct (load_tokens_data false s). reflexivity. }
  destruct (get_token_from_memory (project_value p) e u s) as [s1 r]. simpl in Hd.
  destruct r as [t|[c d|m]]; try exact Hd.
  destruct (c =? 404); [|exact Hd]. destruct ha; [|exact Hd].
  destruct (generate_user_token pbrun) as [nt|] eqn:Eq; [|exact Hd].
  destruct Hc as [Hc|[err Hc]]; discriminate Hc.
Qed.

(** ** get_user_groups *)

Lemma nonempty_snoc (l : list ascii) (c : ascii) :
  nonempty (string_of_list_ascii (rev (c :: l))) = true.
Proof. simpl. destruct (rev l); reflexivity. Qed.

Lemma split_ws_acc_words (cur cs : list ascii) :
  (forall c, In c cur -> is_space c = false) ->
  Forall no_space (split_ws_acc cur cs).
Proof.
  revert cur. induction cs as [|c r IH]; intros cur Hcur; simpl.
  - destruct cur as [|c0 cur']; constructor; [|constructor].
    split.
    + apply nonempty_snoc.
    + intros c Hc. rewrite list_ascii_of_string_of_list_ascii in Hc.
      apply Hcur. apply in_rev. exact Hc.
  - destruct (is_space c) eqn:Ec.
    + destruct cur as [|c0 cur'].
      * apply IH. intros c' [].
      * constructor; [|apply IH; intros c' []].
        split.
        -- apply nonempty_snoc.
        -- intros c' Hc. rewrite list_ascii_of_string_of_list_ascii in Hc.
           apply Hcur. apply in_rev. exact Hc.
    + apply IH. intros c' [<-|Hc]; [exact Ec | apply Hcur; exact Hc].
Qed.

(** Every group [get_user_groups] reports is a non-empty word without
    whitespace; output without a colon gives no groups. *)
Theorem get_user_groups_words (result : CmdResult) (groups : list string) :
  get_user_groups result = Ok groups ->
  Forall no_space groups /\
  (forall stdout, result = CmdOk stdout -> has_char colon (py_strip stdout) = false -> groups = []).
Proof.
  unfold get_user_groups. destruct result as [stdout| | |msg]; try discriminate.
  - destruct (has_char colon (py_strip stdout)) eqn:E; intro H; inversion H; subst.
    + split; [apply split_ws_acc_words; intros c []|].
      intros st Hst Hc. inversion Hst; subst. congruence.
    + split; [constructor|]. reflexivity.
  - intro H. inversion H; subst. split; [constructor | discriminate].
Qed.

(** ** The session number *)

Lemma mem_Z_spec (n : Z) (l : list Z) : mem_Z n l = true <-> In n l.
Proof.
  unfold mem_Z. rewrite existsb_exists. split.
  - intros [x [Hx He]]. apply Z.eqb_eq in He. subst. exact Hx.
  - intro H. exists n. split; [exact H | apply Z.eqb_refl].
Qed.

Lemma set_add_nodup (x : Z) (s : list Z) : NoDup s -> NoDup (set_add x s) /\ (length (set_add x s) <= S (length s))%nat.
Proof.
  unfold set_add. intro H. destruct (mem_Z x s) eqn:E; [split; [exact H | lia]|].
  split.
  - apply (Permutation_NoDup (l := x :: s)); [apply Permutation_cons_append|].
    constructor; [|exact H]. intro Hin. apply mem_Z_spec in Hin. congruence.
  - rewrite length_app. simpl. lia.
Qed.

Lemma collect_used_nodup (sessions : list SessionInfo) (used : list Z) :
  NoDup used -> NoDup (collect_used sessions used) /\
                (length (collect_used sessions used) <= length sessions + length used)%nat.
Proof.
  revert used. induction sessions as [|s r IH]; intros used H; simpl; [split; [exact H | lia]|].
  destruct (match_session_pattern (display_name s)) as [g|].
  - destruct (set_add_nodup (int_of_digits g) used H) as [H1 H2].
    destruct (IH _ H1) as [H3 H4]. split; [exact H3 | lia].
  - destruct (IH _ H) as [H3 H4]. split; [exact H3 | lia].
Qed.

(** The next session number is at least 1 and at most one more than the
    number of existing sessions. *)
Theorem get_next_available_session_number_bound (sessions : list SessionInfo) :
  1 <= get_next_available_session_number sessions <= Z.of_nat (length sessions) + 1.
Proof.
  destruct (get_next_available_session_number_least sessions) as [H1 [_ H3]].
  cbv zeta in H3. split; [exact H1|].
  set (n := get_next_available_session_number sessions) in *.
  destruct (collect_used_nodup sessions [] (NoDup_nil _)) as [Hnd Hlen].
  simpl in Hlen.
  set (ks := map (fun i => Z.of_nat i + 1) (seq 0 (Z.to_nat (n - 1)))).
  assert (Hks : NoDup ks).
  { apply Finite.Injective_map_NoDup; [intros a b Hab; lia | apply seq_NoDup]. }
  assert (Hincl : incl ks (collect_used sessions [])).
  { intros k Hk. unfold ks in Hk. apply in_map_iff in Hk. destruct Hk as [i [<- Hi]].
    apply in_seq in Hi. apply mem_Z_spec. apply H3. lia. }
  pose proof (NoDup_incl_length Hks Hincl) as Hl.
  unfold ks in Hl. rewrite length_map, length_seq in Hl. lia.
Qed.

(** ** The generated session name *)

Lemma str_app_assoc (a b c : string) : ((a ++ b) ++ c)%string = (a ++ (b ++ c))%string.
Proof. induction a as [|x a IH]; simpl; [reflexivity | rewrite IH; reflexivity]. Qed.

Lemma str_app_nil_r (a : string) : (a ++ EmptyString)%string = a.
Proof. induction a as [|x a IH]; simpl; [reflexivity | rewrite IH; reflexivity]. Qed.

Lemma digits_value_acc_app (a : Z) (x y : string) :
  digits_value_acc a (x ++ y) = digits_value_acc (digits_value_acc a x) y.
Proof. revert a. induction x as [|c x IH]; intro a; simpl; [reflexivity | apply IH]. Qed.

Lemma all_digits_app (x y : string) : all_digits (x ++ y) = (all_digits x && all_digits y)%bool.
Proof. induction x as [|c x IH]; simpl; [reflexivity | rewrite IH, andb_assoc; reflexivity]. Qed.

Lemma digit_char (n : Z) :
  0 <= n ->
  let d := ascii_of_nat (48 + Z.to_nat (n mod 10)) in
  is_digit d = true /\ Z.of_nat (code d - 48) = n mod 10.
Proof.
  intros Hn d. assert (Hm : 0 <= n mod 10 < 10) by (apply Z.mod_pos_bound; lia).
  assert (Hc : code d = (48 + Z.to_nat (n mod 10))%nat).
  { unfold code, d. apply Ascii.nat_ascii_embedding. lia. }
  unfold is_digit. rewrite Hc. split.
  - apply andb_true_intro. split; apply Nat.leb_le; lia.
  - rewrite Nat.add_comm, Nat.add_sub. rewrite Z2Nat.id; lia.
Qed.

Lemma decimal_acc_S (f : nat) (n : Z) (acc : string) :
  decimal_acc (S f) n acc =
  let acc' := String (ascii_of_nat (48 + Z.to_nat (n mod 10))) acc in
  if n / 10 =? 0 then acc' else decimal_acc f (n / 10) acc'.
Proof. reflexivity. Qed.

Lemma decimal_acc_spec (f : nat) (n : Z) (acc : string) :
  0 <= n < 10 ^ Z.of_nat (S f) ->
  exists ds, decimal_acc (S f) n acc = (ds ++ acc)%string /\ nonempty ds = true /\
    all_digits ds = true /\ digits_value_acc 0 ds = n.
Proof.
  revert n acc. induction f as [|f IH]; intros n acc Hn;
    destruct (digit_char n (proj1 Hn)) as [Hd Hv];
    rewrite decimal_acc_S; cbv zeta;
    set (d := ascii_of_nat (48 + Z.to_nat (n mod 10))) in *; clearbody d.
  - assert (Hq : n / 10 = 0) by (apply Z.div_small; change (10 ^ Z.of_nat 1) with 10 in Hn; lia).
    exists (String d EmptyString). rewrite Hq, Z.eqb_refl.
    split; [reflexivity|]. split; [reflexivity|].
    cbn [all_digits digits_value_acc]. rewrite Hd. split; [reflexivity|].
    rewrite Hv. apply Z.mod_small. change (10 ^ Z.of_nat 1) with 10 in Hn. lia.
  - destruct (Z.eqb_spec (n / 10) 0) as [Hq|Hq].
    + exists (String d EmptyString). split; [reflexivity|]. split; [reflexivity|].
      cbn [all_digits digits_value_acc]. rewrite Hd. split; [reflexivity|]. rewrite Hv.
      pose proof (Z.div_mod n 10 ltac:(lia)). lia.
    + assert (Hn' : 0 <= n / 10 < 10 ^ Z.of_nat (S f)).
      { split; [apply Z.div_pos; lia|]. apply Z.div_lt_upper_bound; [lia|].
        rewrite <- Z.pow_succ_r by lia. rewrite <- Nat2Z.inj_succ. exact (proj2 Hn). }
      destruct (IH (n / 10) (String d acc) Hn') as [ds [H1 [H2 [H3 H4]]]].
      exists (ds ++ String d EmptyString)%string. rewrite H1.
      split; [rewrite str_app_assoc; reflexivity|].
      split; [destruct ds; [discriminate H2 | reflexivity]|].
      rewrite all_digits_app, H3. cbn [all_digits]. rewrite Hd. split; [reflexivity|].
      rewrite digits_value_acc_app, H4. cbn [digits_value_acc]. rewrite Hv.
      pose proof (Z.div_mod n 10 ltac:(lia)). lia.
Qed.

Lemma pos_lt_pow2 (p : positive) : Z.pos p < 2 ^ Z.of_nat (Pos.size_nat p).
Proof.
  induction p as [p IH|p IH|]; cbn [Pos.size_nat]; rewrite Nat2Z.inj_succ, Z.pow_succ_r by lia.
  - rewrite Pos2Z.inj_xI. lia.
  - rewrite Pos2Z.inj_xO. lia.
  - change (1 < 2 * 1). lia.
Qed.

(** [int(str(n)) == n] for [n >= 0], and [str(n)] is a non-empty string of
    digits. *)
Lemma str_of_Z_digits (n : Z) :
  0 <= n -> nonempty (str_of_Z n) = true /\ all_digits (str_of_Z n) = true /\
            int_of_digits (str_of_Z n) = n.
Proof.
  intro Hn. unfold str_of_Z.
  assert (Hb : n < 10 ^ Z.of_nat (S (Pos.size_nat (Z.to_pos n)))).
  { destruct (Z.eq_dec n 0) as [->|Hne]; [simpl; lia|].
    pose proof (pos_lt_pow2 (Z.to_pos n)) as H. rewrite Z2Pos.id in H by lia.
    set (k := Z.of_nat (Pos.size_nat (Z.to_pos n))) in *.
    assert (2 ^ k <= 10 ^ k) by (apply Z.pow_le_mono_l; lia).
    rewrite Nat2Z.inj_succ, Z.pow_succ_r by lia. fold k.
    assert (0 < 10 ^ k) by (apply Z.pow_pos_nonneg; lia). lia. }
  destruct (decimal_acc_spec _ n EmptyString (conj Hn Hb)) as [ds [H1 [H2 [H3 H4]]]].
  rewrite H1, str_app_nil_r. auto.
Qed.

Lemma match_generated_name (n : Z) :
  0 <= n -> match_session_pattern (session_prefix ++ str_of_Z n) = Some (str_of_Z n).
Proof.
  intro Hn. destruct (str_of_Z_digits n Hn) as [H1 [H2 _]].
  unfold match_session_pattern. rewrite strip_prefix_app, H1, H2. reflexivity.
Qed.

Lemma set_add_keeps (x y : Z) (s : list Z) : In y s -> In y (set_add x s).
Proof. unfold set_add. destruct (mem_Z x s); [auto | intro H; apply in_or_app; left; exact H]. Qed.

Lemma collect_used_keeps (sessions : list SessionInfo) (used : list Z) (y : Z) :
  In y used -> In y (collect_used sessions used).
Proof.
  revert used. induction sessions as [|s r IH]; intros used H; simpl; [exact H|].
  destruct (match_session_pattern (display_name s)); apply IH; [apply set_add_keeps|]; exact H.
Qed.

Lemma collect_used_mem (sessions : list SessionInfo) (used : list Z) (s : SessionInfo) (g : string) :
  In s sessions -> match_session_pattern (display_name s) = Some g ->
  In (int_of_digits g) (collect_used sessions used).
Proof.
  revert used. induction sessions as [|s' r IH]; intros used Hin Hm; [destruct Hin|].
  destruct Hin as [<-|Hin]; simpl.
  - rewrite Hm. apply collect_used_keeps. unfold set_add.
    destruct (mem_Z (int_of_digits g) used) eqn:E.
    + apply mem_Z_spec. exact E.
    + apply in_or_app. right. left. reflexivity.
  - destruct (match_session_pattern (display_name s')); apply IH; assumption.
Qed.

Lemma generated_name_fresh (sessions : list SessionInfo) :
  forall si, In si sessions ->
    display_name si <> session_prefix ++ str_of_Z (get_next_available_session_number sessions).
Proof.
  intros si Hin Heq.
  destruct (get_next_available_session_number_least sessions) as [H1 [H2 _]].
  set (n := get_next_available_session_number sessions) in *.
  assert (Hm : match_session_pattern (display_name si) = Some (str_of_Z n))
    by (rewrite Heq; apply match_generated_name; lia).
  pose proof (collect_used_mem sessions [] si _ Hin Hm) as Hc.
  rewrite (proj2 (proj2 (str_of_Z_digits n ltac:(lia)))) in Hc.
  apply mem_Z_spec in Hc. cbv zeta in H2. congruence.
Qed.

(** ** The session name sent by launch_session_api *)

Lemma launch_session_api_listing_ok post base_url token custom workbench cluster resp oss :
  post (format_base_url base_url ++ GET_SESSION_API) get_session_payload token = PostOk resp ->
  sessions_of_response base_url resp = Ok oss ->
  let existing := match oss with Some l => l | None => [] end in
  let name := match custom with
              | Some c => if nonempty c then c
                          else session_prefix ++ str_of_Z (get_next_available_session_number existing)
              | None => session_prefix ++ str_of_Z (get_next_available_session_number existing)
              end in
  fst (launch_session_api post base_url token custom workbench cluster) =
    [EPost (format_base_url base_url ++ GET_SESSION_API) get_session_payload;
     EPost (format_base_url base_url ++ LAUNCH_API) (launch_payload workbench name cluster)] /\
  (forall body n, snd (launch_session_api post base_url token custom workbench cluster) = Ok (body, n) ->
                  n = name).
Proof.
  intros Hp Hs existing name. unfold launch_session_api, get_sessions_api, make_api_request.
  fold get_session_payload. rewrite Hp. cbn [mbind lift]. rewrite Hs.
  cbn [mbind lift try_catch_all].
  subst existing name. destruct custom as [c|]; [destruct (nonempty c)|];
    cbn [ret try_catch_all mbind app];
    destruct (post _ (launch_payload _ _ _) token); cbn [fst snd app ret];
    (split; [reflexivity|]); intros b n Hb; inversion Hb; reflexivity.
Qed.

(** [launch_session_api], listing answered: a non-empty custom name is the
    name sent in the launch request and returned. *)
Theorem launch_session_api_custom_name post base_url token c workbench cluster resp oss :
  post (format_base_url base_url ++ GET_SESSION_API) get_session_payload token = PostOk resp ->
  sessions_of_response base_url resp = Ok oss ->
  nonempty c = true ->
  fst (launch_session_api post base_url token (Some c) workbench cluster) =
    [EPost (format_base_url base_url ++ GET_SESSION_API) get_session_payload;
     EPost (format_base_url base_url ++ LAUNCH_API) (launch_payload workbench c cluster)] /\
  (forall body n, snd (launch_session_api post base_url token (Some c) workbench cluster) = Ok (body, n) ->
                  n = c).
Proof.
  intros Hp Hs Hc. pose proof (launch_session_api_listing_ok post base_url token (Some c)
                                 workbench cluster resp oss Hp Hs) as H.
  cbv beta iota zeta in H. rewrite Hc in H. exact H.
Qed.

(** [launch_session_api], listing answered and no custom name (or an empty
    one): the name sent is [JupyterLab Session n] with [n] from
    [get_next_available_session_number], and no listed session has it as its
    display name. *)
Theorem launch_session_api_fresh_name post base_url token custom workbench cluster resp oss :
  post (format_base_url base_url ++ GET_SESSION_API) get_session_payload token = PostOk resp ->
  sessions_of_response base_url resp = Ok oss ->
  truthy_str custom = false ->
  let existing := match oss with Some l => l | None => [] end in
  let name := session_prefix ++ str_of_Z (get_next_available_session_number existing) in
  (forall si, In si existing -> display_name si <> name) /\
  fst (launch_session_api post base_url token custom workbench cluster) =
    [EPost (format_base_url base_url ++ GET_SESSION_API) get_session_payload;
     EPost (format_base_url base_url ++ LAUNCH_API) (launch_payload workbench name cluster)] /\
  (forall body n, snd (launch_session_api post base_url token custom workbench cluster) = Ok (body, n) ->
                  n = name).
Proof.
  intros Hp Hs Hc existing name. split; [apply generated_name_fresh|].
  pose proof (launch_session_api_listing_ok post base_url token custom
                workbench cluster resp oss Hp Hs) as H.
  cbv zeta in H. destruct custom as [c|]; [|exact H].
  cbn [truthy_str] in Hc. rewrite Hc in H. exact H.
Qed.

(** [launch_session_api], listing failed (the POST failed, its body was no
    JSON, or a listed session could not be read): the name sent is
    [JupyterLab Session 1], whatever custom name was asked for. *)
Theorem launch_session_api_fallback_name post base_url token custom workbench cluster :
  ((exists m, post (format_base_url base_url ++ GET_SESSION_API) get_session_payload token
              = PostRequestError m) \/
   (exists m, post (format_base_url base_url ++ GET_SESSION_API) get_session_payload token
              = PostBadJson m) \/
   (exists resp e, post (format_base_url base_url ++ GET_SESSION_API) get_session_payload token
                   = PostOk resp /\ sessions_of_response base_url resp = Raise e)) ->
  fst (launch_session_api post base_url token custom workbench cluster) =
    [EPost (format_base_url base_url ++ GET_SESSION_API) get_session_payload;
     EPost (format_base_url base_url ++ LAUNCH_API)
       (launch_payload workbench "JupyterLab Session 1" cluster)] /\
  (forall body n, snd (launch_session_api post base_url token custom workbench cluster) = Ok (body, n) ->
                  n = "JupyterLab Session 1").
Proof.
  intro H. unfold launch_session_api, get_sessions_api, make_api_request.
  fold get_session_payload.
  destruct H as [[m Hp]|[[m Hp]|[resp [e [Hp Hs]]]]]; rewrite Hp; cbn [mbind lift];
    [| |rewrite Hs]; cbn [ret try_catch_all mbind app];
    destruct (post _ (launch_payload _ _ _) token); cbn [fst snd app ret];
    (split; [reflexivity|]); intros b n Hb; inversion Hb; reflexivity.
Qed.

(** ** The stop request's session ids *)

Lemma list_ascii_of_string_app (a b : string) :
  list_ascii_of_string (a ++ b) = app (list_ascii_of_string a) (list_ascii_of_string b).
Proof. induction a as [|x a IH]; simpl; [reflexivity | rewrite IH; reflexivity]. Qed.

Lemma split_on_acc_skip (c : ascii) (x : string) (cur rest : list ascii) :
  has_char c x = false ->
  split_on_acc c cur (app (list_ascii_of_string x) rest)
  = split_on_acc c (app (rev (list_ascii_of_string x)) cur) rest.
Proof.
  revert cur. induction x as [|d x IH]; intros cur Hx; [reflexivity|].
  cbn [has_char] in Hx. apply orb_false_iff in Hx. destruct Hx as [Hcd Hx].
  cbn [list_ascii_of_string app split_on_acc]. rewrite Hcd, IH by exact Hx.
  cbn [rev]. rewrite <- app_assoc. reflexivity.
Qed.

Lemma split_on_no_sep (c : ascii) (x : string) (rest : list ascii) :
  has_char c x = false ->
  split_on_acc c [] (app (list_ascii_of_string x) (c :: rest)) = x :: split_on_acc c [] rest.
Proof.
  intro Hx. rewrite split_on_acc_skip by exact Hx. cbn [split_on_acc].
  rewrite Ascii.eqb_refl, app_nil_r, rev_involutive, string_of_list_ascii_of_string.
  reflexivity.
Qed.

Lemma split_on_join_comma (ids : list string) :
  ids <> [] -> Forall (fun s => has_char comma s = false) ids ->
  split_on comma (join_comma ids) = ids.
Proof.
  induction ids as [|x r IH]; intros Hne Hf; [congruence|].
  inversion Hf as [|x' r' Hx Hr]; subst x' r'.
  destruct r as [|y r'].
  - cbn [join_comma]. unfold split_on. rewrite <- (app_nil_r (list_ascii_of_string x)).
    rewrite split_on_acc_skip by exact Hx. cbn [split_on_acc].
    rewrite !app_nil_r, rev_involutive, string_of_list_ascii_of_string. reflexivity.
  - change (join_comma (x :: y :: r')) with (x ++ String comma (join_comma (y :: r'))).
    unfold split_on. rewrite list_ascii_of_string_app. cbn [list_ascii_of_string].
    rewrite split_on_no_sep by exact Hx. f_equal. apply IH; [discriminate | exact Hr].
Qed.

(** [stop_session_api]: on every call, the one request it makes is the POST
    of the stop payload to the stop API; and the [session_ids] string of that
    payload splits at its commas back into the ids asked for, when there is
    at least one id and none holds a comma. *)
Theorem stop_session_api_ids_round_trip post base_url token ids force_quit suspend_session :
  fst (stop_session_api post base_url token ids force_quit suspend_session)
    = [EPost (format_base_url base_url ++ STOP_SESSION_API)
             (stop_payload ids force_quit suspend_session)] /\
  (ids <> [] -> Forall (fun s => has_char comma s = false) ids ->
   exists s,
     (let? kw := py_getitem (stop_payload ids force_quit suspend_session) "kwparams" in
      py_getitem kw "session_ids") = Ok (JStr s) /\
     split_on comma s = ids).
Proof.
  split; [reflexivity|].
  intros Hne Hf. exists (join_comma ids). split; [reflexivity|].
  apply split_on_join_comma; assumption.
Qed.

(** ** The sessions listed by GET /sessions *)

Ltac obind_ok H :=
  repeat match type of H with
  | obind ?m _ = Ok _ =>
      let E := fresh "E" in destruct m eqn:E; cbn [obind] in H; [|discriminate H]
  end.

Lemma extract_session_info_from (base_url : string) (d : json) (si : SessionInfo) :
  extract_session_info base_url d = Ok si -> session_from base_url si.
Proof.
  unfold extract_session_info. intro H. obind_ok H.
  injection H as <-. split; [eexists; reflexivity | reflexivity].
Qed.

Lemma map_outcome_forall {A B} (f : A -> outcome B) (P : B -> Prop) (l : list A) (ys : list B) :
  (forall x y, f x = Ok y -> P y) -> map_outcome f l = Ok ys -> Forall P ys.
Proof.
  intro Hf. revert ys. induction l as [|x r IH]; intros ys H; cbn [map_outcome] in H.
  - injection H as <-. constructor.
  - obind_ok H. injection H as <-. constructor; [eapply Hf; eassumption | apply IH; first [reflexivity | assumption]].
Qed.

Lemma sessions_of_response_from (base_url : string) (resp : json) (ss : list SessionInfo) :
  sessions_of_response base_url resp = Ok (Some ss) -> Forall (session_from base_url) ss.
Proof.
  unfold sessions_of_response. intro H.
  destruct (truthy resp); [|discriminate H]. obind_ok H.
  destruct b; [|discriminate H]. obind_ok H.
  destruct b; [|discriminate H]. obind_ok H.
  injection H as <-. eapply map_outcome_forall; [|eassumption].
  apply extract_session_info_from.
Qed.

(** GET /sessions: every session it returns comes from [extract_session_info]
    for the environment's base url (its url starts with the formatted base
    url, its [session_name] is its [display_name]); an answer with
    [success = true] has no error and reports the number of sessions, and an
    answer with [success = false] lists no session. *)
Theorem get_sessions_endpoint_sessions post user_token u e p b t success message sessions error :
  get_base_url e p = Ok b ->
  get_sessions_endpoint post user_token u e p
    = (t, Ok (mkGetSessionsResponse success message sessions error)) ->
  Forall (session_from b) sessions /\
  (success = true -> error = None /\
     message = "Found " ++ str_of_Z (Z.of_nat (length sessions)) ++ " sessions") /\
  (success = false -> sessions = []).
Proof.
  intros Hb H. unfold get_sessions_endpoint in H.
  destruct (user_token p e u) as [[un tok]|ex]; cbn [mbind lift] in H; [|discriminate H].
  rewrite Hb in H. cbn [mbind lift] in H.
  unfold get_sessions_api, make_api_request in H.
  destruct (post _ _ tok) as [resp|m|m]; cbn [mbind lift try_reraise_http app] in H;
    [|discriminate H|discriminate H].
  destruct (sessions_of_response b resp) as [[ss|]|[c d|m]] eqn:Es;
    cbn [obind mbind lift try_reraise_http app ret] in H.
  - injection H as _ <- <- <- <-. split; [exact (sessions_of_response_from _ _ _ Es)|].
    split; [auto | discriminate].
  - injection H as _ <- <- <- <-. split; [constructor|]. split; [discriminate | auto].
  - discriminate H.
  - injection H as _ <- <- <- <-. split; [constructor|]. split; [discriminate | auto].
Qed.

(** ** get_user_project_access and the launch check *)

Lemma pdict_get_set_same (kvs : list (string * list string)) (k : string) (v : list string) :
  pdict_get (pdict_set kvs k v) k = Some v.
Proof.
  induction kvs as [|[k' v'] r IH]; cbn [pdict_set pdict_get].
  - rewrite String.eqb_refl; reflexivity.
  - destruct (String.eqb k k') eqn:E; cbn [pdict_get]; rewrite E; [reflexivity | exact IH].
Qed.

Lemma pdict_get_set_other (kvs : list (string * list string)) (k k' : string) (v : list string) :
  k' <> k -> pdict_get (pdict_set kvs k v) k' = pdict_get kvs k'.
Proof.
  intro Hne. induction kvs as [|[k0 v0] r IH]; cbn [pdict_set pdict_get].
  - destruct (String.eqb k' k) eqn:E; [apply String.eqb_eq in E; congruence | reflexivity].
  - destruct (String.eqb k k0) eqn:E; cbn [pdict_get].
    + apply String.eqb_eq in E; subst k0.
      destruct (String.eqb k' k) eqn:E'; [apply String.eqb_eq in E'; congruence | reflexivity].
    + rewrite IH; reflexivity.
Qed.

Lemma assoc_not_key (kvs : list (string * json)) (k : string) :
  ~ In k (map fst kvs) -> assoc kvs k = None.
Proof.
  induction kvs as [|[k' v'] r IH]; cbn [assoc map fst]; intro H; [reflexivity|].
  destruct (String.eqb k k') eqn:E.
  - apply String.eqb_eq in E. subst. exfalso. apply H. left. reflexivity.
  - apply IH. intro Hr. apply H. right. exact Hr.
Qed.

Lemma accessible_envs_spec (ug : list string) (kvs : list (string * json)) (envs : list string) :
  NoDup (map fst kvs) -> accessible_envs ug kvs = Ok envs ->
  forall e, In e envs <-> exists ec, assoc kvs e = Some ec /\ env_grants ug ec = Ok true.
Proof.
  revert envs. induction kvs as [|[e1 ec1] r IH]; intros envs Hnd H e; cbn [accessible_envs] in H.
  - injection H as <-. split; [intros []|intros [ec [Ha _]]; discriminate Ha].
  - cbn [map fst] in Hnd. inversion Hnd as [|x l Hn1 Hnd']; subst x l.
    obind_ok H. injection H as <-. rename b into g.
    specialize (IH l Hnd' eq_refl e). cbn [assoc].
    destruct (String.eqb e e1) eqn:Ee.
    + apply String.eqb_eq in Ee. subst e.
      assert (Hnl : ~ In e1 l).
      { intro Hl. apply IH in Hl. destruct Hl as [ec [Ha _]].
        rewrite assoc_not_key in Ha by exact Hn1. discriminate Ha. }
      destruct g; split.
      * intros _. exists ec1. auto.
      * intros _. left. reflexivity.
      * intro Hl. contradiction.
      * intros [ec [Ha Hg]]. injection Ha as <-. congruence.
    + assert (Hne : e1 <> e) by (intro Hx; subst; rewrite String.eqb_refl in Ee; discriminate).
      destruct g; [|exact IH]. split.
      * intros [Hx|Hl]; [contradiction | apply IH; exact Hl].
      * intro Hx. right. apply IH. exact Hx.
Qed.

Lemma projects_access_spec (ug : list string) (items : list (string * json))
    (acc0 acc : list (string * list string)) :
  NoDup (map fst items) -> projects_access ug items acc0 = Ok acc ->
  forall k,
    (forall pc, assoc items k = Some pc ->
       exists envs, check_project_access ug pc = Ok envs /\
         pdict_get acc k = match envs with [] => pdict_get acc0 k | _ => Some envs end) /\
    (assoc items k = None -> pdict_get acc k = pdict_get acc0 k).
Proof.
  revert acc0. induction items as [|[k1 pc1] r IH]; intros acc0 Hnd H k; cbn [projects_access] in H.
  - injection H as <-. split; [intros pc Ha; discriminate Ha | reflexivity].
  - cbn [map fst] in Hnd. inversion Hnd as [|x l Hn1 Hnd']; subst x l.
    obind_ok H. rename l into envs1, E into Ec.
    destruct (IH _ Hnd' H k) as [IHs IHn]. cbn [assoc].
    destruct (String.eqb k k1) eqn:Ek.
    + apply String.eqb_eq in Ek. subst k.
      rewrite (assoc_not_key r k1 Hn1) in IHn. specialize (IHn eq_refl).
      split; [|discriminate]. intros pc Hp. injection Hp as <-.
      exists envs1. split; [exact Ec|]. rewrite IHn.
      destruct envs1; [reflexivity | apply pdict_get_set_same].
    + assert (Hne : k <> k1) by (intro Hx; subst; rewrite String.eqb_refl in Ek; discriminate).
      assert (Hacc : pdict_get (match envs1 with [] => acc0 | _ => pdict_set acc0 k1 envs1 end) k
                     = pdict_get acc0 k)
        by (destruct envs1; [reflexivity | apply pdict_get_set_other; exact Hne]).
      split.
      * intros pc Hp. destruct (IHs pc Hp) as [envs [He Hg]]. exists envs. split; [exact He|].
        rewrite Hg, Hacc. reflexivity.
      * intro Hn. rewrite IHn, Hacc by exact Hn. reflexivity.
Qed.

Lemma access_decision_steps (cfg : json) (ug : list string) (p : Project) (e : Environment) :
  access_decision cfg ug p e =
    (let? pcs := py_get_default cfg "project_name" (JObject []) in
     let? pc := py_get_default pcs (project_value p) (JObject []) in
     let? ec := py_get_default pc (env_value e) (JObject []) in
     env_grants ug ec).
Proof. reflexivity. Qed.

Lemma group_config_items (cfg : json) (items : list (string * json)) :
  group_config_keys_unique cfg -> py_get_default cfg "project_name" (JObject []) = Ok (JObject items) ->
  NoDup (map fst items) /\ Forall (fun kv => keys_unique (snd kv)) items.
Proof.
  intros Hu H. destruct cfg as [| | | | |top]; try discriminate H.
  cbn [py_get_default] in H. unfold group_config_keys_unique in Hu.
  destruct (assoc top "project_name") as [v|]; injection H as H; subst; [exact Hu|].
  split; constructor.
Qed.

(** GET /user-project-access and the launch check agree: when the group
    configuration's dicts have distinct keys and the listing succeeds, the
    launch check for a project and an environment grants access exactly when
    the listing shows that environment under that project. *)
Theorem get_user_project_access_matches_launch gs groups_cmd username gs1 cfg resp :
  load_group_config false gs = (gs1, Ok cfg) ->
  group_config_keys_unique cfg ->
  get_user_project_access gs groups_cmd username = (gs1, Ok resp) ->
  forall project env,
    check_user_access_for_launch gs groups_cmd username project env = (gs1, true) <->
    exists envs, pdict_get (accessible_projects resp) (project_value project) = Some envs /\
                 In (env_value env) envs.
Proof.
  intros Hl Hu H project env. unfold get_user_project_access in H. rewrite Hl in H.
  injection H as H.
  match type of H with
  | match ?X with Ok _ => _ | Raise _ => _ end = _ =>
      destruct X as [r|[c d|m]] eqn:Ex; [injection H as <-|discriminate H|discriminate H]
  end.
  obind_ok Ex. injection Ex as <-. cbn [accessible_projects].
  rename l into ug, j into pcs, l0 into items, l1 into acc.
  destruct pcs as [| | | | |items']; try discriminate E1. injection E1 as ->.
  destruct (group_config_items cfg items Hu E0) as [Hnd Hall].
  unfold check_user_access_for_launch. rewrite Hl. cbn [obind]. rewrite E.
  cbn [obind]. rewrite access_decision_steps, E0. cbn [obind py_get_default].
  destruct (projects_access_spec ug items [] acc Hnd E2 (project_value project)) as [Hs Hn].
  assert (Hpair : forall b, (gs1, b) = (gs1, true) <-> b = true)
    by (intro b; split; [intro Hp; injection Hp as ->; reflexivity | intros ->; reflexivity]).
  rewrite Hpair. destruct (assoc items (project_value project)) as [pc|] eqn:Ep.
  - destruct (Hs pc eq_refl) as [envs [Hc Hg]]. rewrite Hg.
    destruct pc as [| | | | |ekvs]; try discriminate Hc. cbn [check_project_access] in Hc.
    assert (Hek : NoDup (map fst ekvs)).
    { apply assoc_in in Ep. rewrite Forall_forall in Hall. exact (Hall _ Ep). }
    pose proof (accessible_envs_spec ug ekvs envs Hek Hc (env_value env)) as Hspec.
    cbn [py_get_default obind].
    assert (Henvs : (exists envs', match envs with [] => pdict_get [] (project_value project)
                                                  | _ => Some envs end = Some envs' /\
                                   In (env_value env) envs') <-> In (env_value env) envs).
    { destruct envs as [|x l]; cbn [pdict_get].
      - split; [intros [e' [Hx _]]; discriminate Hx | intros []].
      - split; [intros [e' [Hx Hi]]; injection Hx as <-; exact Hi | intro Hi; exists (x :: l); auto]. }
    rewrite Henvs, Hspec.
    destruct (assoc ekvs (env_value env)) as [ec|] eqn:Ee.
    + split.
      * intro Hg'. exists ec. split; [reflexivity|]. destruct (env_grants ug ec) as [[|]|];
          [reflexivity | discriminate Hg' | discriminate Hg'].
      * intros [ec' [Hx Hg']]. injection Hx as <-. rewrite Hg'. reflexivity.
    + split; [cbv; discriminate | intros [ec' [Hx _]]; discriminate Hx].
  - rewrite (Hn eq_refl). cbn [pdict_get].
    split; [cbv; discriminate | intros [e' [Hx _]]; discriminate Hx].
Qed.

Lemma pdict_set_keys_in (kvs : list (string * list string)) (k x : string) (v : list string) :
  In x (map fst (pdict_set kvs k v)) -> x = k \/ In x (map fst kvs).
Proof.
  induction kvs as [|[k' v'] r IH]; cbn [pdict_set map fst].
  - intros [H|[]]. left. symmetry. exact H.
  - destruct (String.eqb k k'); cbn [map fst]; intros [H|H].
    + right. left. exact H.
    + right. right. exact H.
    + right. left. exact H.
    + destruct (IH H) as [Hx|Hx]; [left; exact Hx | right; right; exact Hx].
Qed.

Lemma pdict_set_nodup (kvs : list (string * list string)) (k : string) (v : list string) :
  NoDup (map fst kvs) -> NoDup (map fst (pdict_set kvs k v)).
Proof.
  induction kvs as [|[k' v'] r IH]; cbn [pdict_set map fst]; intro Hnd.
  - constructor; [intros []|constructor].
  - inversion Hnd as [|x l Hn Hnd']; subst x l.
    destruct (String.eqb k k') eqn:E; cbn [map fst]; [constructor; assumption|].
    constructor; [|apply IH; exact Hnd'].
    intro Hin. destruct (pdict_set_keys_in r k k' v Hin) as [Hx|Hx]; [|contradiction].
    subst. rewrite String.eqb_refl in E. discriminate.
Qed.

Lemma pdict_set_nonempty (kvs : list (string * list string)) (k : string) (v : list string) :
  Forall (fun kv => snd kv <> []) kvs -> v <> [] -> Forall (fun kv => snd kv <> []) (pdict_set kvs k v).
Proof.
  intros Hf Hv. induction Hf as [|[k' v'] r Hx Hr IH]; cbn [pdict_set].
  - constructor; [exact Hv | constructor].
  - destruct (String.eqb k k'); constructor; auto.
Qed.

Lemma projects_access_invariant (ug : list string) (items : list (string * json))
    (acc0 acc : list (string * list string)) :
  NoDup (map fst acc0) -> Forall (fun kv => snd kv <> []) acc0 ->
  projects_access ug items acc0 = Ok acc ->
  NoDup (map fst acc) /\ Forall (fun kv => snd kv <> []) acc.
Proof.
  revert acc0. induction items as [|[k pc] r IH]; intros acc0 Hnd Hf H; cbn [projects_access] in H.
  - injection H as <-. auto.
  - obind_ok H. refine (IH _ _ _ H).
    + destruct l; [exact Hnd | apply pdict_set_nodup; exact Hnd].
    + destruct l; [exact Hf | apply pdict_set_nonempty; [exact Hf | discriminate]].
Qed.

Lemma get_user_project_access_ok gs groups_cmd username gs1 resp :
  get_user_project_access gs groups_cmd username = (gs1, Ok resp) ->
  exists cfg ug pcs items acc,
    load_group_config false gs = (gs1, Ok cfg) /\
    get_user_groups (groups_cmd username) = Ok ug /\
    py_get_default cfg "project_name" (JObject []) = Ok pcs /\
    py_items pcs = Ok items /\
    projects_access ug items [] = Ok acc /\
    resp = mkUserAccessResponse username ug acc (match acc with [] => false | _ => true end).
Proof.
  unfold get_user_project_access. destruct (load_group_config false gs) as [g r] eqn:El.
  intro H. injection H as <- H.
  match type of H with
  | match ?X with Ok _ => _ | Raise _ => _ end = _ =>
      destruct X as [r'|[c d|m]] eqn:Ex; [injection H as <-|discriminate H|discriminate H]
  end.
  obind_ok Ex. injection Ex as <-. do 5 eexists. repeat split; eassumption.
Qed.

(** GET /user-project-access: a successful answer names the user asked
    about, lists each project at most once and only with a non-empty list of
    environments, and has [has_access] set exactly when some project is
    listed. *)
Theorem get_user_project_access_response gs groups_cmd username gs1 resp :
  get_user_project_access gs groups_cmd username = (gs1, Ok resp) ->
  ua_username resp = username /\
  NoDup (map fst (accessible_projects resp)) /\
  Forall (fun kv => snd kv <> []) (accessible_projects resp) /\
  (has_access resp = true <-> accessible_projects resp <> []).
Proof.
  intro H. destruct (get_user_project_access_ok _ _ _ _ _ H)
    as [cfg [ug [pcs [items [acc [_ [_ [_ [_ [Hp ->]]]]]]]]]].
  cbn [ua_username accessible_projects has_access].
  destruct (projects_access_invariant ug items [] acc (NoDup_nil _) (Forall_nil _) Hp) as [H1 H2].
  split; [reflexivity|]. split; [exact H1|]. split; [exact H2|].
  destruct acc; split; congruence.
Qed.

Lemma env_grants_no_groups (ec : json) (g : bool) : env_grants [] ec = Ok g -> g = false.
Proof.
  unfold env_grants. intro H. obind_ok H. injection H as <-. clear E0.
  induction l as [|x r IH]; [reflexivity|]. cbn [existsb]. rewrite IH. destruct x; reflexivity.
Qed.

Lemma accessible_envs_no_groups (kvs : list (string * json)) (envs : list string) :
  accessible_envs [] kvs = Ok envs -> envs = [].
Proof.
  revert envs. induction kvs as [|[e ec] r IH]; intros envs H; cbn [accessible_envs] in H.
  - injection H as <-. reflexivity.
  - obind_ok H. injection H as <-. rewrite (env_grants_no_groups _ _ E). apply IH. reflexivity.
Qed.

Lemma projects_access_no_groups (items : list (string * json)) (acc0 acc : list (string * list string)) :
  projects_access [] items acc0 = Ok acc -> acc = acc0.
Proof.
  revert acc0. induction items as [|[k pc] r IH]; intros acc0 H; cbn [projects_access] in H.
  - injection H as <-. reflexivity.
  - obind_ok H. destruct pc as [| | | | |kvs]; try discriminate E.
    cbn [check_project_access] in E. rewrite (accessible_envs_no_groups _ _ E) in H.
    exact (IH _ H).
Qed.

(** GET /user-project-access for a user the [groups] command fails on
    (non-zero exit): the user has no groups, and a successful answer lists
    no project and has [has_access = false]. *)
Theorem get_user_project_access_unknown_user gs groups_cmd username gs1 resp :
  groups_cmd username = CmdCalledProcessError ->
  get_user_project_access gs groups_cmd username = (gs1, Ok resp) ->
  ua_user_groups resp = [] /\ accessible_projects resp = [] /\ has_access resp = false.
Proof.
  intros Hc H. destruct (get_user_project_access_ok _ _ _ _ _ H)
    as [cfg [ug [pcs [items [acc [_ [Hg [_ [_ [Hp ->]]]]]]]]]].
  rewrite Hc in Hg. injection Hg as <-. rewrite (projects_access_no_groups _ _ _ Hp).
  repeat split.
Qed.

Lemma load_group_config_raise_http (force : bool) (s s1 : Cache) (ex : py_exn) :
  load_group_config force s = (s1, Raise ex) -> exists c d, ex = HTTPException c d.
Proof.
  unfold load_group_config. destruct (disk_file s) as [[[j|] m]|].
  - destruct (reload_needed s force m); intro H; discriminate H.
  - destruct (reload_needed s force m); intro H; inversion H; eauto.
  - intro H; inversion H; eauto.
Qed.

(** GET /user-project-access when the group configuration cannot be loaded:
    the loader's [HTTPException] reaches the client unchanged, while the
    launch check for any project and environment answers [False]. *)
Theorem get_user_project_access_load_error gs groups_cmd username gs1 ex project env :
  load_group_config false gs = (gs1, Raise ex) ->
  get_user_project_access gs groups_cmd username = (gs1, Raise ex) /\
  check_user_access_for_launch gs groups_cmd username project env = (gs1, false).
Proof.
  intro Hl. destruct (load_group_config_raise_http _ _ _ _ Hl) as [c [d ->]].
  unfold get_user_project_access, check_user_access_for_launch. rewrite Hl. split; reflexivity.
Qed.

(** GET /user-project-access when the [groups] command is missing or fails
    in another way: the endpoint answers with an HTTP 500, while the launch
    check for any project and environment answers [False]. *)
Theorem get_user_project_access_groups_error gs groups_cmd username gs1 cfg project env :
  load_group_config false gs = (gs1, Ok cfg) ->
  (groups_cmd username = CmdFileNotFound \/ exists m, groups_cmd username = CmdOtherError m) ->
  (exists detail, get_user_project_access gs groups_cmd username
                  = (gs1, Raise (HTTPException 500 detail))) /\
  check_user_access_for_launch gs groups_cmd username project env = (gs1, false).
Proof.
  intros Hl Hc. unfold get_user_project_access, check_user_access_for_launch. rewrite Hl.
  cbn [obind]. destruct Hc as [Hc|[m Hc]]; rewrite Hc; cbn [get_user_groups obind];
    (split; [eexists; reflexivity | reflexivity]).
Qed.

(** ** GET /token *)

Lemma lookup_token_ok (d : json) (pn : string) (e : Environment) (u : string) (t : json) :
  lookup_token d pn e u = Ok t ->
  exists top pkvs ekvs, d = JObject top /\ assoc top pn = Some (JObject pkvs) /\
    assoc pkvs (env_value e) = Some (JObject ekvs) /\ assoc ekvs u = Some t.
Proof.
  unfold lookup_token. intro H.
  destruct d as [| | | | |top]; try discriminate H. cbn [py_get obind] in H.
  destruct (assoc top pn) as [pd|] eqn:Ep; [|discriminate H].
  destruct (truthy pd); [|discriminate H].
  destruct pd as [| | | | |pkvs]; try discriminate H. cbn [py_get obind] in H.
  destruct (assoc pkvs (env_value e)) as [ed|] eqn:Ee; [|discriminate H].
  destruct (truthy ed); [|discriminate H].
  destruct ed as [| | | | |ekvs]; try discriminate H. cbn [py_get obind] in H.
  destruct (assoc ekvs u) as [t'|] eqn:Eu; [|discriminate H].
  destruct (truthy t'); [|discriminate H]. injection H as <-.
  exists top, pkvs, ekvs. auto.
Qed.

(** GET /token: a successful answer carries the username asked about and
    the token [get_token_from_memory] finds for it (a string), and that
    username is among the [available_users] listed with it. *)
Theorem get_token_user_listed project env username s s' resp :
  get_token project env username s = (s', Ok resp) ->
  tr_username resp = username /\
  get_token_from_memory (project_value project) env username s = (s', Ok (JStr (tr_token resp))) /\
  In username (available_users resp).
Proof.
  unfold get_token. destruct (get_token_from_memory (project_value project) env username s)
    as [s1 [tok|ex]] eqn:Eg; intro H; [|discriminate H].
  pose proof Eg as Eg'. unfold get_token_from_memory in Eg'.
  destruct (load_tokens_data false s) as [s0 r] eqn:El. injection Eg' as <- Er.
  destruct r as [d|ex]; cbn [obind] in Er; [|discriminate Er].
  pose proof (tokens_load_stable _ _ _ _ El) as Hst.
  unfold get_available_users_from_memory in H. rewrite Hst in H. cbn [obind] in H.
  destruct (lookup_token_ok _ _ _ _ _ Er) as [top [pkvs [ekvs [-> [Hp [He Hu]]]]]].
  unfold collect_users in H. cbn [obind users_of_projects py_get_default] in H.
  rewrite Hp in H. cbn [obind users_of_envs py_get_default] in H. rewrite He in H.
  cbn [obind py_keys users_of_envs users_of_projects] in H.
  destruct tok as [| | | t | |]; injection H as <- H; try discriminate H.
  subst resp. cbn [tr_username tr_token available_users].
  split; [reflexivity|]. split; [reflexivity|].
  apply (Permutation_in _ (Permutation_sym (sort_strings_perm _))).
  apply (proj2 (set_update_spec (map fst ekvs) [] (NoDup_nil _))). right.
  exact (assoc_some_key _ _ _ Hu).
Qed.

(** ** A successful launch *)

Ltac ok_steps H :=
  repeat match type of H with
  | obind ?m _ = Ok _ =>
      let E := fresh "E" in destruct m eqn:E; cbn [obind] in H; [|discriminate H]
  | (if ?b then _ else _) = Ok _ =>
      let E := fresh "E" in destruct b eqn:E; [|try discriminate H]
  end.

Lemma launch_result_success (base_url : string) (rd : json) (n : string) msg url sn err :
  launch_result base_url rd n = Ok (mkLaunchSessionResponse true msg url sn err) ->
  exists su, url = Some (format_base_url base_url ++ su) /\ sn = Some n /\ err = None /\
             msg = "Session launched successfully".
Proof.
  unfold launch_result. intro H. ok_steps H.
  injection H as <- <- <- <-. eexists. auto.
Qed.

Lemma launch_session_api_ok post base_url token custom workbench cluster t body n :
  launch_session_api post base_url token custom workbench cluster = (t, Ok (body, n)) ->
  exists t0, t = app t0 [EPost (format_base_url base_url ++ LAUNCH_API) (launch_payload workbench n cluster)] /\
    post (format_base_url base_url ++ LAUNCH_API) (launch_payload workbench n cluster) token = PostOk body.
Proof.
  unfold launch_session_api. destruct (try_catch_all _ _) as [t0 [name|ex]]; cbn [mbind];
    [|intro H; discriminate H].
  unfold make_api_request.
  destruct (post (format_base_url base_url ++ LAUNCH_API) (launch_payload workbench name cluster) token)
    as [b|m|m] eqn:Ep; cbn [mbind ret app]; intro H; [|discriminate H|discriminate H].
  injection H as <- <- <-. exists t0. rewrite ?app_nil_r. split; [reflexivity | exact Ep].
Qed.

(** POST /launch-session: a successful answer comes from the session API's
    answer to the launch request, which is the last call the endpoint makes;
    its [session_name] is the name sent in that request and its
    [session_url] starts with the formatted base url of the request's
    environment and project. *)
Theorem launch_session_endpoint_success post node_get check_access user_token request username
    t message session_url session_name error :
  launch_session_endpoint post node_get check_access user_token request username
    = (t, Ok (mkLaunchSessionResponse true message session_url session_name error)) ->
  exists base_url name su t0,
    get_base_url (env request) (project request) = Ok base_url /\
    session_name = Some name /\
    session_url = Some (format_base_url base_url ++ su) /\
    error = None /\ message = "Session launched successfully" /\
    t = app t0 [EPost (format_base_url base_url ++ LAUNCH_API)
                  (launch_payload (workbench request) name (cluster request))].
Proof.
  unfold launch_session_endpoint.
  destruct (negb (check_access username (project request) (env request))); [intro H; discriminate H|].
  destruct (user_token (project request) (env request) username) as [[un tok]|ex];
    cbn [mbind lift]; [|intro H; discriminate H].
  destruct (get_base_url_ok (env request) (project request)) as [b Hb]. rewrite Hb.
  cbn [mbind lift app].
  match goal with
  | |- context [try_reraise_http ?X _] => destruct X as [tx rx] eqn:EX
  end.
  destruct rx as [r|[c d|m]]; cbn [try_reraise_http ret app]; intro H;
    [|discriminate H|discriminate H].
  injection H as -> ->.
  match type of EX with
  | mbind ?V _ = _ => destruct V as [tv [v|ev]]; cbn [mbind] in EX; [|discriminate EX]
  end.
  destruct (launch_session_api post b tok (req_session_name request) (workbench request) (cluster request))
    as [tl [[rd n]|el]] eqn:EL; cbn [mbind lift app] in EX; [|discriminate EX].
  destruct (launch_result b rd n) as [r'|e'] eqn:ER; [|discriminate EX].
  injection EX as <- ->.
  destruct (launch_result_success _ _ _ _ _ _ _ ER) as [su [H1 [H2 [H3 H4]]]].
  destruct (launch_session_api_ok _ _ _ _ _ _ _ _ _ EL) as [t0 [Ht _]].
  exists b, n, su, (app tv t0). repeat split; auto.
  rewrite app_nil_r, Ht, app_assoc. reflexivity.
Qed.

(** ** POST /stop-session *)

(** POST /stop-session: the last call it makes is the stop request for the
    request's session ids; an answer with [success = true] lists exactly those
    ids as stopped and counts them in its message, and an answer with
    [success = false] lists none. *)
Theorem stop_session_endpoint_result post user_token request username
    t success message stopped error :
  stop_session_endpoint post user_token request username
    = (t, Ok (mkStopSessionResponse success message stopped error)) ->
  exists base_url t0,
    get_base_url (stop_env request) (stop_project request) = Ok base_url /\
    t = app t0 [EPost (format_base_url base_url ++ STOP_SESSION_API)
                  (stop_payload (session_ids request) (force_quit request) (suspend_session request))] /\
    (success = true -> stopped = session_ids request /\ error = None /\
       message = "Successfully stopped " ++ str_of_Z (Z.of_nat (length (session_ids request)))
                 ++ " sessions") /\
    (success = false -> stopped = []).
Proof.
  unfold stop_session_endpoint.
  destruct (user_token (stop_project request) (stop_env request) username) as [[un tok]|ex];
    cbn [mbind lift]; [|intro H; discriminate H].
  destruct (get_base_url_ok (stop_env request) (stop_project request)) as [b Hb]. rewrite Hb.
  cbn [mbind lift app]. unfold stop_session_api, make_api_request.
  destruct (post _ (stop_payload _ _ _) tok) as [body|m|m]; cbn [mbind try_reraise_http app];
    [|intro H; discriminate H|intro H; discriminate H].
  intro H. exists b, []. destruct (truthy body); cbn [ret app] in H; injection H as <- <- <- <- <-;
    (split; [reflexivity|]); (split; [reflexivity|]); split; intro Hs; try discriminate Hs; auto.
Qed.

(** ** Instances of the further properties on sample inputs *)

Lemma loaders_idempotent_witness :
  load_tokens_data true (mkCache None None (Some (Parsed example_tokens, 5)))
    = (example_cache, Ok example_tokens) /\
  load_tokens_data false example_cache = (example_cache, Ok example_tokens).
Proof.
  assert (H : load_tokens_data true (mkCache None None (Some (Parsed example_tokens, 5)))
              = (example_cache, Ok example_tokens)) by reflexivity.
  split; [exact H|].
  exact (proj1 (loaders_idempotent true _ example_cache example_tokens) H).
Defined.

Lemma reload_endpoints_refresh_witness :
  disk_file example_cache = Some (Parsed example_tokens, 5) /\
  exists s', reload_tokens "2026-01-01" example_cache =
               (s', Ok (mkReloadResponse true "Tokens data reloaded successfully" "2026-01-01")) /\
             load_tokens_data false s' = (s', Ok example_tokens).
Proof.
  split; [reflexivity|].
  exact (proj1 (reload_endpoints_refresh "2026-01-01" example_cache example_tokens 5 eq_refl)).
Defined.

Lemma reload_endpoints_failure_witness :
  disk_file (mkCache (Some example_tokens) (Some 5) None) = None /\
  reload_tokens "2026-01-01" (mkCache (Some example_tokens) (Some 5) None)
    = (mkCache (Some example_tokens) (Some 5) None,
       Raise (HTTPException 500 "Failed to reload tokens")).
Proof.
  split; [reflexivity|].
  exact (proj1 (reload_endpoints_failure "2026-01-01" (mkCache (Some example_tokens) (Some 5) None)
           (or_introl eq_refl))).
Defined.

Lemma add_token_to_file_then_lookup_witness :
  add_token_to_file PROJECT1 DEV "carl" "t9" 7 example_cache
    = (fst (add_token_to_file PROJECT1 DEV "carl" "t9" 7 example_cache), Ok tt) /\
  get_token_from_memory "PROJECT1" DEV "carl" (fst (add_token_to_file PROJECT1 DEV "carl" "t9" 7 example_cache))
    = (fst (add_token_to_file PROJECT1 DEV "carl" "t9" 7 example_cache), Ok (JStr "t9")).
Proof.
  assert (H : add_token_to_file PROJECT1 DEV "carl" "t9" 7 example_cache
              = (fst (add_token_to_file PROJECT1 DEV "carl" "t9" 7 example_cache), Ok tt))
    by (vm_compute; reflexivity).
  split; [exact H|].
  exact (add_token_to_file_then_lookup PROJECT1 DEV "carl" "t9" 7 example_cache _ H eq_refl).
Defined.

Lemma generate_user_token_output_witness :
  generate_user_token (CmdOk ("id | abc123 |" ++ String newline EmptyString)) = Ok "abc123" /\
  nonempty "abc123" = true /\ py_strip "abc123" = "abc123".
Proof.
  assert (H : generate_user_token (CmdOk ("id | abc123 |" ++ String newline EmptyString)) = Ok "abc123")
    by (vm_compute; reflexivity).
  split; [exact H|]. exact (generate_user_token_output _ _ H).
Defined.

Lemma get_or_create_user_token_idempotent_witness :
  get_or_create_user_token PROJECT1 DEV "carl" true (CmdOk "| tok9 |") 7 example_cache
    = (fst (get_or_create_user_token PROJECT1 DEV "carl" true (CmdOk "| tok9 |") 7 example_cache),
       Ok ("carl", JStr "tok9")) /\
  get_or_create_user_token PROJECT1 DEV "carl" false CmdCalledProcessError 8
      (fst (get_or_create_user_token PROJECT1 DEV "carl" true (CmdOk "| tok9 |") 7 example_cache))
    = (fst (get_or_create_user_token PROJECT1 DEV "carl" true (CmdOk "| tok9 |") 7 example_cache),
       Ok ("carl", JStr "tok9")).
Proof.
  assert (H : get_or_create_user_token PROJECT1 DEV "carl" true (CmdOk "| tok9 |") 7 example_cache
    = (fst (get_or_create_user_token PROJECT1 DEV "carl" true (CmdOk "| tok9 |") 7 example_cache),
       Ok ("carl", JStr "tok9"))) by (vm_compute; reflexivity).
  split; [exact H|].
  exact (get_or_create_user_token_idempotent PROJECT1 DEV "carl" true (CmdOk "| tok9 |") 7
           example_cache _ "carl" (JStr "tok9") false CmdCalledProcessError 8 H).
Defined.

Lemma get_or_create_user_token_load_error_witness :
  load_tokens_data false (mkCache None None None)
    = (mkCache None None None,
       Raise (HTTPException 500 "Error loading token file: Token file 'tokens.json' not found")) /\
  get_or_create_user_token PROJECT1 DEV "bob" true (CmdOk "| t |") 7 (mkCache None None None)
    = (mkCache None None None,
       Raise (HTTPException 500 "Error loading token file: Token file 'tokens.json' not found")).
Proof.
  assert (H : load_tokens_data false (mkCache None None None)
    = (mkCache None None None,
       Raise (HTTPException 500 "Error loading token file: Token file 'tokens.json' not found")))
    by reflexivity.
  split; [exact H|]. exact (get_or_create_user_token_load_error PROJECT1 DEV "bob" true _ 7 _ _ _ H).
Defined.

Lemma get_or_create_user_token_no_write_witness :
  disk_file (fst (get_or_create_user_token PROJECT1 DEV "carl" false (CmdOk "| t |") 7 example_cache))
  = disk_file example_cache.
Proof.
  exact (get_or_create_user_token_no_write PROJECT1 DEV "carl" false (CmdOk "| t |") 7 example_cache
           (or_introl eq_refl)).
Defined.

Lemma get_user_groups_words_witness :
  get_user_groups (CmdOk "bob : bob wheel") = Ok ["bob"; "wheel"] /\ Forall no_space ["bob"; "wheel"].
Proof.
  assert (H : get_user_groups (CmdOk "bob : bob wheel") = Ok ["bob"; "wheel"]) by (vm_compute; reflexivity).
  split; [exact H|]. exact (proj1 (get_user_groups_words _ _ H)).
Defined.

Lemma launch_session_api_custom_name_witness :
  example_post (format_base_url "dev-project1.example.com" ++ GET_SESSION_API) get_session_payload (JStr "t1")
    = PostOk example_session_list /\
  sessions_of_response "dev-project1.example.com" example_session_list
    = Ok (Some [mkSessionInfo "s1" "https://dev-project1.example.com/s/1"
                  "JupyterLab Session 1" "JupyterLab Session 1"]) /\
  fst (launch_session_api example_post "dev-project1.example.com" (JStr "t1") (Some "my-lab") "jupyter" "c1")
    = [EPost (format_base_url "dev-project1.example.com" ++ GET_SESSION_API) get_session_payload;
       EPost (format_base_url "dev-project1.example.com" ++ LAUNCH_API) (launch_payload "jupyter" "my-lab" "c1")].
Proof.
  assert (H1 : example_post (format_base_url "dev-project1.example.com" ++ GET_SESSION_API)
                 get_session_payload (JStr "t1") = PostOk example_session_list)
    by (vm_compute; reflexivity).
  assert (H2 : sessions_of_response "dev-project1.example.com" example_session_list
    = Ok (Some [mkSessionInfo "s1" "https://dev-project1.example.com/s/1"
                  "JupyterLab Session 1" "JupyterLab Session 1"])) by (vm_compute; reflexivity).
  split; [exact H1|]. split; [exact H2|].
  exact (proj1 (launch_session_api_custom_name example_post _ _ "my-lab" "jupyter" "c1" _ _ H1 H2 eq_refl)).
Defined.

Lemma launch_session_api_fresh_name_witness :
  example_post (format_base_url "dev-project1.example.com" ++ GET_SESSION_API) get_session_payload (JStr "t1")
    = PostOk example_session_list /\
  sessions_of_response "dev-project1.example.com" example_session_list
    = Ok (Some [mkSessionInfo "s1" "https://dev-project1.example.com/s/1"
                  "JupyterLab Session 1" "JupyterLab Session 1"]) /\
  forall si, In si [mkSessionInfo "s1" "https://dev-project1.example.com/s/1"
                      "JupyterLab Session 1" "JupyterLab Session 1"] ->
    display_name si <> session_prefix ++ str_of_Z (get_next_available_session_number
      [mkSessionInfo "s1" "https://dev-project1.example.com/s/1"
         "JupyterLab Session 1" "JupyterLab Session 1"]).
Proof.
  assert (H1 : example_post (format_base_url "dev-project1.example.com" ++ GET_SESSION_API)
                 get_session_payload (JStr "t1") = PostOk example_session_list)
    by (vm_compute; reflexivity).
  assert (H2 : sessions_of_response "dev-project1.example.com" example_session_list
    = Ok (Some [mkSessionInfo "s1" "https://dev-project1.example.com/s/1"
                  "JupyterLab Session 1" "JupyterLab Session 1"])) by (vm_compute; reflexivity).
  split; [exact H1|]. split; [exact H2|].
  exact (proj1 (launch_session_api_fresh_name example_post _ _ None "jupyter" "c1" _ _ H1 H2 eq_refl)).
Defined.

Lemma launch_session_api_fallback_name_witness :
  fst (launch_session_api (fun _ _ _ => PostRequestError "down") "dev-project1.example.com" (JStr "t1")
         (Some "my-lab") "jupyter" "c1")
    = [EPost (format_base_url "dev-project1.example.com" ++ GET_SESSION_API) get_session_payload;
       EPost (format_base_url "dev-project1.example.com" ++ LAUNCH_API)
         (launch_payload "jupyter" "JupyterLab Session 1" "c1")].
Proof.
  exact (proj1 (launch_session_api_fallback_name (fun _ _ _ => PostRequestError "down")
           "dev-project1.example.com" (JStr "t1") (Some "my-lab") "jupyter" "c1"
           (or_introl (ex_intro _ "down" eq_refl)))).
Defined.

Lemma stop_session_api_ids_round_trip_witness :
  ["s1"; "s2"] <> [] /\ Forall (fun s => has_char comma s = false) ["s1"; "s2"] /\
  exists s,
    (let? kw := py_getitem (stop_payload ["s1"; "s2"] false false) "kwparams" in
     py_getitem kw "session_ids") = Ok (JStr s) /\
    split_on comma s = ["s1"; "s2"].
Proof.
  assert (H1 : ["s1"; "s2"] <> []) by discriminate.
  assert (H2 : Forall (fun s => has_char comma s = false) ["s1"; "s2"]) by repeat constructor.
  split; [exact H1|]. split; [exact H2|].
  exact (proj2 (stop_session_api_ids_round_trip example_post "dev-project1.example.com" (JStr "t1")
           ["s1"; "s2"] false false) H1 H2).
Defined.

Lemma get_sessions_endpoint_sessions_witness :
  get_base_url DEV PROJECT1 = Ok "dev-project1.example.com" /\
  get_sessions_endpoint example_post example_user_token "bob" DEV PROJECT1
    = (fst (get_sessions_endpoint example_post example_user_token "bob" DEV PROJECT1),
       Ok (mkGetSessionsResponse true "Found 1 sessions"
             [mkSessionInfo "s1" "https://dev-project1.example.com/s/1"
                "JupyterLab Session 1" "JupyterLab Session 1"] None)) /\
  Forall (session_from "dev-project1.example.com")
    [mkSessionInfo "s1" "https://dev-project1.example.com/s/1"
       "JupyterLab Session 1" "JupyterLab Session 1"].
Proof.
  assert (H1 : get_base_url DEV PROJECT1 = Ok "dev-project1.example.com") by reflexivity.
  assert (H2 : get_sessions_endpoint example_post example_user_token "bob" DEV PROJECT1
    = (fst (get_sessions_endpoint example_post example_user_token "bob" DEV PROJECT1),
       Ok (mkGetSessionsResponse true "Found 1 sessions"
             [mkSessionInfo "s1" "https://dev-project1.example.com/s/1"
                "JupyterLab Session 1" "JupyterLab Session 1"] None))) by (vm_compute; reflexivity).
  split; [exact H1|]. split; [exact H2|].
  exact (proj1 (get_sessions_endpoint_sessions _ _ _ _ _ _ _ _ _ _ _ H1 H2)).
Defined.

Lemma example_group_config_keys_unique : group_config_keys_unique example_group_config.
Proof.
  cbn. split.
  - constructor; [intros [] | constructor].
  - constructor; [|constructor]. cbn. constructor; [intros [] | constructor].
Qed.

Lemma get_user_project_access_matches_launch_witness :
  load_group_config false example_group_cache = (example_group_cache, Ok example_group_config) /\
  get_user_project_access example_group_cache example_groups_cmd "bob"
    = (example_group_cache,
       Ok (mkUserAccessResponse "bob" ["bob"; "wheel"] [("PROJECT1", ["DEV"])] true)) /\
  (check_user_access_for_launch example_group_cache example_groups_cmd "bob" PROJECT1 DEV
     = (example_group_cache, true) <->
   exists envs, pdict_get [("PROJECT1", ["DEV"])] (project_value PROJECT1) = Some envs /\
                In (env_value DEV) envs).
Proof.
  assert (H1 : load_group_config false example_group_cache
               = (example_group_cache, Ok example_group_config)) by reflexivity.
  assert (H3 : get_user_project_access example_group_cache example_groups_cmd "bob"
    = (example_group_cache,
       Ok (mkUserAccessResponse "bob" ["bob"; "wheel"] [("PROJECT1", ["DEV"])] true)))
    by (vm_compute; reflexivity).
  split; [exact H1|]. split; [exact H3|].
  exact (get_user_project_access_matches_launch _ _ _ _ _ _ H1 example_group_config_keys_unique H3
           PROJECT1 DEV).
Defined.

Lemma get_user_project_access_response_witness :
  get_user_project_access example_group_cache example_groups_cmd "bob"
    = (example_group_cache,
       Ok (mkUserAccessResponse "bob" ["bob"; "wheel"] [("PROJECT1", ["DEV"])] true)) /\
  NoDup (map fst [("PROJECT1", ["DEV"])]).
Proof.
  assert (H : get_user_project_access example_group_cache example_groups_cmd "bob"
    = (example_group_cache,
       Ok (mkUserAccessResponse "bob" ["bob"; "wheel"] [("PROJECT1", ["DEV"])] true)))
    by (vm_compute; reflexivity).
  split; [exact H|]. exact (proj1 (proj2 (get_user_project_access_response _ _ _ _ _ H))).
Defined.

Lemma get_user_project_access_unknown_user_witness :
  get_user_project_access example_group_cache (fun _ => CmdCalledProcessError) "zed"
    = (example_group_cache, Ok (mkUserAccessResponse "zed" [] [] false)) /\
  has_access (mkUserAccessResponse "zed" [] [] false) = false.
Proof.
  assert (H : get_user_project_access example_group_cache (fun _ => CmdCalledProcessError) "zed"
    = (example_group_cache, Ok (mkUserAccessResponse "zed" [] [] false))) by (vm_compute; reflexivity).
  split; [exact H|].
  exact (proj2 (proj2 (get_user_project_access_unknown_user _ _ _ _ _ eq_refl H))).
Defined.

Lemma get_user_project_access_load_error_witness :
  get_user_project_access (mkCache None None None) example_groups_cmd "bob"
    = (mkCache None None None,
       Raise (HTTPException 500
         "Error loading group config: 404: Group config file 'group_config.json' not found")) /\
  check_user_access_for_launch (mkCache None None None) example_groups_cmd "bob" PROJECT1 DEV
    = (mkCache None None None, false).
Proof.
  exact (get_user_project_access_load_error (mkCache None None None) example_groups_cmd "bob" _ _
           PROJECT1 DEV eq_refl).
Defined.

Lemma get_user_project_access_groups_error_witness :
  (exists detail, get_user_project_access example_group_cache (fun _ => CmdFileNotFound) "bob"
                  = (example_group_cache, Raise (HTTPException 500 detail))) /\
  check_user_access_for_launch example_group_cache (fun _ => CmdFileNotFound) "bob" PROJECT1 DEV
    = (example_group_cache, false).
Proof.
  exact (get_user_project_access_groups_error example_group_cache (fun _ => CmdFileNotFound) "bob"
           example_group_cache example_group_config PROJECT1 DEV eq_refl (or_introl eq_refl)).
Defined.

Lemma get_token_user_listed_witness :
  get_token PROJECT1 DEV "bob" example_cache
    = (example_cache, Ok (mkTokenResponse "bob" "t1" ["al"; "bob"])) /\
  In "bob" ["al"; "bob"].
Proof.
  assert (H : get_token PROJECT1 DEV "bob" example_cache
              = (example_cache, Ok (mkTokenResponse "bob" "t1" ["al"; "bob"]))) by (vm_compute; reflexivity).
  split; [exact H|]. exact (proj2 (proj2 (get_token_user_listed _ _ _ _ _ _ H))).
Defined.

Lemma launch_session_endpoint_success_witness :
  launch_session_endpoint example_post (fun _ => GetOk) (fun _ _ _ => true) example_user_token
      (mkLaunchSessionRequest (Some "my-lab") "jupyter" "c1" DEV PROJECT1 (Some "n1")) "bob"
    = (fst (launch_session_endpoint example_post (fun _ => GetOk) (fun _ _ _ => true) example_user_token
              (mkLaunchSessionRequest (Some "my-lab") "jupyter" "c1" DEV PROJECT1 (Some "n1")) "bob"),
       Ok (mkLaunchSessionResponse true "Session launched successfully"
             (Some "https://dev-project1.example.com/s/2") (Some "my-lab") None)) /\
  exists base_url name su t0,
    get_base_url DEV PROJECT1 = Ok base_url /\ Some "my-lab" = Some name /\
    Some "https://dev-project1.example.com/s/2" = Some (format_base_url base_url ++ su) /\
    fst (launch_session_endpoint example_post (fun _ => GetOk) (fun _ _ _ => true) example_user_token
           (mkLaunchSessionRequest (Some "my-lab") "jupyter" "c1" DEV PROJECT1 (Some "n1")) "bob")
    = app t0 [EPost (format_base_url base_url ++ LAUNCH_API) (launch_payload "jupyter" name "c1")].
Proof.
  assert (H : launch_session_endpoint example_post (fun _ => GetOk) (fun _ _ _ => true) example_user_token
      (mkLaunchSessionRequest (Some "my-lab") "jupyter" "c1" DEV PROJECT1 (Some "n1")) "bob"
    = (fst (launch_session_endpoint example_post (fun _ => GetOk) (fun _ _ _ => true) example_user_token
              (mkLaunchSessionRequest (Some "my-lab") "jupyter" "c1" DEV PROJECT1 (Some "n1")) "bob"),
       Ok (mkLaunchSessionResponse true "Session launched successfully"
             (Some "https://dev-project1.example.com/s/2") (Some "my-lab") None)))
    by (vm_compute; reflexivity).
  split; [exact H|].
  destruct (launch_session_endpoint_success _ _ _ _ _ _ _ _ _ _ _ H)
    as [b [n [su [t0 [H1 [H2 [H3 [_ [_ H6]]]]]]]]].
  exists b, n, su, t0. auto.
Defined.

Lemma stop_session_endpoint_result_witness :
  stop_session_endpoint example_post example_user_token (mkStopSessionRequest ["s1"] false false DEV PROJECT1) "bob"
    = (fst (stop_session_endpoint example_post example_user_token
              (mkStopSessionRequest ["s1"] false false DEV PROJECT1) "bob"),
       Ok (mkStopSessionResponse true "Successfully stopped 1 sessions" ["s1"] None)) /\
  exists base_url t0,
    get_base_url DEV PROJECT1 = Ok base_url /\
    fst (stop_session_endpoint example_post example_user_token
           (mkStopSessionRequest ["s1"] false false DEV PROJECT1) "bob")
    = app t0 [EPost (format_base_url base_url ++ STOP_SESSION_API) (stop_payload ["s1"] false false)].
Proof.
  assert (H : stop_session_endpoint example_post example_user_token
                (mkStopSessionRequest ["s1"] false false DEV PROJECT1) "bob"
    = (fst (stop_session_endpoint example_post example_user_token
              (mkStopSessionRequest ["s1"] false false DEV PROJECT1) "bob"),
       Ok (mkStopSessionResponse true "Successfully stopped 1 sessions" ["s1"] None)))
    by (vm_compute; reflexivity).
  split; [exact H|].
  destruct (stop_session_endpoint_result _ _ _ _ _ _ _ _ _ H) as [b [t0 [H1 [H2 _]]]].
  exists b, t0. auto.
Defined.
